(** * apihttpwrapper: the argument-binding and invocation core

    A shallow embedding of [service_handler.go]: the signature validator
    ([checkServiceMethodPrototype], [NewServiceHandler]), the argument binder
    ([parseArgument]), the invoker ([doServiceMethodCall]) and the response
    formatter with its access-log tail ([ServeHTTPWithParams]).

    The Go file is glue around libraries (reflect, net/http, encoding/json,
    gorilla/schema, time).  What the file itself decides is embedded as
    executable definitions; what the libraries decide is either modelled from
    their documented behaviour (reflection on types, the response writer,
    header keys, the time layout) or kept as the operations of the class
    [Runtime], so that every theorem holds for any behaviour of the decoders
    and encoders.  Calls to the request tracer touch no state the properties
    below talk about and are left out. *)

From Stdlib Require Import ZArith String Ascii List Bool Lia.
From stdpp Require Import base option strings gmap.

Local Set Warnings "-register-all".
Local Open Scope string_scope.
Local Open Scope Z_scope.

(** ** Results of fallible library calls: a Go [error] is its message. *)

Inductive result (A : Type) : Type :=
| Ok (a : A)
| Err (e : string).
Arguments Ok {A} a.
Arguments Err {A} e.

Definition is_ok {A} (r : result A) : bool :=
  match r with Ok _ => true | Err _ => false end.

(** ** Types as reflection shows them *)

Module reflect.

(** The kinds the program can meet; the validator compares against
    [Ptr], [Struct], [Map], [String], [Interface], [Slice] and [Func]. *)
Inductive Kind : Type :=
| Bool | Int | Int64 | Uint | Float64 | String | Array | Chan
| Func | Interface | Map | Ptr | Slice | Struct | UnsafePointer.

Definition Kind_eqb (a b : Kind) : bool :=
  match a, b with
  | Bool, Bool | Int, Int | Int64, Int64 | Uint, Uint | Float64, Float64
  | String, String | Array, Array | Chan, Chan | Func, Func
  | Interface, Interface | Map, Map | Ptr, Ptr | Slice, Slice
  | Struct, Struct | UnsafePointer, UnsafePointer => true
  | _, _ => false
  end.

(** Kinds of the types reflection is only asked the kind and name of. *)
Inductive Plain : Type :=
| PBool | PInt | PInt64 | PUint | PFloat64 | PString | PArray | PChan
| PUnsafePointer.

Definition Plain_kind (p : Plain) : Kind :=
  match p with
  | PBool => Bool | PInt => Int | PInt64 => Int64 | PUint => Uint
  | PFloat64 => Float64 | PString => String | PArray => Array
  | PChan => Chan | PUnsafePointer => UnsafePointer
  end.

(** A type.  [name] is what [Name()] returns: the declared name of a
    defined type, the empty string for a type literal.  An interface
    carries the names of its methods, a record the names of its fields. *)
Inductive Type_ : Type :=
| TPlain (p : Plain) (name : string)
| TStruct (name : string) (fields : list string)
| TPtr (elem : Type_)
| TSlice (elem : Type_)
| TMap (key elem : Type_)
| TInterface (name : string) (methods : list string)
| TFunc (ins outs : list Type_) (variadic : bool).

Definition Kind_of (t : Type_) : Kind :=
  match t with
  | TPlain p _ => Plain_kind p
  | TStruct _ _ => Struct
  | TPtr _ => Ptr
  | TSlice _ => Slice
  | TMap _ _ => Map
  | TInterface _ _ => Interface
  | TFunc _ _ _ => Func
  end.

Definition Name (t : Type_) : string :=
  match t with
  | TPlain _ n | TStruct n _ | TInterface n _ => n
  | _ => ""
  end.

(** [Elem], [Key], [In] and [Out] panic in Go when the type has no such
    part; [None] stands for that panic. *)
Definition Elem (t : Type_) : option Type_ :=
  match t with
  | TPtr e | TSlice e | TMap _ e => Some e
  | _ => None
  end.

Definition Key (t : Type_) : option Type_ :=
  match t with
  | TMap k _ => Some k
  | _ => None
  end.

Definition NumIn (t : Type_) : nat :=
  match t with TFunc ins _ _ => length ins | _ => 0%nat end.

Definition NumOut (t : Type_) : nat :=
  match t with TFunc _ outs _ => length outs | _ => 0%nat end.

Definition In (t : Type_) (i : nat) : option Type_ :=
  match t with TFunc ins _ _ => nth_error ins i | _ => None end.

Definition Out (t : Type_) (i : nat) : option Type_ :=
  match t with TFunc _ outs _ => nth_error outs i | _ => None end.

End reflect.

(** [t.Elem().Kind() == k && ...] and the like: the test behind a part of a
    type; a missing part would be a panic, which the guards in front of it
    exclude, and counts as a failed test. *)
Definition on_part (part : option reflect.Type_) (test : reflect.Type_ -> bool)
  : bool :=
  match part with
  | Some t => test t
  | None => false
  end.

(** ** The signature validator *)

Definition isTypeServiceMethodContext (methodType : reflect.Type_) : bool :=
  reflect.Kind_eqb (reflect.Kind_of methodType) reflect.Ptr
  && on_part (reflect.Elem methodType) (fun e =>
       reflect.Kind_eqb (reflect.Kind_of e) reflect.Struct
       && String.eqb (reflect.Name e) "ServiceMethodContext").

Definition isStructPointer (methodType : reflect.Type_) : bool :=
  reflect.Kind_eqb (reflect.Kind_of methodType) reflect.Ptr
  && on_part (reflect.Elem methodType) (fun e =>
       reflect.Kind_eqb (reflect.Kind_of e) reflect.Struct).

Definition isStringMap (methodType : reflect.Type_) : bool :=
  reflect.Kind_eqb (reflect.Kind_of methodType) reflect.Map
  && on_part (reflect.Key methodType) (fun k => reflect.Kind_eqb (reflect.Kind_of k) reflect.String)
  && on_part (reflect.Elem methodType) (fun e =>
       reflect.Kind_eqb (reflect.Kind_of e) reflect.Interface
       && String.eqb (reflect.Name e) "").

Definition isSlice (methodType : reflect.Type_) : bool :=
  reflect.Kind_eqb (reflect.Kind_of methodType) reflect.Slice.

Definition isCustomResponseBodyFunction (methodType : reflect.Type_) : bool :=
  Nat.eqb (reflect.NumOut methodType) 1
  && on_part (reflect.Out methodType 0) (fun out0 =>
       reflect.Kind_eqb (reflect.Kind_of out0) reflect.Interface
       && String.eqb (reflect.Name out0) "error").

Definition isDelegatedResponseBodyFunction (methodType : reflect.Type_) : bool :=
  Nat.eqb (reflect.NumOut methodType) 2
  && on_part (reflect.Out methodType 0) (fun out0 =>
       reflect.Kind_eqb (reflect.Kind_of out0) reflect.Ptr
       && on_part (reflect.Elem out0) (fun e =>
            reflect.Kind_eqb (reflect.Kind_of e) reflect.Struct))
  && on_part (reflect.Out methodType 1) (fun out1 =>
       reflect.Kind_eqb (reflect.Kind_of out1) reflect.Interface
       && String.eqb (reflect.Name out1) "error").

Definition errNotFunction : string :=
  "you should provide a function or object method".
Definition errArity : string :=
  "the service method should have two arguments".
Definition errFirstArgument : string :=
  "the first argument should be type *ServiceMethodContext".
Definition errSecondArgument : string :=
  "the second argument should be a struct pointer, slice or map[string]interface{}".
Definition errReturn : string :=
  "the service method only can return error interface or (*struct, error)".

(** [None] is the nil error. *)
Definition checkServiceMethodPrototype (methodType : option reflect.Type_) : option string :=
  match methodType with
  | None => Some errNotFunction
  | Some t =>
    if negb (reflect.Kind_eqb (reflect.Kind_of t) reflect.Func) then Some errNotFunction
    else if negb (Nat.eqb (reflect.NumIn t) 2) then Some errArity
    else if negb (on_part (reflect.In t 0) isTypeServiceMethodContext)
         then Some errFirstArgument
    else if negb (on_part (reflect.In t 1) isSlice)
            && negb (on_part (reflect.In t 1) isStringMap)
            && negb (on_part (reflect.In t 1) isStructPointer)
         then Some errSecondArgument
    else if negb (isCustomResponseBodyFunction t)
            && negb (isDelegatedResponseBodyFunction t) then Some errReturn
    else None
  end.

(** ** Strings, header keys, form values *)

Definition upper_ascii (c : ascii) : ascii :=
  let n := nat_of_ascii c in
  if ((97 <=? n) && (n <=? 122))%nat then ascii_of_nat (n - 32) else c.

Definition lower_ascii (c : ascii) : ascii :=
  let n := nat_of_ascii c in
  if ((65 <=? n) && (n <=? 90))%nat then ascii_of_nat (n + 32) else c.

Fixpoint map_string (f : ascii -> ascii) (s : string) : string :=
  match s with
  | EmptyString => EmptyString
  | String c s' => String (f c) (map_string f s')
  end.

(** [strings.HasPrefix], on bytes.  [strings.ToUpper] and [strings.ToLower]
    map every Unicode letter and are operations of the runtime below. *)
Definition HasPrefix (s pre : string) : bool := String.prefix pre s.

(** [textproto.CanonicalMIMEHeaderKey]: a key made of token bytes gets its
    first letter and every letter after a hyphen in upper case and the
    others in lower case; any other key is left as it is. *)
Definition validHeaderFieldByte (c : ascii) : bool :=
  let n := nat_of_ascii c in
  ((48 <=? n) && (n <=? 57) || (65 <=? n) && (n <=? 90) || (97 <=? n) && (n <=? 122)
   || existsb (Nat.eqb n) (33 :: 35 :: 36 :: 37 :: 38 :: 39 :: 42 :: 43 :: 45 :: 46
                             :: 94 :: 95 :: 96 :: 124 :: 126 :: nil))%nat.

Fixpoint all_string (p : ascii -> bool) (s : string) : bool :=
  match s with
  | EmptyString => true
  | String c s' => p c && all_string p s'
  end.

Fixpoint canonical_from (upper : bool) (s : string) : string :=
  match s with
  | EmptyString => EmptyString
  | String c s' =>
    String (if upper then upper_ascii c else lower_ascii c)
           (canonical_from (Ascii.eqb c "-"%char) s')
  end.

Definition CanonicalMIMEHeaderKey (s : string) : string :=
  if all_string validHeaderFieldByte s then canonical_from true s else s.

(** [http.Header] and [url.Values] are both [map[string][]string]. *)
Abbreviation Header := (gmap string (list string)).
Abbreviation Values := (gmap string (list string)).

Definition Header_Set (h : Header) (key value : string) : Header :=
  <[CanonicalMIMEHeaderKey key := value :: nil]> h.

Definition Header_Get (h : Header) (key : string) : string :=
  match h !! CanonicalMIMEHeaderKey key with
  | Some (v :: _) => v
  | _ => ""
  end.

Definition Values_Set (v : Values) (key value : string) : Values :=
  <[key := value :: nil]> v.

(** ** The response writer

    The contract of [http.ResponseWriter] as the server and the test
    recorder implement it: the first [WriteHeader] fixes the status and the
    headers that go out with it, later calls change nothing; the first
    [Write] without one sends 200.  [rw_sent] is [None] until then.  A
    [WriteHeader] that would send a code outside 100..999 panics instead
    ([checkWriteHeaderCode]); one that comes after the header was sent
    returns before that check.  The Content-Type that the first [Write]
    derives from the bytes when the header map has none is not followed:
    the core sets its own before it writes. *)

Record ResponseWriter : Type := mkResponseWriter {
  rw_header : Header;
  rw_sent : option (Z * Header);
  rw_body : string
}.

Definition newResponseWriter : ResponseWriter :=
  {| rw_header := ∅; rw_sent := None; rw_body := "" |}.

Definition digit (n : Z) : ascii := ascii_of_nat (Z.to_nat (48 + n mod 10)).

Fixpoint digits (fuel : nat) (n : Z) : string :=
  match fuel with
  | O => EmptyString
  | S f =>
    if n <? 10 then String (digit n) EmptyString
    else digits f (n / 10) ++ String (digit n) EmptyString
  end.

(** An [int] as [fmt] prints it. *)
Definition Sprintf_v (z : Z) : string :=
  let n := Z.abs z in
  (if z <? 0 then "-" else EmptyString) ++ digits (S (Z.to_nat (Z.log2 n))) n.

(** [Err] is the text of the panic. *)
Definition checkWriteHeaderCode (code : Z) : result unit :=
  if (code <? 100) || (999 <? code)
  then Err ("invalid WriteHeader code " ++ Sprintf_v code)
  else Ok tt.

Definition WriteHeader (w : ResponseWriter) (statusCode : Z) : result ResponseWriter :=
  match rw_sent w with
  | Some _ => Ok w
  | None =>
    match checkWriteHeaderCode statusCode with
    | Err p => Err p
    | Ok _ => Ok {| rw_header := rw_header w;
                    rw_sent := Some (statusCode, rw_header w);
                    rw_body := rw_body w |}
    end
  end.

(** The writer a call leaves: the one it returns, or the one it was given
    when it panicked. *)
Definition left_by (w : ResponseWriter) (call : result ResponseWriter) : ResponseWriter :=
  match call with
  | Ok w' => w'
  | Err _ => w
  end.

Definition Write (w : ResponseWriter) (b : string) : ResponseWriter :=
  let w' := left_by w (WriteHeader w 200) in
  {| rw_header := rw_header w'; rw_sent := rw_sent w'; rw_body := rw_body w' ++ b |}.

Definition SetHeader (w : ResponseWriter) (key value : string) : ResponseWriter :=
  {| rw_header := Header_Set (rw_header w) key value;
     rw_sent := rw_sent w;
     rw_body := rw_body w |}.

(** What a function that can panic half-way leaves: the writer as it is
    then, and the text of the panic if there was one. *)
Record Written : Type := mkWritten {
  writer :> ResponseWriter;
  panicked : option string
}.

(** What the client receives. *)
Definition StatusCode (w : ResponseWriter) : Z :=
  match rw_sent w with Some (c, _) => c | None => 200 end.

Definition SentHeader (w : ResponseWriter) : Header :=
  match rw_sent w with Some (_, h) => h | None => rw_header w end.

Definition setResponseHeader (w : ResponseWriter) : ResponseWriter :=
  SetHeader (SetHeader w "x-content-type-options" "nosniff")
            "Content-Type" "application/json".

Definition newline : string := String (ascii_of_nat 10) EmptyString.

(** ** Wall-clock time and the log layout

    A [time.Time] by its calendar and clock fields.  [Format_log] is
    [Format] for the one layout the program uses,
    [2006-01-02 15:04:05.999999999]: zero-padded date and clock, then the
    fraction written with nines, that is nine digits with the trailing zeros
    removed, and nothing at all (not even the point) when it is zero.
    Years are taken below 10000. *)

Record Time : Type := mkTime {
  Year : Z; Month : Z; Day : Z;
  Hour : Z; Minute : Z; Second : Z;
  Nanosecond : Z
}.

Fixpoint padded (width : nat) (n : Z) : string :=
  match width with
  | O => EmptyString
  | S w => padded w (n / 10) ++ String (digit n) EmptyString
  end.

Fixpoint trim_zeros (s : string) : string :=
  match s with
  | EmptyString => EmptyString
  | String c s' =>
    match trim_zeros s' with
    | EmptyString => if Ascii.eqb c "0"%char then EmptyString else String c EmptyString
    | rest => String c rest
    end
  end.

Definition fraction9 (nsec : Z) : string :=
  if nsec =? 0 then EmptyString else "." ++ trim_zeros (padded 9 nsec).

Definition Format_log (t : Time) : string :=
  padded 4 (Year t) ++ "-" ++ padded 2 (Month t) ++ "-" ++ padded 2 (Day t)
  ++ " " ++ padded 2 (Hour t) ++ ":" ++ padded 2 (Minute t) ++ ":"
  ++ padded 2 (Second t) ++ fraction9 (Nanosecond t).

(** ** Values *)

Record panicStack : Type := mkPanicStack {
  Panic : string;
  Stack : string
}.

(** What a handler can pass to [panic]; [PanicNil] is [panic(nil)]. *)
Inductive PanicValue : Type :=
| PanicNil
| PanicString (s : string)
| PanicError (msg : string).

(** [fmt.Sprintf] with the verb for strings, on a recovered value. *)
Definition Sprintf_s (v : PanicValue) : string :=
  match v with
  | PanicNil => "%!s(<nil>)"
  | PanicString s => s
  | PanicError msg => msg
  end.

(** What [Context().Value(key)] can hold: nothing, a value that has a
    [Record] method, or some other value. *)
Inductive CtxValue : Type :=
| CtxNil
| CtxLogger
| CtxOther.

(** What the handler does to the response through its context. *)
Inductive Effect : Type :=
| ResponseStatusSetter (status : Z)
| ResponseHeaderSet (key value : string)
| ResponseBodyWrite (b : string).

(** The clock readings and the stack text one request is served with. *)
Record Env : Type := mkEnv {
  env_begin : Time;
  env_elapsed : Z;
  env_stack : string
}.

Definition ServiceMethodContextType : reflect.Type_ :=
  reflect.TStruct "ServiceMethodContext"
    ("Context" :: "RemoteAddr" :: "RequestHeader" :: "RequestBodyReader"
     :: "ResponseStatusSetter" :: "ResponseHeader" :: "ResponseBodyWriter" :: nil).

Section Data.

Context {Obj Stream : Type}.

(** An [interface{}] value.  [IPointer t None] is a nil pointer of the
    pointer type [t] stored in an interface: it is not the nil interface. *)
Inductive Iface : Type :=
| INil
| IString (s : string)
| IError (msg : string)
| IPointer (t : reflect.Type_) (target : option Obj)
| IPanicStack (ps : panicStack)
| IFormattedResponse (code : Z) (msg : string) (data : Iface).

Record FormattedResponse : Type := mkFormattedResponse {
  Code : Z;
  Msg : string;
  Data : Iface
}.

Definition box (resp : FormattedResponse) : Iface :=
  IFormattedResponse (Code resp) (Msg resp) (Data resp).

(** A [reflect.Value] as [Call] returns it: of a pointer type, or of an
    interface type with the value it holds. *)
Inductive Value : Type :=
| VPointer (t : reflect.Type_) (target : option Obj)
| VInterface (t : reflect.Type_) (dynamic : Iface).

(** [Value.Interface()]: a value of interface type yields what it holds, any
    other value is boxed together with its type. *)
Definition Interface (v : Value) : Iface :=
  match v with
  | VPointer t target => IPointer t target
  | VInterface _ dynamic => dynamic
  end.

Record Request : Type := mkRequest {
  req_Method : string;
  req_Header : Header;
  req_Body : Stream;
  req_Form : Values;
  req_RemoteAddr : string;
  req_Context : string -> CtxValue
}.

(** The context handed to the handler.  The calls the handler makes on its
    status setter, header map and body writer show as the [Effect]s of the
    run; they act on the writer of the request, [smc_ResponseBodyWriter]. *)
Record ServiceMethodContext : Type := mkServiceMethodContext {
  smc_Context : string -> CtxValue;
  smc_RemoteAddr : string;
  smc_RequestHeader : Header;
  smc_RequestBodyReader : Stream;
  smc_ResponseHeader : Header;
  smc_ResponseBodyWriter : ResponseWriter
}.

Inductive Completion : Type :=
| Returns (out : list Value)
| Panics (v : PanicValue).

(** One run of a handler: the calls it makes on the response, what it has
    left in the argument and in the body stream when it stops, and how it
    ends.  A handler here does not recover a panic of its own context: a
    call the writer refuses ends the run with the panic of the writer
    ([stopped], below). *)
Record Run : Type := mkRun {
  effects : list Effect;
  arg_after : Obj;
  body_after : Stream;
  completion : Completion
}.

(** A Go function with its type; [func_call] is what its body does when it
    is called.  The nil function of a function type, which has no body, is
    not among these values. *)
Record Func : Type := mkFunc {
  func_type : reflect.Type_;
  func_call : ServiceMethodContext -> Obj -> Run
}.

Record serviceMethod : Type := mkServiceMethod {
  value : Func;
  argType : reflect.Type_
}.

Record ServiceHandler : Type := mkServiceHandler {
  loggerContextKey : option string;
  method : serviceMethod;
  bypassRequestBody : bool
}.

(** [method] is [None] for the nil interface. *)
Definition NewServiceHandler (method : option Func) (loggerContextKey : option string)
    (bypassRequestBody : bool) : result ServiceHandler :=
  let methodType := option_map func_type method in
  match checkServiceMethodPrototype methodType with
  | Some err => Err err
  | None =>
    match method with
    | Some f =>
      match reflect.In (func_type f) 1 with
      | Some a =>
        Ok {| loggerContextKey := loggerContextKey;
              method := {| value := f; argType := a |};
              bypassRequestBody := bypassRequestBody |}
      | None => Err "reflect: Func index out of bounds"
      end
    | None => Err errNotFunction
    end
  end.

(** The state one request runs in, and what is left of it afterwards.
    [invoked] tells whether the handler body ran; [escaped] is a panic that
    left [ServeHTTPWithParams]. *)
Record Served : Type := mkServed {
  rw : ResponseWriter;
  req : Request;
  accessLog : list (string * string);
  invoked : bool;
  escaped : option string
}.

(** The operations of the libraries the core calls. *)
Class Runtime : Type := {
  (** the zero value [reflect.New(t)] points to *)
  reflect_Zero : reflect.Type_ -> Obj;
  (** [x.AssignableTo(t)] *)
  AssignableTo : reflect.Type_ -> reflect.Type_ -> bool;
  (** the text [Call] panics with when an argument does not fit *)
  reflect_CallMismatch : string;
  (** [v.String()] of a [reflect.Value], which is how [fmt] prints one *)
  reflect_String : Value -> string;
  (** [strings.ToUpper], [strings.ToLower] *)
  ToUpper : string -> string;
  ToLower : string -> string;
  (** [r.ParseForm()], [r.ParseMultipartForm(maxMemory)] *)
  ParseForm : Request -> option string * Request;
  ParseMultipartForm : Z -> Request -> option string * Request;
  (** [formDecoder.Decode(dst, src)], unknown keys ignored: [dst] by its
      pointer type and the value it points to *)
  schema_Decode : reflect.Type_ -> Obj -> Values -> result Obj;
  (** [json.NewDecoder(body).Decode(dst)] *)
  json_Decode : Stream -> reflect.Type_ -> Obj -> result Obj * Stream;
  (** [json.Marshal(v)] *)
  json_Marshal : Iface -> result string;
  (** [strconv.FormatFloat(d.Seconds(), 'f', -1, 64)] of a duration in
      nanoseconds *)
  FormatSeconds : Z -> string
}.

End Data.

(** ** The binder, the invoker and the response formatter *)

Section Core.

Context {Obj Stream : Type} {R : @Runtime Obj Stream}.

(** [json.NewEncoder(w).Encode(data)] with its error dropped: the encoder
    marshals, appends a newline and writes; when marshalling fails it
    writes nothing. *)
Definition Encode (w : ResponseWriter) (data : @Iface Obj) : ResponseWriter :=
  match json_Marshal data with
  | Ok s => Write w (s ++ newline)
  | Err _ => w
  end.

Definition writeResponse (w : ResponseWriter) (data : @Iface Obj) : ResponseWriter :=
  let w := setResponseHeader w in
  Encode w data.

(** When [w.WriteHeader] panics the headers are set and nothing else is
    done. *)
Definition writeErrorResponse (w : ResponseWriter) (resp : @FormattedResponse Obj)
  : Written :=
  let w := setResponseHeader w in
  match WriteHeader w (Code resp) with
  | Err p => mkWritten w (Some p)
  | Ok w => mkWritten (Encode w (box resp)) None
  end.

(** [reflect.Value.Call]: the arguments, by their types, must fit the
    parameters (the last ones the element type of a variadic parameter);
    otherwise the call panics before the function starts. *)
Definition call_accepts (t : reflect.Type_) (xs : list reflect.Type_) : bool :=
  match t with
  | reflect.TFunc ins _ false =>
    Nat.eqb (length xs) (length ins)
    && forallb (fun p => AssignableTo (fst p) (snd p)) (combine xs ins)
  | reflect.TFunc ins _ true =>
    let n := length (removelast ins) in
    Nat.leb n (length xs)
    && forallb (fun p => AssignableTo (fst p) (snd p))
         (combine (firstn n xs) (removelast ins))
    && forallb (fun x => on_part (List.last (map reflect.Elem ins) None) (AssignableTo x))
         (skipn n xs)
  | _ => false
  end.

(** The handler's calls on its context, in order: the status setter stores
    the status and writes the header at once; when the writer refuses the
    code the status is stored all the same and the writer stays as it
    was. *)
Definition apply_effect (st : Z * ResponseWriter) (e : Effect) : Z * ResponseWriter :=
  let '(respStatus, w) := st in
  match e with
  | ResponseStatusSetter status => (status, left_by w (WriteHeader w status))
  | ResponseHeaderSet key value => (respStatus, SetHeader w key value)
  | ResponseBodyWrite b => (respStatus, Write w b)
  end.

Definition apply_effects (es : list Effect) (st : Z * ResponseWriter)
  : Z * ResponseWriter :=
  fold_left apply_effect es st.

(** The calls of [es] that are made on the writer [w]: all of them, or those
    up to and with the call of the status setter in which [WriteHeader]
    panics, and the text of that panic. *)
Fixpoint made (es : list Effect) (w : ResponseWriter) : list Effect * option string :=
  match es with
  | nil => (nil, None)
  | e :: es' =>
    let refused :=
      match e with
      | ResponseStatusSetter status =>
        match WriteHeader w status with
        | Err p => Some p
        | Ok _ => None
        end
      | _ => None
      end in
    match refused with
    | Some p => (e :: nil, Some p)
    | None =>
      let '(rest, p) := made es' (snd (apply_effect (200, w) e)) in
      (e :: rest, p)
    end
  end.

(** What the handler's run comes to on the writer [w]: the panic of a
    refused call is the panic of the handler. *)
Definition stopped (w : ResponseWriter) (run : @Run Obj Stream) : @Run Obj Stream :=
  match made (effects run) w with
  | (es, Some p) => {| effects := es;
                       arg_after := arg_after run;
                       body_after := body_after run;
                       completion := Panics (PanicString p) |}
  | (_, None) => run
  end.

(** A call that panics before the function starts. *)
Definition not_started (ctx : @ServiceMethodContext Stream) (arg : Obj) (p : string)
  : @Run Obj Stream :=
  {| effects := nil;
     arg_after := arg;
     body_after := smc_RequestBodyReader ctx;
     completion := Panics (PanicString p) |}.

(** [method.value.Call(in)]: the body runs on the writer of the context
    when the arguments fit. *)
Definition Call (f : @Func Obj Stream) (inTypes : list reflect.Type_)
    (ctx : @ServiceMethodContext Stream) (arg : Obj) : bool * @Run Obj Stream :=
  if call_accepts (func_type f) inTypes
  then (true, stopped (smc_ResponseBodyWriter ctx) (func_call f ctx arg))
  else (false, not_started ctx arg reflect_CallMismatch).

(** The deferred function recovers the panic; [recover] returns nil after
    [panic(nil)] (the module declares go 1.12), and then no [panicStack] is
    made.  [out] keeps its zero value, the nil slice, when the call panicked. *)
Definition doServiceMethodCall (method : @serviceMethod Obj Stream)
    (inTypes : list reflect.Type_) (ctx : @ServiceMethodContext Stream) (arg : Obj)
    (stack : string) : bool * @Run Obj Stream * list (@Value Obj) * option panicStack :=
  let '(ran, run) := Call (value method) inTypes ctx arg in
  match completion run with
  | Returns out => (ran, run, out, None)
  | Panics PanicNil => (ran, run, nil, None)
  | Panics panicInfo =>
    (ran, run, nil, Some {| Panic := Sprintf_s panicInfo; Stack := stack |})
  end.

Definition paramValues (params : list (string * string)) : Values :=
  fold_left (fun vs param => Values_Set vs (fst param) (snd param)) params ∅.

Definition with_Body (r : @Request Stream) (b : Stream) : @Request Stream :=
  {| req_Method := req_Method r; req_Header := req_Header r; req_Body := b;
     req_Form := req_Form r; req_RemoteAddr := req_RemoteAddr r;
     req_Context := req_Context r |}.

(** [params] is [None] for the nil slice.  [arg] is the value the argument
    pointer of type [argPtr] points to; the result is the error, or what the
    pointer points to after the three passes, and the request as the passes
    leave it. *)
Definition parseArgument (h : @ServiceHandler Obj Stream) (r : @Request Stream)
    (params : option (list (string * string))) (argPtr : reflect.Type_) (arg : Obj)
  : result Obj * @Request Stream :=
  let method := ToUpper (req_Method r) in
  let contentType := ToLower (Header_Get (req_Header r) "Content-Type") in
  (* query string has lowest priority. *)
  let '(err, r) :=
    if String.eqb method "POST" && String.eqb contentType "multipart/form-data"
    then ParseMultipartForm 1024 r
    else ParseForm r in
  match err with
  | Some e => (Err e, r)
  | None =>
    match schema_Decode argPtr arg (req_Form r) with
    | Err e => (Err e, r)
    | Ok arg =>
      (* json content's priority is higher than query string, but lower than
         params in url pattern. *)
      let '(res, r) :=
        if String.eqb method "POST" && negb (bypassRequestBody h)
           && HasPrefix contentType "application/json"
        then let '(res, body) := json_Decode (req_Body r) argPtr arg in
             (res, with_Body r body)
        else (Ok arg, r) in
      match res with
      | Err e => (Err e, r)
      | Ok arg =>
        (* params in the url pattern has highest priority. *)
        match params with
        | Some params => (schema_Decode argPtr arg (paramValues params), r)
        | None => (Ok arg, r)
        end
      end
    end
  end.

(** [x.(error)] after the test against nil: the message of a non-nil error;
    [Err] is the panic of a failed type assertion. *)
Definition as_error (x : @Iface Obj) : result (option string) :=
  match x with
  | INil => Ok None
  | IError msg => Ok (Some msg)
  | _ => Err "interface conversion: not an error"
  end.

(** The tail of [ServeHTTPWithParams]: record some thing if logger existed. *)
Definition recordAccess (h : @ServiceHandler Obj Stream) (env : Env)
    (r : @Request Stream) (argI respData : @Iface Obj)
    (log : list (string * string)) : list (string * string) * option string :=
  match loggerContextKey h with
  | None => (log, None)
  | Some key =>
    match req_Context r key with
    | CtxNil => (log, None)
    | CtxOther => (log, None)
    | CtxLogger =>
      match json_Marshal argI with
      | Err e => (log, Some e)
      | Ok marshaledArgs =>
        match json_Marshal respData with
        | Err e => (log, Some e)
        | Ok marshaledData =>
          (app log (("args", marshaledArgs)
                    :: ("resp", marshaledData)
                    :: ("methodBegin", Format_log (env_begin env))
                    :: ("methodDuration", FormatSeconds (env_elapsed env)) :: nil),
           None)
        end
      end
    end
  end.

(** The context literal of [ServeHTTPWithParams], and the types of the two
    arguments it calls the handler with. *)
Definition newContext (r : @Request Stream) (w : ResponseWriter)
  : @ServiceMethodContext Stream :=
  {| smc_Context := req_Context r;
     smc_RemoteAddr := req_RemoteAddr r;
     smc_RequestHeader := req_Header r;
     smc_RequestBodyReader := req_Body r;
     smc_ResponseHeader := rw_header w;
     smc_ResponseBodyWriter := w |}.

Definition inTypes (argPtr : reflect.Type_) : list reflect.Type_ :=
  reflect.TPtr ServiceMethodContextType :: argPtr :: nil.

(** [fmt.Sprintf] with the verb for any value, on the results of the call:
    the values between brackets, a space between them. *)
Fixpoint joined (parts : list string) : string :=
  match parts with
  | nil => EmptyString
  | p :: nil => p
  | p :: rest => p ++ " " ++ joined rest
  end.

Definition Sprintf_values (out : list (@Value Obj)) : string :=
  "[" ++ joined (map reflect_String out) ++ "]".

(** [ServeHTTPWithParams] once the call is over: [respStatus] and [w] are
    the status and the writer as the handler left them, [out] and
    [methodPanic] what [doServiceMethodCall] returned.  A panic on the way
    leaves the function at once, with the writer as it is then. *)
Definition respond (h : @ServiceHandler Obj Stream) (env : Env)
    (r : @Request Stream) (log : list (string * string)) (ran : bool)
    (argI : @Iface Obj) (respStatus : Z) (w : ResponseWriter)
    (out : list (@Value Obj)) (methodPanic : option panicStack) : @Served Stream :=
  let '(written, methodReturn, methodError, respData) :=
    match methodPanic with
    | Some ps =>
      let resp := mkFormattedResponse 500 "service method panicked" (IPanicStack ps) in
      (writeErrorResponse w resp, INil, None, box resp)
    | None =>
      match out with
      | out0 :: out1 :: nil =>
        match as_error (Interface out1) with
        | Ok methodError => (mkWritten w None, Interface out0, methodError, INil)
        | Err p => (mkWritten w (Some p), INil, None, INil)
        end
      | out0 :: nil =>
        match as_error (Interface out0) with
        | Ok methodError => (mkWritten w None, INil, methodError, INil)
        | Err p => (mkWritten w (Some p), INil, None, INil)
        end
      | _ =>
        (* the method prototype have more than one return value, it is
           forbidden. *)
        (mkWritten w (Some ("return values error: " ++ Sprintf_values out)),
         INil, None, INil)
      end
    end in
  match panicked written with
  | Some p => mkServed written r log ran (Some p)
  | None =>
    let w : ResponseWriter := written in
    let '(written, respData) :=
      match methodError, methodReturn with
      | Some msg, _ =>
        let respStatus := if respStatus =? 200 then 500 else respStatus in
        let resp := mkFormattedResponse respStatus "service method error"
                      (IString msg) in
        (writeErrorResponse w resp, box resp)
      | None, INil => (mkWritten w None, respData)
      | None, _ => (mkWritten (writeResponse w methodReturn) None, methodReturn)
      end in
    match panicked written with
    | Some p => mkServed written r log ran (Some p)
    | None =>
      let '(log, p) := recordAccess h env r argI respData log in
      mkServed written r log ran p
    end
  end.

Definition ServeHTTPWithParams (h : @ServiceHandler Obj Stream) (env : Env)
    (w : ResponseWriter) (r : @Request Stream) (log : list (string * string))
    (params : option (list (string * string))) : @Served Stream :=
  (* extract arguments. *)
  match reflect.Elem (argType (method h)) with
  | None => mkServed w r log false (Some "reflect: Elem of invalid type")
  | Some elemType =>
    let argPtr := reflect.TPtr elemType in
    match parseArgument h r params argPtr (reflect_Zero elemType) with
    | (Err e, r) =>
      let written := writeErrorResponse w
                       (mkFormattedResponse 400 "parse argument failed" (IString e)) in
      mkServed written r log false (panicked written)
    | (Ok arg, r) =>
      (* do method call. *)
      let '(ran, run, out, methodPanic) :=
        doServiceMethodCall (method h) (inTypes argPtr) (newContext r w)
          arg (env_stack env) in
      let '(respStatus, w) := apply_effects (effects run) (200, w) in
      respond h env (with_Body r (body_after run)) log ran
        (IPointer argPtr (Some (arg_after run))) respStatus w out methodPanic
    end
  end.

Definition ServeHTTP (h : @ServiceHandler Obj Stream) (env : Env)
    (respWriter : ResponseWriter) (req : @Request Stream)
    (log : list (string * string)) : @Served Stream :=
  ServeHTTPWithParams h env respWriter req log None.

End Core.

(** ** A small runtime to run the core on

    Records are maps from field names to the text of their values.  A body
    stream is either unread, holding a JSON object, a URL-encoded form or
    bytes that are neither, or drained; the query is already parsed into
    the form of the request, and parsing the form reads the URL-encoded
    body of a POST into it.  The JSON of a value is written out in full, so
    that two responses can be told apart by their bytes.  Letters are
    mapped between the cases in ASCII. *)

Module Toy.

Abbreviation Obj := (gmap string string).

Inductive Doc : Type :=
| DocObject (members : gmap string string)
| DocForm (values : Values)
| DocInvalid (err : string).

Abbreviation Stream := (option Doc).

Definition Plain_eqb (a b : reflect.Plain) : bool :=
  reflect.Kind_eqb (reflect.Plain_kind a) (reflect.Plain_kind b).

Fixpoint strings_eqb (a b : list string) : bool :=
  match a, b with
  | nil, nil => true
  | x :: a', y :: b' => String.eqb x y && strings_eqb a' b'
  | _, _ => false
  end.

(** Identical types. *)
Fixpoint Type_eqb (a b : reflect.Type_) : bool :=
  let all2 := fix all2 (xs ys : list reflect.Type_) : bool :=
    match xs, ys with
    | nil, nil => true
    | x :: xs', y :: ys' => Type_eqb x y && all2 xs' ys'
    | _, _ => false
    end in
  match a, b with
  | reflect.TPlain p n, reflect.TPlain q m => Plain_eqb p q && String.eqb n m
  | reflect.TStruct n fs, reflect.TStruct m gs => String.eqb n m && strings_eqb fs gs
  | reflect.TPtr x, reflect.TPtr y => Type_eqb x y
  | reflect.TSlice x, reflect.TSlice y => Type_eqb x y
  | reflect.TMap k x, reflect.TMap l y => Type_eqb k l && Type_eqb x y
  | reflect.TInterface n ms, reflect.TInterface m ns =>
    String.eqb n m && strings_eqb ms ns
  | reflect.TFunc i o v, reflect.TFunc j p w =>
    all2 i j && all2 o p && Bool.eqb v w
  | _, _ => false
  end.

(** A value fits a parameter of its own type, and any value fits an
    interface without methods. *)
Definition assignable (x t : reflect.Type_) : bool :=
  Type_eqb x t
  || match t with reflect.TInterface _ nil => true | _ => false end.

(** The fields of the record a pointer type points to. *)
Definition fields_of (ptr : reflect.Type_) : option (list string) :=
  match ptr with
  | reflect.TPtr (reflect.TStruct _ fields) => Some fields
  | _ => None
  end.

Definition known (fields : list string) (m : gmap string string) : gmap string string :=
  filter (fun kv => bool_decide (fst kv ∈ fields)) m.

Definition first_values (src : Values) : gmap string string :=
  omap head src.

Definition decode_form (ptr : reflect.Type_) (dst : Obj) (src : Values) : result Obj :=
  match fields_of ptr with
  | Some fields => Ok (known fields (first_values src) ∪ dst)
  | None => Err "schema: interface must be a pointer to struct"
  end.

Definition decode_json (body : Stream) (ptr : reflect.Type_) (dst : Obj)
  : result Obj * Stream :=
  match body with
  | None => (Err "EOF", None)
  | Some (DocInvalid e) => (Err e, None)
  | Some (DocForm _) => (Err "invalid character looking for beginning of value", None)
  | Some (DocObject members) =>
    match fields_of ptr with
    | Some fields => (Ok (known fields members ∪ dst), None)
    | None => (Err "json: cannot unmarshal object", None)
    end
  end.

Definition quote : string := String (ascii_of_nat 34) EmptyString.
Definition quoted (s : string) : string := quote ++ s ++ quote.

Fixpoint decimal_fuel (fuel : nat) (n : Z) : string :=
  match fuel with
  | O => EmptyString
  | S f =>
    if n <? 10 then String (digit n) EmptyString
    else decimal_fuel f (n / 10) ++ String (digit n) EmptyString
  end.

Definition decimal (z : Z) : string :=
  let n := Z.abs z in
  (if z <? 0 then "-" else EmptyString) ++ decimal_fuel (S (Z.to_nat (Z.log2 n))) n.

Definition member (key value : string) : string := quoted key ++ ":" ++ value.

Fixpoint join (parts : list string) : string :=
  match parts with
  | nil => EmptyString
  | p :: nil => p
  | p :: rest => p ++ "," ++ join rest
  end.

Definition object (members : list string) : string := "{" ++ join members ++ "}".

Fixpoint json_text (v : @Iface Obj) : string :=
  match v with
  | INil => "null"
  | IString s => quoted s
  | IError _ => "{}"
  | IPointer _ None => "null"
  | IPointer _ (Some o) =>
    object (map (fun kv => member (fst kv) (quoted (snd kv))) (map_to_list o))
  | IPanicStack ps =>
    object (member "panic" (quoted (Panic ps)) :: member "stack" (quoted (Stack ps)) :: nil)
  | IFormattedResponse code msg data =>
    object (member "code" (decimal code) :: member "msg" (quoted msg)
            :: member "data" (json_text data) :: nil)
  end.

Definition seconds_text (d : Z) : string :=
  decimal (d / 1000000000)
  ++ fraction9 (Z.abs d mod 1000000000).

Definition upper (s : string) : string := map_string upper_ascii s.
Definition lower (s : string) : string := map_string lower_ascii s.

(** The body of a POST with the content type of a URL-encoded form is read
    into the form, in front of the values of the query. *)
Definition parse_form (r : @Request Stream) : option string * @Request Stream :=
  if String.eqb (upper (req_Method r)) "POST"
     && String.eqb (lower (Header_Get (req_Header r) "Content-Type"))
          "application/x-www-form-urlencoded"
  then match req_Body r with
       | Some (DocForm values) =>
         (None, {| req_Method := req_Method r; req_Header := req_Header r;
                   req_Body := None;
                   req_Form := union_with (fun a b => Some (app a b)) values (req_Form r);
                   req_RemoteAddr := req_RemoteAddr r;
                   req_Context := req_Context r |})
       | Some (DocObject _) => (Some "invalid URL escape", r)
       | Some (DocInvalid e) => (Some e, r)
       | None => (None, r)
       end
  else (None, r).

Definition value_text (v : @Value Obj) : string :=
  match v with
  | VPointer t _ => "<" ++ reflect.Name t ++ " Value>"
  | VInterface t _ => "<" ++ reflect.Name t ++ " Value>"
  end.

#[global] Instance runtime : @Runtime Obj Stream := {|
  reflect_Zero := fun _ => ∅;
  AssignableTo := assignable;
  reflect_CallMismatch := "reflect: Call using mismatched argument type";
  reflect_String := value_text;
  ToUpper := upper;
  ToLower := lower;
  ParseForm := parse_form;
  ParseMultipartForm := fun _ r => (Some "no multipart boundary param in Content-Type", r);
  schema_Decode := decode_form;
  json_Decode := decode_json;
  json_Marshal := fun v => Ok (json_text v);
  FormatSeconds := seconds_text
|}.

End Toy.

(** ** Handlers and requests to run: those of the repository's tests, and a
    few more *)

Module Sample.

Definition args3 : reflect.Type_ :=
  reflect.TPtr (reflect.TStruct "" ("A" :: "B" :: "C" :: nil)).
Definition noArgs : reflect.Type_ := reflect.TPtr (reflect.TStruct "" nil).
Definition resultA : reflect.Type_ := reflect.TPtr (reflect.TStruct "" ("A" :: nil)).
Definition errorType : reflect.Type_ := reflect.TInterface "error" ("Error" :: nil).
Definition stringType : reflect.Type_ := reflect.TPlain reflect.PString "string".
Definition contextPtr : reflect.Type_ := reflect.TPtr ServiceMethodContextType.

(** [func(c *ServiceMethodContext, a arg) (r *struct{ A int }, err error)] *)
Definition delegated (arg : reflect.Type_) : reflect.Type_ :=
  reflect.TFunc (contextPtr :: arg :: nil) (resultA :: errorType :: nil) false.

(** [func(c *ServiceMethodContext, a arg) error] *)
Definition custom (arg : reflect.Type_) : reflect.Type_ :=
  reflect.TFunc (contextPtr :: arg :: nil) (errorType :: nil) false.

(** A body that makes the calls [es] on its context, leaves the argument and
    the request body alone, and ends as [c]. *)
Definition body_of (es : list Effect) (c : @Completion Toy.Obj)
    (ctx : @ServiceMethodContext Toy.Stream) (arg : Toy.Obj) : @Run Toy.Obj Toy.Stream :=
  {| effects := es; arg_after := arg;
     body_after := smc_RequestBodyReader ctx; completion := c |}.

Definition nilResult : @Value Toy.Obj := VPointer resultA None.
Definition nilError : @Value Toy.Obj := VInterface errorType INil.
Definition expectedError : @Value Toy.Obj :=
  VInterface errorType (IError "expected error").

(** [return nil, nil] *)
Definition returnsNilNil : @Func Toy.Obj Toy.Stream :=
  mkFunc (delegated noArgs) (body_of nil (Returns (nilResult :: nilError :: nil))).

(** [return nil] from a handler with the error as its only result *)
Definition returnsNil : @Func Toy.Obj Toy.Stream :=
  mkFunc (custom noArgs) (body_of nil (Returns (nilError :: nil))).

(** [ctx.ResponseStatusSetter(status); return nil, errors.New(...)] *)
Definition failsWithStatus (status : Z) : @Func Toy.Obj Toy.Stream :=
  mkFunc (delegated noArgs)
    (body_of (ResponseStatusSetter status :: nil)
       (Returns (nilResult :: expectedError :: nil))).

(** [panic(...)], the handler of the test of a panic *)
Definition panics : @Func Toy.Obj Toy.Stream :=
  mkFunc (delegated noArgs) (body_of nil (Panics (PanicString "expected panic"))).

(** [ctx.ResponseStatusSetter(201); panic(...)] *)
Definition panicsAfterStatus : @Func Toy.Obj Toy.Stream :=
  mkFunc (delegated noArgs)
    (body_of (ResponseStatusSetter 201 :: nil) (Panics (PanicString "expected panic"))).

(** [panic(nil)] *)
Definition panicsNil : @Func Toy.Obj Toy.Stream :=
  mkFunc (delegated noArgs) (body_of nil (Panics PanicNil)).

(** [func(c *ServiceMethodContext, a map[string]interface{ M() }) error] *)
Definition methodMap : reflect.Type_ :=
  reflect.TMap stringType (reflect.TInterface "" ("M" :: nil)).
Definition takesMethodMap : @Func Toy.Obj Toy.Stream :=
  mkFunc (custom methodMap) (body_of nil (Returns (nilError :: nil))).

(** [func(c *ServiceMethodContext, a []struct{ A int }) error] *)
Definition takesSlice : @Func Toy.Obj Toy.Stream :=
  mkFunc (custom (reflect.TSlice (reflect.TStruct "" ("A" :: nil))))
    (body_of nil (Returns (nilError :: nil))).

(** The handler of the test with arguments in path, body and query. *)
Definition takesArgs3 : @Func Toy.Obj Toy.Stream :=
  mkFunc (delegated args3) (body_of nil (Returns (nilResult :: nilError :: nil))).

Definition loggerKey : string := "aw_test".

Definition request (method contentType : string) (body : Toy.Stream) (form : Values)
  : @Request Toy.Stream :=
  {| req_Method := method;
     req_Header := Header_Set ∅ "content-type" contentType;
     req_Body := body;
     req_Form := form;
     req_RemoteAddr := "192.0.2.1:1234";
     req_Context := fun key => if String.eqb key loggerKey then CtxLogger else CtxNil |}.

Definition jsonPost (body : Toy.Stream) (form : Values) : @Request Toy.Stream :=
  request "POST" "application/json" body form.

(** [/?A=1&B=1&C=1] with a body holding B and C as 2, and the path parameter
    C as 3. *)
Definition query111 : Values :=
  <["A" := "1" :: nil]> (<["B" := "1" :: nil]> (<["C" := "1" :: nil]> ∅)).
Definition body22 : Toy.Stream :=
  Some (Toy.DocObject (<["B" := "2"]> (<["C" := "2"]> ∅))).
Definition pathC3 : option (list (string * string)) := Some (("C", "3") :: nil).

Definition emptyObject : Toy.Stream := Some (Toy.DocObject ∅).

(** [POST /?A=1&B=1&C=1] of a URL-encoded form that holds B as 2. *)
Definition formPost : @Request Toy.Stream :=
  request "POST" "application/x-www-form-urlencoded"
    (Some (Toy.DocForm (<["B" := "2" :: nil]> ∅))) query111.

Definition env0 : Env :=
  {| env_begin := mkTime 2021 1 24 15 4 5 123456789;
     env_elapsed := 1500000000;
     env_stack := "goroutine 1 [running]" |}.

(** What registration makes of [f] when it accepts it: the handler of the
    route, with the logger key of the tests. *)
Definition handler (f : @Func Toy.Obj Toy.Stream) (bypass : bool)
  : @ServiceHandler Toy.Obj Toy.Stream :=
  {| loggerContextKey := Some loggerKey;
     method := {| value := f;
                  argType := default noArgs (reflect.In (func_type f) 1) |};
     bypassRequestBody := bypass |}.

(** One request served on a writer that has sent nothing, with an empty
    access log. *)
Definition served (f : @Func Toy.Obj Toy.Stream) (bypass : bool)
    (r : @Request Toy.Stream) (params : option (list (string * string)))
  : @Served Toy.Stream :=
  ServeHTTPWithParams (handler f bypass) env0 newResponseWriter r nil params.

(** A body the JSON decoder rejects, and a request whose body was read. *)
Definition badBody : Toy.Stream :=
  Some (Toy.DocInvalid "invalid character '1' looking for beginning of object key string").
Definition drained (r : @Request Toy.Stream) : @Request Toy.Stream := with_Body r None.

(** The argument the test with path, body and query expects. *)
Definition bound123 : Toy.Obj := <["A" := "1"]> (<["B" := "2"]> (<["C" := "3"]> ∅)).

End Sample.

(** ** Routes

    The registration surface: [RegisterRoutes] and [NewHTTPRouter].  The
    router is the library's; what is used of it is its empty router and
    [Handle], which panics on a path or a method it does not take ([Err]
    with the text of the panic). *)

Section Routes.

Context {Obj Stream : Type}.

Record Route : Type := mkRoute {
  Method : string;
  Path : string;
  Function : option (@Func Obj Stream);
  BypassRequestBody : bool
}.

Class RouterLib : Type := {
  Router : Type;
  httprouter_New : Router;
  Handle : Router -> string -> string -> @ServiceHandler Obj Stream -> result Router
}.

Context {L : RouterLib}.

(** How a registration ends: the nil error, the error of a refused route,
    or a panic of the router. *)
Inductive Registration : Type :=
| Registered
| Refused (err : string)
| RouterPanic (msg : string).

(** The router is changed in place: the result holds it as the loop left
    it. *)
Fixpoint RegisterRoutes (r : Router) (loggerContextKey : option string)
    (routes : list Route) : Router * Registration :=
  match routes with
  | nil => (r, Registered)
  | rt :: routes' =>
    match NewServiceHandler (Function rt) loggerContextKey (BypassRequestBody rt) with
    | Err err => (r, Refused err)
    | Ok handler =>
      match Handle r (Method rt) (Path rt) handler with
      | Ok r' => RegisterRoutes r' loggerContextKey routes'
      | Err msg => (r, RouterPanic msg)
      end
    end
  end.

Definition ServiceHandlerAccessLogRowFillerContextKey : string :=
  "apihttpwrapper.ServiceHandlerAccessLogRowFiller".

(** The router is returned with the nil error only. *)
Definition NewHTTPRouter (routes : list Route) : option Router * Registration :=
  let router := httprouter_New in
  match RegisterRoutes router (Some ServiceHandlerAccessLogRowFillerContextKey) routes with
  | (router, Registered) => (Some router, Registered)
  | (_, outcome) => (None, outcome)
  end.

(** The handler registration makes of an accepted route. *)
Definition route_handler (loggerContextKey : option string) (rt : Route)
  : option (@ServiceHandler Obj Stream) :=
  match NewServiceHandler (Function rt) loggerContextKey (BypassRequestBody rt) with
  | Ok handler => Some handler
  | Err _ => None
  end.

(** The function of the route passes the validator. *)
Definition route_accepted (rt : Route) : bool :=
  match checkServiceMethodPrototype (option_map func_type (Function rt)) with
  | None => true
  | Some _ => false
  end.

End Routes.

(** ** More handlers, a router and a stricter encoder to run *)

Module Cases.

Definition resultA1 : Toy.Obj := <["A" := "1"]> ∅.

(** [return &struct{ A int }{A: 1}, nil], the handler of the test of a
    normal request *)
Definition returnsValue : @Func Toy.Obj Toy.Stream :=
  mkFunc (Sample.delegated Sample.noArgs)
    (Sample.body_of nil
       (Returns (VPointer Sample.resultA (Some resultA1) :: Sample.nilError :: nil))).

(** [return nil, errors.New(...)], the handler of the test of an error *)
Definition failsQuietly : @Func Toy.Obj Toy.Stream :=
  mkFunc (Sample.delegated Sample.noArgs)
    (Sample.body_of nil (Returns (Sample.nilResult :: Sample.expectedError :: nil))).

(** A handler that answers by itself: it sets its own content type, writes
    its body and returns the nil error. *)
Definition writesItself : @Func Toy.Obj Toy.Stream :=
  mkFunc (Sample.custom Sample.noArgs)
    (Sample.body_of (ResponseHeaderSet "Content-Type" "text/plain"
                     :: ResponseBodyWrite "hello" :: nil)
       (Returns (Sample.nilError :: nil))).

(** [func(a *struct{}, b *struct{})], of the test of a wrong first
    argument *)
Definition wrongFirst : reflect.Type_ :=
  reflect.TFunc (Sample.noArgs :: Sample.noArgs :: nil) nil false.

(** A router that keeps what it is handed, in order, and panics on a path
    that does not begin with a slash. *)
#[global] Instance router : @RouterLib Toy.Obj Toy.Stream := {|
  Router := list (string * string * @ServiceHandler Toy.Obj Toy.Stream);
  httprouter_New := nil;
  Handle := fun r method path handle =>
    if HasPrefix path "/" then Ok (app r ((method, path, handle) :: nil))
    else Err "path must begin with '/'"
|}.

(** The routes of the README, and a route whose function is no handler. *)
Definition addUser : @Route Toy.Obj Toy.Stream :=
  mkRoute "POST" "/user/:Name" (Some Sample.returnsNil) false.
Definition getUser : @Route Toy.Obj Toy.Stream :=
  mkRoute "GET" "/user/:Name" (Some Sample.returnsNilNil) true.
Definition broken : @Route Toy.Obj Toy.Stream :=
  mkRoute "GET" "/broken" (Some (mkFunc wrongFirst (Sample.body_of nil (Returns nil)))) false.

(** The handler of a route that was registered with a logger key of its
    own, which the contexts of the sample requests do not hold. *)
Definition otherKey (f : @Func Toy.Obj Toy.Stream) : @ServiceHandler Toy.Obj Toy.Stream :=
  {| loggerContextKey := Some "access_log";
     method := {| value := f;
                  argType := default Sample.noArgs (reflect.In (func_type f) 1) |};
     bypassRequestBody := false |}.


End Cases.

(** ** The signature as the specification words it

    A function of two parameters, the first a pointer to the record named
    ServiceMethodContext, the second a record pointer, a slice, or a map
    with keys of kind string and values of the empty interface; the results
    are an error, or a record pointer and an error. *)

Definition isContextPointer (t : reflect.Type_) : bool :=
  match t with
  | reflect.TPtr (reflect.TStruct name _) => String.eqb name "ServiceMethodContext"
  | _ => false
  end.

Definition isRecordPointer (t : reflect.Type_) : bool :=
  match t with
  | reflect.TPtr (reflect.TStruct _ _) => true
  | _ => false
  end.

Definition isEmptyInterface (t : reflect.Type_) : bool :=
  match t with
  | reflect.TInterface name nil => String.eqb name ""
  | _ => false
  end.

Definition isErrorType (t : reflect.Type_) : bool :=
  match t with
  | reflect.TInterface name _ => String.eqb name "error"
  | _ => false
  end.

Definition declaredSecond (t : reflect.Type_) : bool :=
  match t with
  | reflect.TSlice _ => true
  | reflect.TMap k e =>
    reflect.Kind_eqb (reflect.Kind_of k) reflect.String && isEmptyInterface e
  | _ => isRecordPointer t
  end.

Definition declaredReturn (outs : list reflect.Type_) : bool :=
  match outs with
  | e :: nil => isErrorType e
  | p :: e :: nil => isRecordPointer p && isErrorType e
  | _ => false
  end.

Definition declaredSignature (t : reflect.Type_) : bool :=
  match t with
  | reflect.TFunc (c :: a :: nil) outs _ =>
    isContextPointer c && declaredSecond a && declaredReturn outs
  | _ => false
  end.

(** The same shape with the one test the validator makes differently: the
    values of the map are of an interface type without a name, whatever its
    methods. *)
Definition isUnnamedInterface (t : reflect.Type_) : bool :=
  match t with
  | reflect.TInterface name _ => String.eqb name ""
  | _ => false
  end.

Definition checkedSecond (t : reflect.Type_) : bool :=
  match t with
  | reflect.TSlice _ => true
  | reflect.TMap k e =>
    reflect.Kind_eqb (reflect.Kind_of k) reflect.String && isUnnamedInterface e
  | _ => isRecordPointer t
  end.

Definition checkedSignature (t : reflect.Type_) : bool :=
  match t with
  | reflect.TFunc (c :: a :: nil) outs _ =>
    isContextPointer c && checkedSecond a && declaredReturn outs
  | _ => false
  end.




(** The two headers of [setResponseHeader], as a header map holds them. *)
Definition core_headers (h : Header) : Prop :=
  h !! "X-Content-Type-Options" = Some ("nosniff" :: nil)
  /\ h !! "Content-Type" = Some ("application/json" :: nil).

(** The status of the handler's last call of the status setter. *)
Fixpoint last_status (es : list Effect) : option Z :=
  match es with
  | nil => None
  | e :: es' =>
    match last_status es', e with
    | Some s, _ => Some s
    | None, ResponseStatusSetter s => Some s
    | None, _ => None
    end
  end.

(** Calls that only touch the header map: they send nothing. *)
Definition header_only (e : Effect) : bool :=
  match e with
  | ResponseHeaderSet _ _ => true
  | _ => false
  end.

(** ** Notions the properties are stated with *)

Section Notions.

Context {Obj Stream : Type} {R : @Runtime Obj Stream}.

(** The bytes [Encode] appends for a value. *)
Definition encoded (data : @Iface Obj) : string :=
  match json_Marshal data with
  | Ok s => s ++ newline
  | Err _ => EmptyString
  end.

(** The body of this request is no JSON for the argument: whatever the
    argument holds when the JSON pass reads the body, decoding fails. *)
Definition body_rejected (r : @Request Stream) (argPtr : reflect.Type_) : Prop :=
  forall arg : Obj,
    is_ok (fst (json_Decode (req_Body (snd (ParseForm r))) argPtr arg)) = false.

(** A source supplies [v] for the part [field] of the argument behind a
    pointer of type [argPtr] when decoding it leaves that part equal to [v],
    whatever was there; it keeps the part when decoding leaves it as it
    was. *)
Definition form_supplies {V : Type} (field : Obj -> V) (argPtr : reflect.Type_)
    (src : Values) (v : V) : Prop :=
  forall a a', schema_Decode argPtr a src = Ok a' -> field a' = v.

Definition form_keeps {V : Type} (field : Obj -> V) (argPtr : reflect.Type_)
    (src : Values) : Prop :=
  forall a a', schema_Decode argPtr a src = Ok a' -> field a' = field a.

Definition json_supplies {V : Type} (field : Obj -> V) (argPtr : reflect.Type_)
    (body : Stream) (v : V) : Prop :=
  forall a a' rest, json_Decode body argPtr a = (Ok a', rest) -> field a' = v.

Definition json_keeps {V : Type} (field : Obj -> V) (argPtr : reflect.Type_)
    (body : Stream) : Prop :=
  forall a a' rest, json_Decode body argPtr a = (Ok a', rest) -> field a' = field a.

Definition path_keeps {V : Type} (field : Obj -> V) (argPtr : reflect.Type_)
    (params : option (list (string * string))) : Prop :=
  match params with
  | Some ps => form_keeps field argPtr (paramValues ps)
  | None => True
  end.

(** The request binds to [arg], leaving the request as [r1], and the call of
    the handler with that argument is the run [run]; [ran] tells whether the
    arguments fitted and the handler body was entered. *)
Definition handled (h : @ServiceHandler Obj Stream) (w : ResponseWriter)
    (r : @Request Stream) (params : option (list (string * string)))
    (elemType : reflect.Type_) (r1 : @Request Stream) (arg : Obj)
    (ran : bool) (run : @Run Obj Stream) : Prop :=
  reflect.Elem (argType (method h)) = Some elemType
  /\ parseArgument h r params (reflect.TPtr elemType) (reflect_Zero elemType) = (Ok arg, r1)
  /\ Call (value (method h)) (inTypes (reflect.TPtr elemType)) (newContext r1 w) arg
     = (ran, run).

(** The error a handler returned, when its last result is a non-nil error. *)
Definition returned_error (out : list (@Value Obj)) : option string :=
  match out with
  | o :: nil | _ :: o :: nil =>
    match Interface o with
    | IError msg => Some msg
    | _ => None
    end
  | _ => None
  end.

(** The logging hook of the route is there for this request. *)
Definition hook_active (h : @ServiceHandler Obj Stream) (r : @Request Stream) : bool :=
  match loggerContextKey h with
  | Some key =>
    match req_Context r key with
    | CtxLogger => true
    | _ => false
    end
  | None => false
  end.

(** Nothing can go wrong in the logging tail: no hook, or both values
    marshal. *)
Definition log_tail_ok (h : @ServiceHandler Obj Stream) (r : @Request Stream)
    (argI respData : @Iface Obj) : Prop :=
  hook_active h r = false
  \/ (is_ok (json_Marshal argI) = true /\ is_ok (json_Marshal respData) = true).

(** The outcomes for which the specification has the core write a response
    of its own after the call: a fault, an application error, a result. *)
Definition core_response (c : @Completion Obj) : bool :=
  match c with
  | Panics PanicNil => false
  | Panics _ => true
  | Returns out =>
    match returned_error out, out with
    | Some _, _ => true
    | None, VPointer _ (Some _) :: VInterface _ INil :: nil => true
    | None, _ => false
    end
  end.



(** What is known of the two libraries the argument meets: the form decoder
    takes nothing but a pointer to a record, and a value that fits a
    parameter that is not of interface type has the kind of the parameter. *)
(** What is known of the two libraries the argument meets: the form decoder
    takes nothing but a pointer to a record, and a value that fits a
    parameter that is not of interface type has the kind of the parameter. *)
Definition schema_needs_record : Prop :=
  forall (t : reflect.Type_) (a a' : Obj) (src : Values),
    schema_Decode (reflect.TPtr t) a src = Ok a' ->
    reflect.Kind_of t = reflect.Struct.

Definition assignable_respects_kind : Prop :=
  forall x t : reflect.Type_,
    AssignableTo x t = true ->
    reflect.Kind_of t <> reflect.Interface ->
    reflect.Kind_of x = reflect.Kind_of t.

(** The JSON pass applies to this request on this route. *)
Definition json_applies (h : @ServiceHandler Obj Stream) (r : @Request Stream) : bool :=
  String.eqb (ToUpper (req_Method r)) "POST"
  && negb (bypassRequestBody h)
  && HasPrefix (ToLower (Header_Get (req_Header r) "Content-Type")) "application/json".

(** Parsing the form a second time finds it parsed: it succeeds again and
    changes nothing; parsing leaves method and headers alone. *)
Definition form_parsing_settles : Prop :=
  (forall r r' : @Request Stream,
      ParseForm r = (None, r') ->
      ParseForm r' = (None, r')
      /\ req_Method r' = req_Method r /\ req_Header r' = req_Header r)
  /\ (forall (n : Z) (r r' : @Request Stream),
         ParseMultipartForm n r = (None, r') ->
         ParseMultipartForm n r' = (None, r')
         /\ req_Method r' = req_Method r /\ req_Header r' = req_Header r).

End Notions.

(** ** Further notions *)

(** The value of the last parameter of the list with the key [k]. *)
Fixpoint last_value (k : string) (params : list (string * string)) : option string :=
  match params with
  | nil => None
  | param :: params' =>
    match last_value k params' with
    | Some v => Some v
    | None => if String.eqb (fst param) k then Some (snd param) else None
    end
  end.

Section FurtherNotions.

Context {Obj Stream : Type} {R : @Runtime Obj Stream}.

(** The first step of [parseArgument]: the form of the request parsed, as
    multipart for a POST with exactly that content type. *)
Definition parseForms (r : @Request Stream) : option string * @Request Stream :=
  if String.eqb (ToUpper (req_Method r)) "POST"
     && String.eqb (ToLower (Header_Get (req_Header r) "Content-Type"))
          "multipart/form-data"
  then ParseMultipartForm 1024 r
  else ParseForm r.

(** Parsing the form leaves the context of the request alone. *)
Definition form_parsing_keeps_context : Prop :=
  (forall (r r' : @Request Stream) (e : option string),
      ParseForm r = (e, r') -> req_Context r' = req_Context r)
  /\ (forall (n : Z) (r r' : @Request Stream) (e : option string),
         ParseMultipartForm n r = (e, r') -> req_Context r' = req_Context r).

(** The libraries at another time: the same, but for the form decoder, which
    visits the keys of a Go map in an order of its own each time and is
    [decode] then. *)
Definition at_another_time (decode : reflect.Type_ -> Obj -> Values -> result Obj)
  : @Runtime Obj Stream :=
  {| reflect_Zero := reflect_Zero;
     AssignableTo := AssignableTo;
     reflect_CallMismatch := reflect_CallMismatch;
     reflect_String := reflect_String;
     ToUpper := ToUpper;
     ToLower := ToLower;
     ParseForm := ParseForm;
     ParseMultipartForm := ParseMultipartForm;
     schema_Decode := decode;
     json_Decode := json_Decode;
     json_Marshal := json_Marshal;
     FormatSeconds := FormatSeconds |}.

(** The decoder [decode] gives, on the form of [r] and on the path
    parameters, what the form decoder of the runtime gives. *)
Definition decides_alike (decode : reflect.Type_ -> Obj -> Values -> result Obj)
    (argPtr : reflect.Type_) (r : @Request Stream)
    (params : option (list (string * string))) : Prop :=
  (forall a, decode argPtr a (req_Form r) = schema_Decode argPtr a (req_Form r))
  /\ (forall ps a, params = Some ps ->
                   decode argPtr a (paramValues ps) = schema_Decode argPtr a (paramValues ps)).

(** The same handler on a route without a logger key. *)
Definition withoutLogger (h : @ServiceHandler Obj Stream) : @ServiceHandler Obj Stream :=
  {| loggerContextKey := None;
     method := method h;
     bypassRequestBody := bypassRequestBody h |}.

End FurtherNotions.

(** * Properties *)

(** ** The validator *)

Lemma isTypeServiceMethodContext_shape (t : reflect.Type_) :
  isTypeServiceMethodContext t = isContextPointer t.
Proof.
  destruct t as [p n|n fs|e|e|k e|n ms|i o v];
    try reflexivity; try (destruct p; reflexivity).
  destruct e as [p n|n fs|e'|e'|k e'|n ms|i o v];
    try reflexivity; destruct p; reflexivity.
Qed.

Lemma isStructPointer_shape (t : reflect.Type_) :
  isStructPointer t = isRecordPointer t.
Proof.
  destruct t as [p n|n fs|e|e|k e|n ms|i o v];
    try reflexivity; try (destruct p; reflexivity).
  destruct e as [p n|n fs|e'|e'|k e'|n ms|i o v];
    try reflexivity; destruct p; reflexivity.
Qed.

Lemma error_interface_shape (t : reflect.Type_) :
  reflect.Kind_eqb (reflect.Kind_of t) reflect.Interface
  && String.eqb (reflect.Name t) "error"
  = isErrorType t.
Proof.
  destruct t as [p n|n fs|e|e|k e|n ms|i o v];
    try reflexivity; destruct p; reflexivity.
Qed.

Lemma second_argument_shape (t : reflect.Type_) :
  isSlice t || isStringMap t || isStructPointer t = checkedSecond t.
Proof.
  rewrite isStructPointer_shape.
  destruct t as [p n|n fs|e|e|k e|n ms|i o v];
    try reflexivity; try (destruct p; reflexivity).
  unfold isSlice, isStringMap, checkedSecond. simpl.
  rewrite orb_false_r.
  destruct (reflect.Kind_eqb (reflect.Kind_of k) reflect.String); [|reflexivity].
  simpl.
  destruct e as [p n|n fs|e'|e'|k' e'|n ms|i o v];
    try reflexivity; destruct p; reflexivity.
Qed.

Lemma return_shape (ins outs : list reflect.Type_) (v : bool) :
  let t := reflect.TFunc ins outs v in
  isCustomResponseBodyFunction t || isDelegatedResponseBodyFunction t
  = declaredReturn outs.
Proof.
  unfold isCustomResponseBodyFunction, isDelegatedResponseBodyFunction.
  destruct outs as [|a [|b [|c outs]]]; simpl; try reflexivity.
  - rewrite error_interface_shape. apply orb_false_r.
  - rewrite error_interface_shape.
    change (reflect.Kind_eqb (reflect.Kind_of a) reflect.Ptr
            && on_part (reflect.Elem a)
                 (fun e => reflect.Kind_eqb (reflect.Kind_of e) reflect.Struct))
      with (isStructPointer a).
    rewrite isStructPointer_shape. reflexivity.
Qed.

(** The validator accepts exactly the checked shape. *)
Lemma checkServiceMethodPrototype_accepts (t : reflect.Type_) :
  checkServiceMethodPrototype (Some t) = None <-> checkedSignature t = true.
Proof.
  destruct t as [p n|n fs|e|e|k e|n ms|ins outs v];
    try (simpl; split; discriminate).
  - destruct p; simpl; split; discriminate.
  - unfold checkServiceMethodPrototype.
    change (reflect.Kind_eqb (reflect.Kind_of (reflect.TFunc ins outs v)) reflect.Func)
      with true.
    cbv beta iota delta [negb].
    destruct ins as [|c [|a [|b ins]]]; try (simpl; split; discriminate).
    change (Nat.eqb (reflect.NumIn (reflect.TFunc (c :: a :: nil) outs v)) 2) with true.
    change (reflect.In (reflect.TFunc (c :: a :: nil) outs v) 0) with (Some c).
    change (reflect.In (reflect.TFunc (c :: a :: nil) outs v) 1) with (Some a).
    cbv beta iota delta [on_part].
    rewrite isTypeServiceMethodContext_shape.
    pose proof (second_argument_shape a) as Ha.
    pose proof (return_shape (c :: a :: nil) outs v) as Hr. simpl in Hr.
    unfold checkedSignature. rewrite <- Ha, <- Hr.
    destruct (isContextPointer c); [|split; discriminate].
    destruct (isSlice a), (isStringMap a), (isStructPointer a);
      destruct (isCustomResponseBodyFunction _),
               (isDelegatedResponseBodyFunction _);
      simpl; split; congruence.
Qed.

(** Every shape the specification words passes the validator. *)
Lemma declared_is_checked (t : reflect.Type_) :
  declaredSignature t = true -> checkedSignature t = true.
Proof.
  destruct t as [p n|n fs|e|e|k e|n ms|ins outs v]; try discriminate.
  destruct ins as [|c [|a [|b ins]]]; try discriminate.
  unfold declaredSignature, checkedSignature.
  destruct (isContextPointer c); [|discriminate].
  destruct (declaredReturn outs); [|rewrite !andb_false_r; discriminate].
  rewrite !andb_true_r. simpl.
  destruct a as [p n|n fs|e|e|k e|n ms|i o w]; try (simpl; congruence).
  simpl. destruct (reflect.Kind_eqb (reflect.Kind_of k) reflect.String); [|discriminate].
  simpl. destruct e as [p n|n fs|e'|e'|k' e'|n ms|i o w]; try discriminate.
  simpl. destruct ms; [congruence|discriminate].
Qed.

(** A rejected value is told which rule it broke: the message is that of the
    first rule, in the validator's order, that fails. *)
Lemma rejection_names_the_rule (t : reflect.Type_) (err : string) :
  checkServiceMethodPrototype (Some t) = Some err ->
  (err = errNotFunction /\ reflect.Kind_of t <> reflect.Func)
  \/ (err = errArity /\ reflect.NumIn t <> 2%nat)
  \/ (err = errFirstArgument /\ on_part (reflect.In t 0) isContextPointer = false)
  \/ (err = errSecondArgument /\ on_part (reflect.In t 1) checkedSecond = false)
  \/ (err = errReturn /\ on_part (Some t)
                          (fun t => match t with
                                    | reflect.TFunc _ outs _ => declaredReturn outs
                                    | _ => false
                                    end) = false).
Proof.
  unfold checkServiceMethodPrototype.
  destruct (reflect.Kind_eqb (reflect.Kind_of t) reflect.Func) eqn:Hk; simpl.
  2:{ intros [= <-]. left. split; [reflexivity|].
      intros E. rewrite E in Hk. discriminate. }
  destruct (Nat.eqb (reflect.NumIn t) 2) eqn:Hn; simpl.
  2:{ intros [= <-]. right; left. split; [reflexivity|].
      apply Nat.eqb_neq. exact Hn. }
  destruct t as [p n|n fs|e|e|k e|n ms|ins outs v]; try discriminate.
  destruct ins as [|c [|a [|b ins]]]; try discriminate.
  change (reflect.In (reflect.TFunc (c :: a :: nil) outs v) 0) with (Some c).
  change (reflect.In (reflect.TFunc (c :: a :: nil) outs v) 1) with (Some a).
  cbv beta iota delta [on_part].
  rewrite isTypeServiceMethodContext_shape.
  destruct (isContextPointer c) eqn:Hc; simpl.
  2:{ intros [= <-]. right; right; left. split; reflexivity. }
  rewrite <- !negb_orb, second_argument_shape.
  destruct (checkedSecond a) eqn:Ha; simpl.
  2:{ intros [= <-]. right; right; right; left. split; reflexivity. }
  pose proof (return_shape (c :: a :: nil) outs v) as Hr. simpl in Hr.
  rewrite Hr.
  destruct (declaredReturn outs) eqn:Ho; simpl; [discriminate|].
  intros [= <-]. right; right; right; right. split; reflexivity.
Qed.

Section Registration.

Context {Obj Stream : Type}.

(** What a successful registration says about the handler it returns. *)
Lemma NewServiceHandler_ok (m : option (@Func Obj Stream)) (key : option string)
    (bypass : bool) (h : @ServiceHandler Obj Stream) :
  NewServiceHandler m key bypass = Ok h ->
  exists f, m = Some f
    /\ checkedSignature (func_type f) = true
    /\ value (method h) = f
    /\ reflect.In (func_type f) 1 = Some (argType (method h))
    /\ loggerContextKey h = key
    /\ bypassRequestBody h = bypass.
Proof.
  unfold NewServiceHandler. intros H.
  destruct m as [f|]; cbn [option_map] in H; [|discriminate H].
  destruct (checkServiceMethodPrototype (Some (func_type f))) eqn:Hc; [discriminate H|].
  apply checkServiceMethodPrototype_accepts in Hc.
  destruct (reflect.In (func_type f) 1) as [a|] eqn:Ha; [|discriminate H].
  injection H as <-. exists f. simpl. repeat split; assumption.
Qed.

(** Registration succeeds exactly on the checked shape. *)
Lemma NewServiceHandler_succeeds_iff (m : option (@Func Obj Stream))
    (key : option string) (bypass : bool) :
  is_ok (NewServiceHandler m key bypass) = true
  <-> exists f, m = Some f /\ checkedSignature (func_type f) = true.
Proof.
  split.
  - destruct (NewServiceHandler m key bypass) as [h|e] eqn:H; [|discriminate].
    intros _. apply NewServiceHandler_ok in H as (f & -> & Hs & _). eauto.
  - intros (f & -> & Hs). unfold NewServiceHandler. cbn [option_map].
    pose proof Hs as Hc. apply checkServiceMethodPrototype_accepts in Hc.
    rewrite Hc.
    destruct (func_type f) as [p n|n fs|e|e|k e|n ms|ins outs v]; try discriminate.
    destruct ins as [|c [|a [|b ins]]]; try discriminate. reflexivity.
Qed.

(** The second parameter of a registered handler is a slice, a map or a
    record pointer, so [Elem] of it does not panic. *)
Lemma registered_argType (m : option (@Func Obj Stream)) (key : option string)
    (bypass : bool) (h : @ServiceHandler Obj Stream) :
  NewServiceHandler m key bypass = Ok h ->
  checkedSecond (argType (method h)) = true
  /\ exists elemType, reflect.Elem (argType (method h)) = Some elemType.
Proof.
  intros H. apply NewServiceHandler_ok in H as (f & _ & Hs & _ & Ha & _).
  destruct (func_type f) as [p n|n fs|e|e|k e|n ms|ins outs v]; try discriminate.
  destruct ins as [|c [|a [|b ins]]]; try discriminate.
  simpl in Ha. injection Ha as <-.
  unfold checkedSignature in Hs.
  apply andb_prop in Hs as [Hs _]. apply andb_prop in Hs as [_ Hs].
  split; [exact Hs|].
  destruct a as [p n|n fs|e|e|k e|n ms|i o w]; try discriminate; simpl; eauto.
Qed.

End Registration.

(** ** The response writer *)

Lemma canonical_nosniff :
  CanonicalMIMEHeaderKey "x-content-type-options" = "X-Content-Type-Options".
Proof. reflexivity. Qed.

Lemma canonical_content_type :
  CanonicalMIMEHeaderKey "Content-Type" = "Content-Type".
Proof. reflexivity. Qed.

Lemma setResponseHeader_sent (w : ResponseWriter) :
  rw_sent (setResponseHeader w) = rw_sent w.
Proof. reflexivity. Qed.

Lemma setResponseHeader_body (w : ResponseWriter) :
  rw_body (setResponseHeader w) = rw_body w.
Proof. reflexivity. Qed.

Lemma setResponseHeader_core (w : ResponseWriter) :
  core_headers (rw_header (setResponseHeader w)).
Proof.
  unfold core_headers, setResponseHeader, SetHeader, Header_Set. simpl.
  rewrite canonical_nosniff, canonical_content_type. split.
  - rewrite lookup_insert_ne by discriminate. apply lookup_insert_eq.
  - apply lookup_insert_eq.
Qed.

Lemma checkWriteHeaderCode_range (c : Z) :
  checkWriteHeaderCode c = Ok tt <-> 100 <= c <= 999.
Proof.
  unfold checkWriteHeaderCode.
  destruct (Z.ltb_spec c 100), (Z.ltb_spec 999 c); simpl; split;
    try discriminate; try reflexivity; lia.
Qed.

Lemma WriteHeader_header (w : ResponseWriter) (c : Z) :
  rw_header (left_by w (WriteHeader w c)) = rw_header w.
Proof.
  unfold WriteHeader. destruct (rw_sent w); [reflexivity|].
  destruct (checkWriteHeaderCode c); reflexivity.
Qed.

Lemma WriteHeader_body (w : ResponseWriter) (c : Z) :
  rw_body (left_by w (WriteHeader w c)) = rw_body w.
Proof.
  unfold WriteHeader. destruct (rw_sent w); [reflexivity|].
  destruct (checkWriteHeaderCode c); reflexivity.
Qed.

Lemma WriteHeader_fresh (w : ResponseWriter) (c : Z) :
  rw_sent w = None -> 100 <= c <= 999 ->
  WriteHeader w c = Ok {| rw_header := rw_header w;
                          rw_sent := Some (c, rw_header w);
                          rw_body := rw_body w |}.
Proof.
  unfold WriteHeader. intros -> Hc. apply checkWriteHeaderCode_range in Hc.
  rewrite Hc. reflexivity.
Qed.

Lemma WriteHeader_refused (w : ResponseWriter) (c : Z) :
  rw_sent w = None -> ~ 100 <= c <= 999 ->
  WriteHeader w c = Err ("invalid WriteHeader code " ++ Sprintf_v c).
Proof.
  unfold WriteHeader. intros -> Hc.
  destruct (checkWriteHeaderCode c) as [[]|p] eqn:E.
  - exfalso. apply Hc. apply checkWriteHeaderCode_range. exact E.
  - unfold checkWriteHeaderCode in E.
    destruct ((c <? 100) || (999 <? c)); [|discriminate E].
    injection E as <-. reflexivity.
Qed.

Lemma WriteHeader_late (w : ResponseWriter) (c : Z) :
  rw_sent w <> None -> WriteHeader w c = Ok w.
Proof. unfold WriteHeader. destruct (rw_sent w); [reflexivity|congruence]. Qed.

(** A call that returns has sent the header, now or before. *)
Lemma WriteHeader_sends (w w' : ResponseWriter) (c : Z) :
  WriteHeader w c = Ok w' -> rw_sent w' <> None.
Proof.
  unfold WriteHeader. destruct (rw_sent w) eqn:E.
  - intros [= <-]. rewrite E. discriminate.
  - destruct (checkWriteHeaderCode c); [|discriminate].
    intros [= <-]. discriminate.
Qed.

Lemma Write_header (w : ResponseWriter) (b : string) :
  rw_header (Write w b) = rw_header w.
Proof. unfold Write. simpl. apply WriteHeader_header. Qed.

Lemma Write_body (w : ResponseWriter) (b : string) :
  rw_body (Write w b) = rw_body w ++ b.
Proof. unfold Write. simpl. rewrite WriteHeader_body. reflexivity. Qed.

Lemma Write_sent (w : ResponseWriter) (b : string) :
  rw_sent (Write w b)
  = match rw_sent w with Some s => Some s | None => Some (200, rw_header w) end.
Proof.
  unfold Write, WriteHeader. simpl.
  destruct (rw_sent w) eqn:E; simpl; [exact E|reflexivity].
Qed.

Lemma append_empty_r (s : string) : s ++ EmptyString = s.
Proof.
  induction s as [|c s IH]; [reflexivity|].
  change (String c (s ++ EmptyString) = String c s). rewrite IH. reflexivity.
Qed.

Lemma prefix_json_not_multipart (contentType : string) :
  HasPrefix contentType "application/json" = true ->
  String.eqb contentType "multipart/form-data" = false.
Proof.
  intros H. destruct (String.eqb_spec contentType "multipart/form-data") as [->|];
    [vm_compute in H; discriminate H|reflexivity].
Qed.

(** The status the handler's calls leave in [respStatus]. *)
Lemma apply_effects_status (es : list Effect) (s : Z) (w : ResponseWriter) :
  fst (apply_effects es (s, w)) = default s (last_status es).
Proof.
  unfold apply_effects. revert s w.
  induction es as [|e es IH]; intros s w; [reflexivity|].
  simpl. destruct e as [status|k v|b]; simpl; rewrite IH;
    destruct (last_status es); reflexivity.
Qed.

Lemma apply_effects_unsent (es : list Effect) (s : Z) (w : ResponseWriter) :
  forallb header_only es = true -> rw_sent w = None ->
  fst (apply_effects es (s, w)) = s
  /\ rw_sent (snd (apply_effects es (s, w))) = None
  /\ rw_body (snd (apply_effects es (s, w))) = rw_body w.
Proof.
  unfold apply_effects. revert w.
  induction es as [|e es IH]; intros w Hq Hw; [simpl; auto|].
  simpl in Hq. apply andb_prop in Hq as [He Hq].
  destruct e as [status|k v|b]; try discriminate He.
  simpl. apply (IH (SetHeader w k v)); assumption.
Qed.

Lemma apply_effect_writer (s s' : Z) (w : ResponseWriter) (e : Effect) :
  snd (apply_effect (s, w) e) = snd (apply_effect (s', w) e).
Proof. destruct e; reflexivity. Qed.

Lemma apply_effect_sent (s : Z) (w : ResponseWriter) (e : Effect) :
  rw_sent w <> None -> rw_sent (snd (apply_effect (s, w) e)) <> None.
Proof.
  intros Hw. destruct e as [status|k v|b]; cbn [apply_effect snd].
  - rewrite WriteHeader_late by exact Hw. exact Hw.
  - exact Hw.
  - rewrite Write_sent. destruct (rw_sent w); [discriminate|congruence].
Qed.

Lemma apply_effects_sent (es : list Effect) (s : Z) (w : ResponseWriter) :
  rw_sent w <> None -> rw_sent (snd (apply_effects es (s, w))) <> None.
Proof.
  unfold apply_effects. revert s w.
  induction es as [|e es IH]; intros s w Hw; [exact Hw|].
  cbn [fold_left]. destruct (apply_effect (s, w) e) as [s' w'] eqn:E.
  apply IH. pose proof (apply_effect_sent s w e Hw) as H. rewrite E in H. exact H.
Qed.

(** When no call was refused, all the calls were made, and a status was
    stored only by a call that sent the header, or found it sent. *)
Lemma made_all (es : list Effect) (w : ResponseWriter) :
  snd (made es w) = None ->
  fst (made es w) = es
  /\ forall s, rw_sent (snd (apply_effects es (s, w))) <> None
               \/ fst (apply_effects es (s, w)) = s.
Proof.
  revert w. induction es as [|e es IH]; intros w H; [simpl; auto|].
  cbn [made] in *.
  destruct e as [status|k v|b].
  - destruct (WriteHeader w status) as [w'|p] eqn:E; [|discriminate H].
    cbn [apply_effect snd left_by] in *. rewrite E in *. cbn [left_by] in *.
    destruct (made es w') as [rest q] eqn:M. cbn [fst snd] in *. subst q.
    destruct (IH w') as [Hall _]; [rewrite M; reflexivity|].
    rewrite M in Hall. cbn [fst] in Hall. rewrite Hall.
    split; [reflexivity|]. intros s. left.
    unfold apply_effects. cbn [fold_left apply_effect]. rewrite E. cbn [left_by].
    apply (apply_effects_sent es status w'). apply (WriteHeader_sends w w' status E).
  - cbn [apply_effect snd] in *.
    destruct (made es (SetHeader w k v)) as [rest q] eqn:M.
    cbn [fst snd] in *. subst q.
    destruct (IH (SetHeader w k v)) as [Hall Hst]; [rewrite M; reflexivity|].
    rewrite M in Hall. cbn [fst] in Hall. rewrite Hall.
    split; [reflexivity|]. intros s. apply (Hst s).
  - cbn [apply_effect snd] in *.
    destruct (made es (Write w b)) as [rest q] eqn:M.
    cbn [fst snd] in *. subst q.
    destruct (IH (Write w b)) as [Hall _]; [rewrite M; reflexivity|].
    rewrite M in Hall. cbn [fst] in Hall. rewrite Hall.
    split; [reflexivity|]. intros s. left.
    apply (apply_effects_sent es s (Write w b)).
    rewrite Write_sent. destruct (rw_sent w); discriminate.
Qed.

Section Properties.

Context {Obj Stream : Type} {R : @Runtime Obj Stream}.

(** A run that returned was not stopped: none of its calls was refused. *)
Lemma stopped_returned (w : ResponseWriter) (run : @Run Obj Stream)
    (out : list (@Value Obj)) :
  completion (stopped w run) = Returns out ->
  stopped w run = run /\ snd (made (effects run) w) = None.
Proof.
  unfold stopped. destruct (made (effects run) w) as [es [p|]]; [discriminate|].
  auto.
Qed.

Lemma Encode_header (w : ResponseWriter) (data : @Iface Obj) :
  rw_header (Encode w data) = rw_header w.
Proof. unfold Encode. destruct (json_Marshal data); [apply Write_header|reflexivity]. Qed.

Lemma Encode_body (w : ResponseWriter) (data : @Iface Obj) :
  rw_body (Encode w data) = rw_body w ++ encoded data.
Proof.
  unfold Encode, encoded. destruct (json_Marshal data);
    [apply Write_body|symmetry; apply append_empty_r].
Qed.

Lemma Encode_sent (w : ResponseWriter) (data : @Iface Obj) (s : Z * Header) :
  rw_sent w = Some s -> rw_sent (Encode w data) = Some s.
Proof.
  intros H. unfold Encode. destruct (json_Marshal data); [|exact H].
  rewrite Write_sent, H. reflexivity.
Qed.

Lemma writeErrorResponse_header (w : ResponseWriter) (resp : @FormattedResponse Obj) :
  core_headers (rw_header (writeErrorResponse w resp)).
Proof.
  unfold writeErrorResponse.
  pose proof (WriteHeader_header (setResponseHeader w) (Code resp)) as H.
  destruct (WriteHeader (setResponseHeader w) (Code resp)); simpl in *.
  - rewrite Encode_header, H. apply setResponseHeader_core.
  - apply setResponseHeader_core.
Qed.

(** [w.WriteHeader] does not panic when the header was sent before, nor
    when the code is one that can be sent. *)
Lemma writeErrorResponse_quiet (w : ResponseWriter) (resp : @FormattedResponse Obj) :
  rw_sent w <> None \/ 100 <= Code resp <= 999 ->
  panicked (writeErrorResponse w resp) = None.
Proof.
  intros H. unfold writeErrorResponse.
  destruct (rw_sent w) eqn:E.
  - rewrite WriteHeader_late; [reflexivity|].
    rewrite setResponseHeader_sent, E. discriminate.
  - destruct H as [H|H]; [congruence|].
    rewrite (WriteHeader_fresh _ _ (eq_trans (setResponseHeader_sent w) E) H).
    reflexivity.
Qed.

Lemma writeErrorResponse_body (w : ResponseWriter) (resp : @FormattedResponse Obj) :
  panicked (writeErrorResponse w resp) = None ->
  rw_body (writeErrorResponse w resp) = rw_body w ++ encoded (box resp).
Proof.
  unfold writeErrorResponse.
  pose proof (WriteHeader_body (setResponseHeader w) (Code resp)) as H.
  destruct (WriteHeader (setResponseHeader w) (Code resp)); simpl in *;
    [|discriminate].
  intros _. rewrite Encode_body, H. reflexivity.
Qed.

(** On a writer that has sent nothing yet, the envelope goes out under its
    own code and with the two headers. *)
Lemma writeErrorResponse_fresh (w : ResponseWriter) (resp : @FormattedResponse Obj) :
  rw_sent w = None -> 100 <= Code resp <= 999 ->
  StatusCode (writeErrorResponse w resp) = Code resp
  /\ core_headers (SentHeader (writeErrorResponse w resp)).
Proof.
  intros Hw Hc. unfold writeErrorResponse.
  rewrite (WriteHeader_fresh _ _ (eq_trans (setResponseHeader_sent w) Hw) Hc).
  unfold StatusCode, SentHeader. cbn [writer].
  rewrite (Encode_sent _ _ (Code resp, rw_header (setResponseHeader w)));
    [|reflexivity].
  split; [reflexivity|apply setResponseHeader_core].
Qed.

(** A code that cannot be sent: the headers are set, [w.WriteHeader] panics
    and nothing is sent or written. *)
Lemma writeErrorResponse_refused (w : ResponseWriter) (resp : @FormattedResponse Obj) :
  rw_sent w = None -> ~ 100 <= Code resp <= 999 ->
  writeErrorResponse w resp
  = mkWritten (setResponseHeader w)
      (Some ("invalid WriteHeader code " ++ Sprintf_v (Code resp))).
Proof.
  intros Hw Hc. unfold writeErrorResponse.
  rewrite (WriteHeader_refused _ _ (eq_trans (setResponseHeader_sent w) Hw) Hc).
  reflexivity.
Qed.

(** Once the handler has sent the header, status and sent headers stay. *)
Lemma writeErrorResponse_late (w : ResponseWriter) (resp : @FormattedResponse Obj)
    (s : Z * Header) :
  rw_sent w = Some s -> rw_sent (writeErrorResponse w resp) = Some s.
Proof.
  intros Hw. unfold writeErrorResponse.
  rewrite WriteHeader_late; [|rewrite setResponseHeader_sent, Hw; discriminate].
  cbn [writer]. apply Encode_sent. rewrite setResponseHeader_sent. exact Hw.
Qed.

Lemma writeResponse_header (w : ResponseWriter) (data : @Iface Obj) :
  core_headers (rw_header (writeResponse w data)).
Proof. unfold writeResponse. rewrite Encode_header. apply setResponseHeader_core. Qed.

Lemma writeResponse_body (w : ResponseWriter) (data : @Iface Obj) :
  rw_body (writeResponse w data) = rw_body w ++ encoded data.
Proof. unfold writeResponse. rewrite Encode_body. reflexivity. Qed.

Lemma writeResponse_fresh (w : ResponseWriter) (data : @Iface Obj) :
  rw_sent w = None ->
  StatusCode (writeResponse w data) = 200
  /\ core_headers (SentHeader (writeResponse w data)).
Proof.
  intros Hw. unfold writeResponse, Encode, StatusCode, SentHeader.
  destruct (json_Marshal data).
  - rewrite Write_sent, setResponseHeader_sent, Hw.
    split; [reflexivity|apply setResponseHeader_core].
  - rewrite setResponseHeader_sent, Hw.
    split; [reflexivity|apply setResponseHeader_core].
Qed.

(** ** Bind failures *)

Lemma serve_bind_failure (h : @ServiceHandler Obj Stream) (env : Env)
    (w : ResponseWriter) (r r1 : @Request Stream) (log : list (string * string))
    (params : option (list (string * string))) (elemType : reflect.Type_) (e : string) :
  reflect.Elem (argType (method h)) = Some elemType ->
  parseArgument h r params (reflect.TPtr elemType) (reflect_Zero elemType) = (Err e, r1) ->
  ServeHTTPWithParams h env w r log params
  = mkServed
      (writeErrorResponse w (mkFormattedResponse 400 "parse argument failed" (IString e)))
      r1 log false None.
Proof.
  intros He Hp. unfold ServeHTTPWithParams. rewrite He. cbv zeta. rewrite Hp.
  rewrite writeErrorResponse_quiet; [reflexivity|].
  right. cbn [Code]. lia.
Qed.

Lemma parseArgument_rejects (h : @ServiceHandler Obj Stream) (r : @Request Stream)
    (params : option (list (string * string))) (argPtr : reflect.Type_) (arg : Obj) :
  ToUpper (req_Method r) = "POST" ->
  HasPrefix (ToLower (Header_Get (req_Header r) "Content-Type")) "application/json" = true ->
  bypassRequestBody h = false ->
  body_rejected r argPtr ->
  exists e r1, parseArgument h r params argPtr arg = (Err e, r1).
Proof.
  intros Hm Hc Hb Hbad. unfold parseArgument.
  rewrite Hm, Hc, Hb, (prefix_json_not_multipart _ Hc).
  cbn [String.eqb Ascii.eqb Bool.eqb andb negb].
  unfold body_rejected in Hbad.
  destruct (ParseForm r) as [[e|] r1]; [eauto|].
  destruct (schema_Decode argPtr arg (req_Form r1)) as [arg1|e]; [|eauto].
  specialize (Hbad arg1). cbn [snd] in Hbad.
  destruct (json_Decode (req_Body r1) argPtr arg1) as [[a|e] body];
    [discriminate Hbad|eauto].
Qed.

(** C2.  A POST request with a JSON content type, on a route that does not
    bypass the body, whose body the JSON decoder rejects for the argument,
    is answered with status 400 and the envelope
    [{code: 400, msg: parse argument failed, data: the error text}]; the
    handler is not invoked and nothing escapes. *)
Theorem malformed_json_is_rejected (m : option (@Func Obj Stream))
    (key : option string) (h : @ServiceHandler Obj Stream) (env : Env)
    (w : ResponseWriter) (r : @Request Stream) (log : list (string * string))
    (params : option (list (string * string))) :
  NewServiceHandler m key false = Ok h ->
  ToUpper (req_Method r) = "POST" ->
  HasPrefix (ToLower (Header_Get (req_Header r) "Content-Type")) "application/json" = true ->
  (forall elemType, reflect.Elem (argType (method h)) = Some elemType ->
                    body_rejected r (reflect.TPtr elemType)) ->
  rw_sent w = None ->
  let served := ServeHTTPWithParams h env w r log params in
  (exists e,
      rw served
      = writeErrorResponse w (mkFormattedResponse 400 "parse argument failed" (IString e))
      /\ rw_body (rw served)
         = rw_body w ++ encoded (IFormattedResponse 400 "parse argument failed" (IString e)))
  /\ StatusCode (rw served) = 400
  /\ invoked served = false
  /\ escaped served = None.
Proof.
  intros Hreg Hm Hc Hbad Hw served.
  destruct (registered_argType _ _ _ _ Hreg) as [_ [elemType He]].
  apply NewServiceHandler_ok in Hreg as (f & _ & _ & _ & _ & _ & Hb).
  destruct (parseArgument_rejects h r params (reflect.TPtr elemType)
              (reflect_Zero elemType) Hm Hc Hb (Hbad _ He)) as (e & r1 & Hp).
  subst served. rewrite (serve_bind_failure h env w r r1 log params elemType e He Hp).
  simpl. repeat split.
  - exists e. split; [reflexivity|].
    apply writeErrorResponse_body. apply writeErrorResponse_quiet.
    right. cbn [Code]. lia.
  - apply (writeErrorResponse_fresh w
             (mkFormattedResponse 400 "parse argument failed" (IString e)) Hw).
    cbn [Code]. lia.
Qed.

(** ** The order of the three passes *)

(** C1.  On a POST request with a JSON content type and the body not
    bypassed, a successful binding leaves in each part of the argument the
    value of the path parameters when they supply one, else the value of the
    JSON body when it supplies one, else the value of the query or form. *)
Theorem binding_priority {V : Type} (field : Obj -> V) (argPtr : reflect.Type_)
    (h : @ServiceHandler Obj Stream) (r r' : @Request Stream)
    (params : option (list (string * string))) (arg0 arg : Obj) :
  ToUpper (req_Method r) = "POST" ->
  HasPrefix (ToLower (Header_Get (req_Header r) "Content-Type")) "application/json" = true ->
  bypassRequestBody h = false ->
  parseArgument h r params argPtr arg0 = (Ok arg, r') ->
  let parsed := snd (ParseForm r) in
  (forall ps p, params = Some ps ->
                form_supplies field argPtr (paramValues ps) p -> field arg = p)
  /\ (path_keeps field argPtr params ->
      forall j, json_supplies field argPtr (req_Body parsed) j -> field arg = j)
  /\ (path_keeps field argPtr params -> json_keeps field argPtr (req_Body parsed) ->
      forall q, form_supplies field argPtr (req_Form parsed) q -> field arg = q).
Proof.
  intros Hm Hc Hb Hp. unfold parseArgument in Hp.
  rewrite Hm, Hc, Hb, (prefix_json_not_multipart _ Hc) in Hp.
  cbn [String.eqb Ascii.eqb Bool.eqb andb negb] in Hp.
  destruct (ParseForm r) as [[e|] r1]; [discriminate Hp|].
  cbn [snd].
  destruct (schema_Decode argPtr arg0 (req_Form r1)) as [a1|e] eqn:H1;
    [|discriminate Hp].
  destruct (json_Decode (req_Body r1) argPtr a1) as [[a2|e] body] eqn:H2;
    [|discriminate Hp].
  destruct params as [ps|].
  - destruct (schema_Decode argPtr a2 (paramValues ps)) as [a3|e] eqn:H3;
      [|discriminate Hp].
    injection Hp as <- <-. repeat split.
    + intros ps' p [= <-] Hs. exact (Hs _ _ H3).
    + intros Hk j Hj. rewrite (Hk _ _ H3). exact (Hj _ _ _ H2).
    + intros Hk Hj q Hq. rewrite (Hk _ _ H3), (Hj _ _ _ H2). exact (Hq _ _ H1).
  - injection Hp as <- <-. repeat split.
    + intros ps p [=].
    + intros _ j Hj. exact (Hj _ _ _ H2).
    + intros _ Hj q Hq. rewrite (Hj _ _ _ H2). exact (Hq _ _ H1).
Qed.


(** ** Invocation *)

Lemma recordAccess_inactive (h : @ServiceHandler Obj Stream) (env : Env)
    (r : @Request Stream) (argI respData : @Iface Obj) (log : list (string * string)) :
  hook_active h r = false -> recordAccess h env r argI respData log = (log, None).
Proof.
  unfold hook_active, recordAccess.
  destruct (loggerContextKey h) as [key|]; [|reflexivity].
  destruct (req_Context r key); [reflexivity|discriminate|reflexivity].
Qed.

Lemma recordAccess_active (h : @ServiceHandler Obj Stream) (env : Env)
    (r : @Request Stream) (argI respData : @Iface Obj) (log : list (string * string))
    (a d : string) :
  hook_active h r = true ->
  json_Marshal argI = Ok a -> json_Marshal respData = Ok d ->
  recordAccess h env r argI respData log
  = (app log (("args", a) :: ("resp", d)
              :: ("methodBegin", Format_log (env_begin env))
              :: ("methodDuration", FormatSeconds (env_elapsed env)) :: nil),
     None).
Proof.
  unfold hook_active, recordAccess. intros Hh Ha Hd.
  destruct (loggerContextKey h) as [key|]; [|discriminate Hh].
  destruct (req_Context r key); try discriminate Hh.
  rewrite Ha, Hd. reflexivity.
Qed.

Lemma recordAccess_quiet (h : @ServiceHandler Obj Stream) (env : Env)
    (r : @Request Stream) (argI respData : @Iface Obj) (log : list (string * string)) :
  log_tail_ok h r argI respData ->
  snd (recordAccess h env r argI respData log) = None.
Proof.
  intros [Hh|[Ha Hd]].
  - rewrite recordAccess_inactive by exact Hh. reflexivity.
  - destruct (hook_active h r) eqn:Hh.
    + destruct (json_Marshal argI) as [a|] eqn:Ea; [|discriminate Ha].
      destruct (json_Marshal respData) as [d|] eqn:Ed; [|discriminate Hd].
      rewrite (recordAccess_active h env r argI respData log a d Hh Ea Ed).
      reflexivity.
    + rewrite recordAccess_inactive by exact Hh. reflexivity.
Qed.

Lemma hook_active_with_Body (h : @ServiceHandler Obj Stream) (r : @Request Stream)
    (b : Stream) :
  hook_active h (with_Body r b) = hook_active h r.
Proof. reflexivity. Qed.

Lemma doServiceMethodCall_returns (method : @serviceMethod Obj Stream)
    (tys : list reflect.Type_) (ctx : @ServiceMethodContext Stream) (arg : Obj)
    (stack : string) (ran : bool) (run : @Run Obj Stream) (out : list (@Value Obj)) :
  Call (value method) tys ctx arg = (ran, run) ->
  completion run = Returns out ->
  doServiceMethodCall method tys ctx arg stack = (ran, run, out, None).
Proof. intros Hc Hr. unfold doServiceMethodCall. rewrite Hc, Hr. reflexivity. Qed.

(** A panic with a value other than nil is recovered into a [panicStack]. *)
Lemma doServiceMethodCall_recovers (method : @serviceMethod Obj Stream)
    (tys : list reflect.Type_) (ctx : @ServiceMethodContext Stream) (arg : Obj)
    (stack : string) (ran : bool) (run : @Run Obj Stream) (v : PanicValue) :
  Call (value method) tys ctx arg = (ran, run) ->
  completion run = Panics v -> v <> PanicNil ->
  doServiceMethodCall method tys ctx arg stack
  = (ran, run, nil, Some {| Panic := Sprintf_s v; Stack := stack |}).
Proof.
  intros Hc Hr Hv. unfold doServiceMethodCall. rewrite Hc, Hr.
  destruct v; [congruence|reflexivity|reflexivity].
Qed.

Lemma serve_handled (h : @ServiceHandler Obj Stream) (env : Env)
    (w : ResponseWriter) (r r1 : @Request Stream) (log : list (string * string))
    (params : option (list (string * string))) (elemType : reflect.Type_)
    (arg : Obj) (ran : bool) (run : @Run Obj Stream)
    (out : list (@Value Obj)) (methodPanic : option panicStack) :
  handled h w r params elemType r1 arg ran run ->
  doServiceMethodCall (method h) (inTypes (reflect.TPtr elemType)) (newContext r1 w)
    arg (env_stack env) = (ran, run, out, methodPanic) ->
  ServeHTTPWithParams h env w r log params
  = respond h env (with_Body r1 (body_after run)) log ran
      (IPointer (reflect.TPtr elemType) (Some (arg_after run)))
      (fst (apply_effects (effects run) (200, w)))
      (snd (apply_effects (effects run) (200, w))) out methodPanic.
Proof.
  intros (He & Hp & _) Hd. unfold ServeHTTPWithParams.
  rewrite He. cbv zeta. rewrite Hp, Hd.
  destruct (apply_effects (effects run) (200, w)) as [respStatus w']. reflexivity.
Qed.

(** What a run that returned leaves: the header is sent, or the status is
    where it was. *)
Lemma returned_status_sendable (h : @ServiceHandler Obj Stream)
    (w : ResponseWriter) (r r1 : @Request Stream)
    (params : option (list (string * string))) (elemType : reflect.Type_)
    (arg : Obj) (ran : bool) (run : @Run Obj Stream) (out : list (@Value Obj)) :
  handled h w r params elemType r1 arg ran run ->
  completion run = Returns out ->
  rw_sent (snd (apply_effects (effects run) (200, w))) <> None
  \/ fst (apply_effects (effects run) (200, w)) = 200.
Proof.
  intros (_ & _ & Hcall) Hc. unfold Call in Hcall.
  destruct (call_accepts (func_type (value (method h)))
              (inTypes (reflect.TPtr elemType)));
    injection Hcall as _ Hrun; subst run; [|discriminate Hc].
  cbn [newContext smc_ResponseBodyWriter] in *.
  destruct (stopped_returned _ _ _ Hc) as [Hs Hm]. rewrite Hs.
  apply made_all. exact Hm.
Qed.

Lemma error_answer_quiet (w : ResponseWriter) (respStatus : Z) (msg : string)
    (data : @Iface Obj) :
  rw_sent w <> None \/ respStatus = 200 ->
  panicked (writeErrorResponse w
              (mkFormattedResponse (if respStatus =? 200 then 500 else respStatus)
                 msg data)) = None.
Proof.
  intros [H| ->]; apply writeErrorResponse_quiet; [left; exact H|].
  right. cbn. lia.
Qed.

Lemma fault400_quiet (w : ResponseWriter) (msg : string) (data : @Iface Obj) :
  panicked (writeErrorResponse w (mkFormattedResponse 400 msg data)) = None.
Proof. apply writeErrorResponse_quiet. right. cbn. lia. Qed.

Lemma fault_answer_quiet (w : ResponseWriter) (msg : string) (data : @Iface Obj) :
  panicked (writeErrorResponse w (mkFormattedResponse 500 msg data)) = None.
Proof. apply writeErrorResponse_quiet. right. cbn. lia. Qed.

(** What [respond] makes of a recovered panic, of a returned error, and of
    a returned value. *)
Lemma respond_panicked (h : @ServiceHandler Obj Stream) (env : Env)
    (r : @Request Stream) (log : list (string * string)) (ran : bool)
    (argI : @Iface Obj) (respStatus : Z) (w : ResponseWriter)
    (out : list (@Value Obj)) (ps : panicStack) :
  let resp := mkFormattedResponse 500 "service method panicked" (IPanicStack ps) in
  respond h env r log ran argI respStatus w out (Some ps)
  = mkServed (writeErrorResponse w resp) r
      (fst (recordAccess h env r argI (box resp) log)) ran
      (snd (recordAccess h env r argI (box resp) log)).
Proof.
  intros resp. unfold respond. cbv beta iota zeta.
  fold resp. unfold resp at 1. rewrite fault_answer_quiet. fold resp.
  cbv beta iota zeta. cbn [panicked writer].
  destruct (recordAccess h env r argI (box resp) log). reflexivity.
Qed.

Lemma respond_error (h : @ServiceHandler Obj Stream) (env : Env)
    (r : @Request Stream) (log : list (string * string)) (ran : bool)
    (argI : @Iface Obj) (respStatus : Z) (w : ResponseWriter)
    (out : list (@Value Obj)) (msg : string) :
  returned_error out = Some msg ->
  let resp := mkFormattedResponse (if respStatus =? 200 then 500 else respStatus)
                "service method error" (IString msg) in
  panicked (writeErrorResponse w resp) = None ->
  respond h env r log ran argI respStatus w out None
  = mkServed (writeErrorResponse w resp) r
      (fst (recordAccess h env r argI (box resp) log)) ran
      (snd (recordAccess h env r argI (box resp) log)).
Proof.
  intros Hr resp Hq. unfold respond, returned_error in *.
  destruct out as [|o0 [|o1 [|o2 out]]]; try discriminate Hr.
  - destruct (Interface o0); try discriminate Hr. injection Hr as ->.
    cbv beta iota zeta delta [as_error]. cbn [panicked writer]. fold resp.
    rewrite Hq.
    destruct (recordAccess h env r argI (box resp) log). reflexivity.
  - destruct (Interface o1); try discriminate Hr. injection Hr as ->.
    cbv beta iota zeta delta [as_error]. cbn [panicked writer]. fold resp.
    rewrite Hq.
    destruct (recordAccess h env r argI (box resp) log). reflexivity.
Qed.

(** The panic of [WriteHeader] in [writeErrorResponse] leaves
    [ServeHTTPWithParams]: nothing is written and nothing is logged. *)
Lemma respond_error_escapes (h : @ServiceHandler Obj Stream) (env : Env)
    (r : @Request Stream) (log : list (string * string)) (ran : bool)
    (argI : @Iface Obj) (respStatus : Z) (w : ResponseWriter)
    (out : list (@Value Obj)) (msg p : string) :
  returned_error out = Some msg ->
  let resp := mkFormattedResponse (if respStatus =? 200 then 500 else respStatus)
                "service method error" (IString msg) in
  panicked (writeErrorResponse w resp) = Some p ->
  respond h env r log ran argI respStatus w out None
  = mkServed (writeErrorResponse w resp) r log ran (Some p).
Proof.
  intros Hr resp Hq. unfold respond, returned_error in *.
  destruct out as [|o0 [|o1 [|o2 out]]]; try discriminate Hr.
  - destruct (Interface o0); try discriminate Hr. injection Hr as ->.
    cbv beta iota zeta delta [as_error]. cbn [panicked writer]. fold resp.
    rewrite Hq. reflexivity.
  - destruct (Interface o1); try discriminate Hr. injection Hr as ->.
    cbv beta iota zeta delta [as_error]. cbn [panicked writer]. fold resp.
    rewrite Hq. reflexivity.
Qed.

Lemma respond_value (h : @ServiceHandler Obj Stream) (env : Env)
    (r : @Request Stream) (log : list (string * string)) (ran : bool)
    (argI : @Iface Obj) (respStatus : Z) (w : ResponseWriter)
    (t e : reflect.Type_) (target : option Obj) :
  respond h env r log ran argI respStatus w
    (VPointer t target :: VInterface e INil :: nil) None
  = mkServed (writeResponse w (IPointer t target)) r
      (fst (recordAccess h env r argI (IPointer t target) log)) ran
      (snd (recordAccess h env r argI (IPointer t target) log)).
Proof.
  unfold respond. cbv beta iota zeta delta [as_error Interface].
  cbn [panicked writer].
  destruct (recordAccess h env r argI (IPointer t target) log). reflexivity.
Qed.

Lemma respond_nothing (h : @ServiceHandler Obj Stream) (env : Env)
    (r : @Request Stream) (log : list (string * string)) (ran : bool)
    (argI : @Iface Obj) (respStatus : Z) (w : ResponseWriter) (e : reflect.Type_) :
  respond h env r log ran argI respStatus w (VInterface e INil :: nil) None
  = mkServed w r
      (fst (recordAccess h env r argI INil log)) ran
      (snd (recordAccess h env r argI INil log)).
Proof.
  unfold respond. cbv beta iota zeta delta [as_error Interface].
  cbn [panicked writer].
  destruct (recordAccess h env r argI INil log). reflexivity.
Qed.

(** A call that panics with a value other than nil: the panic is recovered
    and the request is answered with the envelope of a fault. *)
Lemma serve_recovered (h : @ServiceHandler Obj Stream) (env : Env)
    (w : ResponseWriter) (r r1 : @Request Stream) (log : list (string * string))
    (params : option (list (string * string))) (elemType : reflect.Type_)
    (arg : Obj) (ran : bool) (run : @Run Obj Stream) (v : PanicValue) :
  handled h w r params elemType r1 arg ran run ->
  completion run = Panics v -> v <> PanicNil ->
  let ps := {| Panic := Sprintf_s v; Stack := env_stack env |} in
  let resp := mkFormattedResponse 500 "service method panicked" (IPanicStack ps) in
  let r2 := with_Body r1 (body_after run) in
  let argI := IPointer (reflect.TPtr elemType) (Some (arg_after run)) in
  doServiceMethodCall (method h) (inTypes (reflect.TPtr elemType)) (newContext r1 w)
    arg (env_stack env) = (ran, run, nil, Some ps)
  /\ ServeHTTPWithParams h env w r log params
     = mkServed (writeErrorResponse (snd (apply_effects (effects run) (200, w))) resp)
         r2 (fst (recordAccess h env r2 argI (box resp) log)) ran
         (snd (recordAccess h env r2 argI (box resp) log)).
Proof.
  intros Hh Hc Hv ps resp r2 argI.
  pose proof Hh as (_ & _ & Hcall).
  pose proof (doServiceMethodCall_recovers (method h) _ _ arg (env_stack env)
                ran run v Hcall Hc Hv) as Hd.
  split; [exact Hd|].
  rewrite (serve_handled h env w r r1 log params elemType arg ran run
             nil (Some ps) Hh Hd).
  apply respond_panicked.
Qed.

(** C3 (amended).  When the call of the handler panics with a value other
    than nil, [doServiceMethodCall] recovers it, and the envelope
    [{code: 500, msg: service method panicked, data: {panic, stack}}] is
    written after whatever the handler wrote; the status that goes out is
    500 when the handler had sent nothing before it panicked, and nothing
    escapes unless the logging tail fails to marshal. *)
Theorem panic_is_answered (h : @ServiceHandler Obj Stream) (env : Env)
    (w : ResponseWriter) (r r1 : @Request Stream) (log : list (string * string))
    (params : option (list (string * string))) (elemType : reflect.Type_)
    (arg : Obj) (ran : bool) (run : @Run Obj Stream) (v : PanicValue) :
  handled h w r params elemType r1 arg ran run ->
  completion run = Panics v -> v <> PanicNil ->
  let served := ServeHTTPWithParams h env w r log params in
  let w' := snd (apply_effects (effects run) (200, w)) in
  let ps := {| Panic := Sprintf_s v; Stack := env_stack env |} in
  let resp := mkFormattedResponse 500 "service method panicked" (IPanicStack ps) in
  doServiceMethodCall (method h) (inTypes (reflect.TPtr elemType)) (newContext r1 w)
    arg (env_stack env) = (ran, run, nil, Some ps)
  /\ rw served = writeErrorResponse w' resp
  /\ rw_body (rw served) = rw_body w' ++ encoded (box resp)
  /\ (rw_sent w' = None -> StatusCode (rw served) = 500)
  /\ (log_tail_ok h r1 (IPointer (reflect.TPtr elemType) (Some (arg_after run)))
        (box resp) -> escaped served = None).
Proof.
  intros Hh Hc Hv served w' ps resp.
  destruct (serve_recovered h env w r r1 log params elemType arg ran run v Hh Hc Hv)
    as [Hd Hserved].
  split; [exact Hd|].
  subst served. rewrite Hserved. fold resp w'. cbn [rw escaped].
  split; [reflexivity|].
  split; [apply writeErrorResponse_body; apply fault_answer_quiet|].
  split.
  - intros Hs. apply (writeErrorResponse_fresh w' resp Hs). cbn. lia.
  - intros Hl. apply recordAccess_quiet. exact Hl.
Qed.

(** The case the tests have: a handler that touched nothing but the header
    map before it panicked, on a writer that had sent nothing, is answered
    under the status 500. *)
Lemma quiet_panic_is_500 (h : @ServiceHandler Obj Stream) (env : Env)
    (w : ResponseWriter) (r r1 : @Request Stream) (log : list (string * string))
    (params : option (list (string * string))) (elemType : reflect.Type_)
    (arg : Obj) (ran : bool) (run : @Run Obj Stream) (v : PanicValue) :
  handled h w r params elemType r1 arg ran run ->
  completion run = Panics v -> v <> PanicNil ->
  forallb header_only (effects run) = true ->
  rw_sent w = None ->
  StatusCode (rw (ServeHTTPWithParams h env w r log params)) = 500.
Proof.
  intros Hh Hc Hv Hq Hw.
  destruct (serve_recovered h env w r r1 log params elemType arg ran run v Hh Hc Hv)
    as [_ Hserved].
  rewrite Hserved. cbn [rw].
  destruct (apply_effects_unsent (effects run) 200 w Hq Hw) as (_ & Hs & _).
  apply (writeErrorResponse_fresh _
           (mkFormattedResponse 500 "service method panicked"
              (IPanicStack {| Panic := Sprintf_s v; Stack := env_stack env |})) Hs).
  cbn. lia.
Qed.

(** What the code does with a two-result handler that returns a nil pointer
    and no error: the nil pointer, boxed with its type, is not the nil
    interface, so it is written like any result. *)
Lemma nil_pointer_result_is_written (h : @ServiceHandler Obj Stream) (env : Env)
    (w : ResponseWriter) (r r1 : @Request Stream) (log : list (string * string))
    (params : option (list (string * string))) (elemType : reflect.Type_)
    (arg : Obj) (ran : bool) (run : @Run Obj Stream) (t e : reflect.Type_) :
  handled h w r params elemType r1 arg ran run ->
  completion run = Returns (VPointer t None :: VInterface e INil :: nil) ->
  let served := ServeHTTPWithParams h env w r log params in
  let w' := snd (apply_effects (effects run) (200, w)) in
  rw served = writeResponse w' (IPointer t None)
  /\ rw_body (rw served) = rw_body w' ++ encoded (IPointer t None).
Proof.
  intros Hh Hc served w'.
  pose proof Hh as (_ & _ & Hcall).
  pose proof (doServiceMethodCall_returns (method h) _ _ arg (env_stack env)
                ran run _ Hcall Hc) as Hd.
  subst served. rewrite (serve_handled h env w r r1 log params elemType arg ran run
                           _ None Hh Hd).
  rewrite respond_value. fold w'. simpl.
  split; [reflexivity|apply writeResponse_body].
Qed.

(** C5 (amended).  When the handler's last call of the status setter was
    with a status between 100 and 999 other than 200 and it then returns a
    non-nil error, the envelope written carries that status as its code, and
    nothing escapes unless the logging tail fails to marshal. *)
Theorem explicit_status_reaches_envelope (h : @ServiceHandler Obj Stream) (env : Env)
    (w : ResponseWriter) (r r1 : @Request Stream) (log : list (string * string))
    (params : option (list (string * string))) (elemType : reflect.Type_)
    (arg : Obj) (ran : bool) (run : @Run Obj Stream)
    (out : list (@Value Obj)) (msg : string) (status : Z) :
  handled h w r params elemType r1 arg ran run ->
  completion run = Returns out ->
  returned_error out = Some msg ->
  last_status (effects run) = Some status ->
  100 <= status <= 999 ->
  status <> 200 ->
  let served := ServeHTTPWithParams h env w r log params in
  let w' := snd (apply_effects (effects run) (200, w)) in
  let resp := mkFormattedResponse status "service method error" (IString msg) in
  rw served = writeErrorResponse w' resp
  /\ rw_body (rw served) = rw_body w' ++ encoded (box resp)
  /\ (log_tail_ok h r1 (IPointer (reflect.TPtr elemType) (Some (arg_after run)))
        (box resp) -> escaped served = None).
Proof.
  intros Hh Hc Hr Hs Hrange HS served w' resp.
  pose proof Hh as (_ & _ & Hcall).
  pose proof (doServiceMethodCall_returns (method h) _ _ arg (env_stack env)
                ran run _ Hcall Hc) as Hd.
  assert (Hq : panicked (writeErrorResponse w' resp) = None)
    by (apply writeErrorResponse_quiet; right; exact Hrange).
  assert (Hst : fst (apply_effects (effects run) (200, w)) = status)
    by (rewrite apply_effects_status, Hs; reflexivity).
  subst served. rewrite (serve_handled h env w r r1 log params elemType arg ran run
                           _ None Hh Hd).
  rewrite Hst. fold w'.
  pose proof (respond_error h env (with_Body r1 (body_after run)) log ran
                (IPointer (reflect.TPtr elemType) (Some (arg_after run)))
                status w' out msg Hr) as Hresp.
  cbv zeta in Hresp. apply Z.eqb_neq in HS. rewrite HS in Hresp.
  rewrite (Hresp Hq). fold resp.
  cbn [rw escaped].
  split; [reflexivity|].
  split; [apply writeErrorResponse_body; exact Hq|].
  intros Hl. apply recordAccess_quiet. exact Hl.
Qed.

(** The other side of the same test: a handler that sets 200, or sets no
    status, and returns an error gets the code 500. *)
Lemma status_200_becomes_500 (h : @ServiceHandler Obj Stream) (env : Env)
    (w : ResponseWriter) (r r1 : @Request Stream) (log : list (string * string))
    (params : option (list (string * string))) (elemType : reflect.Type_)
    (arg : Obj) (ran : bool) (run : @Run Obj Stream)
    (out : list (@Value Obj)) (msg : string) :
  handled h w r params elemType r1 arg ran run ->
  completion run = Returns out ->
  returned_error out = Some msg ->
  default 200 (last_status (effects run)) = 200 ->
  rw (ServeHTTPWithParams h env w r log params)
  = writeErrorResponse (snd (apply_effects (effects run) (200, w)))
      (mkFormattedResponse 500 "service method error" (IString msg)).
Proof.
  intros Hh Hc Hr Hs.
  pose proof Hh as (_ & _ & Hcall).
  pose proof (doServiceMethodCall_returns (method h) _ _ arg (env_stack env)
                ran run _ Hcall Hc) as Hd.
  rewrite (serve_handled h env w r r1 log params elemType arg ran run
             _ None Hh Hd).
  rewrite (respond_error _ _ _ _ _ _ _ _ _ msg Hr);
    rewrite apply_effects_status, Hs; [reflexivity|apply fault_answer_quiet].
Qed.

(** C7 (amended).  The responses the core writes itself, for a bind failure,
    a fault, an application error and a result, have both headers in the
    header map, and they go out with the response when nothing had been sent
    before the core wrote. *)
Theorem core_responses_carry_headers (h : @ServiceHandler Obj Stream) (env : Env)
    (w : ResponseWriter) (r : @Request Stream) (log : list (string * string))
    (params : option (list (string * string))) (elemType : reflect.Type_) :
  reflect.Elem (argType (method h)) = Some elemType ->
  let served := ServeHTTPWithParams h env w r log params in
  (forall e r1,
      parseArgument h r params (reflect.TPtr elemType) (reflect_Zero elemType)
      = (Err e, r1) ->
      core_headers (rw_header (rw served))
      /\ (rw_sent w = None -> core_headers (SentHeader (rw served))))
  /\ (forall r1 arg ran run,
         handled h w r params elemType r1 arg ran run ->
         core_response (completion run) = true ->
         core_headers (rw_header (rw served))
         /\ (rw_sent (snd (apply_effects (effects run) (200, w))) = None ->
             core_headers (SentHeader (rw served)))).
Proof.
  intros He served. split.
  - intros e r1 Hp. subst served.
    rewrite (serve_bind_failure h env w r r1 log params elemType e He Hp). simpl.
    split; [apply writeErrorResponse_header|].
    intros Hw. apply (writeErrorResponse_fresh w _ Hw). cbn. lia.
  - intros r1 arg ran run Hh Hc. subst served.
    pose proof Hh as (_ & _ & Hcall).
    destruct (completion run) as [out|v] eqn:Hr.
    + pose proof (doServiceMethodCall_returns (method h) _ _ arg (env_stack env)
                    ran run _ Hcall Hr) as Hd.
      rewrite (serve_handled h env w r r1 log params elemType arg ran run
                 _ None Hh Hd).
      simpl in Hc. destruct (returned_error out) as [msg|] eqn:Hm.
      * pose proof (returned_status_sendable h w r r1 params elemType arg ran run
                      out Hh Hr) as Hsend.
        rewrite (respond_error _ _ _ _ _ _ _ _ _ msg Hm)
          by (apply error_answer_quiet; exact Hsend).
        cbn [rw].
        split; [apply writeErrorResponse_header|].
        intros Hw. apply (writeErrorResponse_fresh _ _ Hw).
        destruct Hsend as [Hsend|Hsend]; [congruence|].
        rewrite Hsend. cbn. lia.
      * destruct out as [|[t [o|]|] [|[|e []] [|]]]; try discriminate Hc.
        rewrite respond_value. simpl.
        split; [apply writeResponse_header|].
        intros Hw. apply (writeResponse_fresh _ _ Hw).
    + assert (Hv : v <> PanicNil) by (intros ->; discriminate Hc).
      pose proof (doServiceMethodCall_recovers (method h) _ _ arg (env_stack env)
                    ran run v Hcall Hr Hv) as Hd.
      rewrite (serve_handled h env w r r1 log params elemType arg ran run
                 _ _ Hh Hd).
      rewrite respond_panicked. cbn [rw].
      split; [apply writeErrorResponse_header|].
      intros Hw. apply (writeErrorResponse_fresh _ _ Hw). cbn. lia.
Qed.

(** ** The access log *)






(** A request that does not bind is not logged. *)
Lemma bind_failure_is_not_logged (h : @ServiceHandler Obj Stream) (env : Env)
    (w : ResponseWriter) (r r1 : @Request Stream) (log : list (string * string))
    (params : option (list (string * string))) (elemType : reflect.Type_) (e : string) :
  reflect.Elem (argType (method h)) = Some elemType ->
  parseArgument h r params (reflect.TPtr elemType) (reflect_Zero elemType) = (Err e, r1) ->
  accessLog (ServeHTTPWithParams h env w r log params) = log.
Proof.
  intros He Hp. rewrite (serve_bind_failure h env w r r1 log params elemType e He Hp).
  reflexivity.
Qed.

(** ** Handlers that take a slice or a map *)

Lemma parseArgument_ok_decoded (h : @ServiceHandler Obj Stream) (r r1 : @Request Stream)
    (params : option (list (string * string))) (argPtr : reflect.Type_) (arg0 arg : Obj) :
  parseArgument h r params argPtr arg0 = (Ok arg, r1) ->
  exists src a, schema_Decode argPtr arg0 src = Ok a.
Proof.
  unfold parseArgument. intros Hp.
  destruct (if String.eqb (ToUpper (req_Method r)) "POST"
               && String.eqb (ToLower (Header_Get (req_Header r) "Content-Type"))
                    "multipart/form-data"
            then ParseMultipartForm 1024 r else ParseForm r) as [[e|] r0];
    [discriminate Hp|].
  destruct (schema_Decode argPtr arg0 (req_Form r0)) as [a|e] eqn:Hs;
    [eauto|discriminate Hp].
Qed.

Lemma call_rejected (t a elemType : reflect.Type_) :
  checkedSignature t = true ->
  reflect.In t 1 = Some a ->
  isSlice a || isStringMap a = true ->
  reflect.Elem a = Some elemType ->
  reflect.Kind_of elemType = reflect.Struct ->
  assignable_respects_kind ->
  call_accepts t (inTypes (reflect.TPtr elemType)) = false.
Proof.
  intros Hs Ha Hk He Hr Hassign.
  destruct t as [p n|n fs|e|e|k e|n ms|ins outs v]; try discriminate Hs.
  destruct ins as [|c [|a' [|b ins]]]; try discriminate Hs.
  simpl in Ha. injection Ha as ->.
  assert (Hkind : reflect.Kind_of a = reflect.Slice \/ reflect.Kind_of a = reflect.Map).
  { unfold isSlice, isStringMap in Hk.
    destruct (reflect.Kind_of a); try discriminate Hk; auto. }
  assert (Hfit : AssignableTo (reflect.TPtr elemType) a = false).
  { destruct (AssignableTo (reflect.TPtr elemType) a) eqn:E; [|reflexivity].
    exfalso.
    assert (K : reflect.Kind_of (reflect.TPtr elemType) = reflect.Kind_of a).
    { apply Hassign; [exact E|].
      destruct Hkind as [H|H]; rewrite H; discriminate. }
    simpl in K. destruct Hkind as [H|H]; rewrite H in K; discriminate K. }
  assert (Helem : AssignableTo (reflect.TPtr elemType) elemType = false).
  { destruct (AssignableTo (reflect.TPtr elemType) elemType) eqn:E; [|reflexivity].
    exfalso.
    assert (K : reflect.Kind_of (reflect.TPtr elemType) = reflect.Kind_of elemType).
    { apply Hassign; [exact E|]. rewrite Hr. discriminate. }
    simpl in K. rewrite Hr in K. discriminate K. }
  destruct v; unfold call_accepts, inTypes; simpl.
  - rewrite He. simpl. rewrite Helem. rewrite !andb_false_r. reflexivity.
  - rewrite Hfit. rewrite !andb_false_r. reflexivity.
Qed.

Lemma respond_invoked (h : @ServiceHandler Obj Stream) (env : Env)
    (r : @Request Stream) (log : list (string * string)) (ran : bool)
    (argI : @Iface Obj) (respStatus : Z) (w : ResponseWriter)
    (out : list (@Value Obj)) (methodPanic : option panicStack) :
  invoked (respond h env r log ran argI respStatus w out methodPanic) = ran.
Proof.
  unfold respond.
  repeat match goal with
         | |- context [match ?x with _ => _ end] => destruct x
         end; reflexivity.
Qed.

(** C10.  A handler registered with a slice or a map as its second
    parameter never completes a request: whatever the request, its body is
    not entered, and the response is the 400 envelope of a bind failure or
    the 500 envelope of the panic of the call, recovered. *)
Theorem slice_and_map_handlers_never_succeed (m : option (@Func Obj Stream))
    (key : option string) (bypass : bool) (h : @ServiceHandler Obj Stream)
    (env : Env) (w : ResponseWriter) (r : @Request Stream)
    (log : list (string * string)) (params : option (list (string * string))) :
  NewServiceHandler m key bypass = Ok h ->
  isSlice (argType (method h)) || isStringMap (argType (method h)) = true ->
  schema_needs_record ->
  assignable_respects_kind ->
  rw_sent w = None ->
  let served := ServeHTTPWithParams h env w r log params in
  invoked served = false
  /\ ((exists e,
          rw served
          = writeErrorResponse w
              (mkFormattedResponse 400 "parse argument failed" (IString e)))
      /\ StatusCode (rw served) = 400
      \/ rw served
         = writeErrorResponse w
             (mkFormattedResponse 500 "service method panicked"
                (IPanicStack {| Panic := reflect_CallMismatch;
                                Stack := env_stack env |}))
         /\ StatusCode (rw served) = 500).
Proof.
  intros Hreg Hk Hschema Hassign Hw served.
  destruct (registered_argType _ _ _ _ Hreg) as [_ [elemType He]].
  apply NewServiceHandler_ok in Hreg as (f & _ & Hs & Hv & Ha & _).
  destruct (parseArgument h r params (reflect.TPtr elemType) (reflect_Zero elemType))
    as [[arg|e] r1] eqn:Hp.
  - destruct (parseArgument_ok_decoded _ _ _ _ _ _ _ Hp) as (src & a & Hd).
    pose proof (Hschema _ _ _ _ Hd) as Hrec.
    pose proof (call_rejected _ _ _ Hs Ha Hk He Hrec Hassign) as Hrej.
    set (run := not_started (newContext r1 w) arg reflect_CallMismatch).
    assert (Hh : handled h w r params elemType r1 arg false run).
    { split; [exact He|]. split; [exact Hp|].
      unfold Call. rewrite Hv, Hrej. reflexivity. }
    destruct (serve_recovered h env w r r1 log params elemType arg false run
                (PanicString reflect_CallMismatch) Hh eq_refl)
      as (_ & Hserved); [discriminate|].
    subst served. rewrite Hserved. cbn.
    split; [reflexivity|]. right. split; [reflexivity|].
    apply (writeErrorResponse_fresh w
             (mkFormattedResponse 500 "service method panicked"
                (IPanicStack {| Panic := reflect_CallMismatch;
                                Stack := env_stack env |})) Hw).
    cbn. lia.
  - subst served.
    rewrite (serve_bind_failure h env w r r1 log params elemType e He Hp). cbn [invoked rw].
    split; [reflexivity|]. left. split; [eauto|].
    apply (writeErrorResponse_fresh w
             (mkFormattedResponse 400 "parse argument failed" (IString e)) Hw).
    cbn. lia.
Qed.

(** ** Binding the same request again *)

(** C8 (amended).  When the JSON pass does not apply to a request, binding
    the request as the first binding left it, into a fresh argument, gives
    the same argument again and leaves the request as it is, given that
    parsing the form again changes nothing and that the form decoder
    decides the second time, on the form and on the path parameters, as it
    did the first time. *)
Theorem binding_again_without_json (h : @ServiceHandler Obj Stream)
    (r r' : @Request Stream) (params : option (list (string * string)))
    (argPtr : reflect.Type_) (arg0 arg : Obj)
    (decode : reflect.Type_ -> Obj -> Values -> result Obj) :
  form_parsing_settles ->
  json_applies h r = false ->
  parseArgument h r params argPtr arg0 = (Ok arg, r') ->
  decides_alike decode argPtr r' params ->
  @parseArgument Obj Stream (at_another_time decode) h r' params argPtr arg0
  = (Ok arg, r').
Proof.
  intros [Hform Hmulti] Hj Hp [Hdf Hdp]. unfold json_applies in Hj.
  unfold parseArgument in *.
  cbn [at_another_time ToUpper ToLower ParseForm ParseMultipartForm schema_Decode
         json_Decode].
  rewrite Hj in Hp.
  destruct (String.eqb (ToUpper (req_Method r)) "POST"
            && String.eqb (ToLower (Header_Get (req_Header r) "Content-Type"))
                 "multipart/form-data") eqn:Hb.
  - destruct (ParseMultipartForm 1024 r) as [[e|] r1] eqn:H0; [discriminate Hp|].
    destruct (Hmulti _ _ _ H0) as (H0' & Hm & Hh).
    destruct (schema_Decode argPtr arg0 (req_Form r1)) as [a1|e] eqn:H1;
      [|discriminate Hp].
    assert (r' = r1) as -> by (destruct params; [destruct (schema_Decode _ a1 _)|];
                               congruence).
    rewrite Hm, Hh, Hj, Hb, H0', Hdf, H1.
    destruct params as [ps|]; [rewrite (Hdp ps a1 eq_refl)|]; exact Hp.
  - destruct (ParseForm r) as [[e|] r1] eqn:H0; [discriminate Hp|].
    destruct (Hform _ _ H0) as (H0' & Hm & Hh).
    destruct (schema_Decode argPtr arg0 (req_Form r1)) as [a1|e] eqn:H1;
      [|discriminate Hp].
    assert (r' = r1) as -> by (destruct params; [destruct (schema_Decode _ a1 _)|];
                               congruence).
    rewrite Hm, Hh, Hj, Hb, H0', Hdf, H1.
    destruct params as [ps|]; [rewrite (Hdp ps a1 eq_refl)|]; exact Hp.
Qed.

End Properties.

(** ** The small runtime obeys what is assumed of the libraries *)

Lemma Toy_needs_record : @schema_needs_record Toy.Obj Toy.Stream Toy.runtime.
Proof.
  intros t a a' src H. simpl in H. unfold Toy.decode_form in H.
  destruct t; try discriminate H. reflexivity.
Qed.

Lemma Toy_Plain_eqb_kind (p q : reflect.Plain) :
  Toy.Plain_eqb p q = true -> reflect.Plain_kind p = reflect.Plain_kind q.
Proof. destruct p, q; try discriminate; reflexivity. Qed.

Lemma Toy_Type_eqb_kind (x t : reflect.Type_) :
  Toy.Type_eqb x t = true -> reflect.Kind_of x = reflect.Kind_of t.
Proof.
  destruct x, t; try discriminate; try reflexivity.
  simpl. intros H. apply andb_prop in H as [H _]. apply Toy_Plain_eqb_kind. exact H.
Qed.

Lemma Toy_respects_kind : @assignable_respects_kind Toy.Obj Toy.Stream Toy.runtime.
Proof.
  intros x t H Hk. simpl in H. unfold Toy.assignable in H.
  apply orb_prop in H as [H|H]; [apply Toy_Type_eqb_kind; exact H|].
  destruct t; try discriminate H. elim Hk. reflexivity.
Qed.

Lemma Toy_parsing_settles : @form_parsing_settles Toy.Obj Toy.Stream Toy.runtime.
Proof.
  split.
  - intros r r' H. cbn [ParseForm Toy.runtime] in *. unfold Toy.parse_form in *.
    destruct (String.eqb (Toy.upper (req_Method r)) "POST"
              && String.eqb (Toy.lower (Header_Get (req_Header r) "Content-Type"))
                   "application/x-www-form-urlencoded") eqn:C.
    + destruct (req_Body r) as [[m|v|e]|] eqn:B; try discriminate H;
        injection H as <-.
      * cbn [req_Method req_Header req_Body]. rewrite C. repeat split.
      * rewrite C, B. repeat split.
    + injection H as <-. rewrite C. repeat split.
  - intros n r r' H. simpl in H. discriminate H.
Qed.

Lemma Toy_keeps_context : @form_parsing_keeps_context Toy.Obj Toy.Stream Toy.runtime.
Proof.
  split.
  - intros r r' e H. cbn [ParseForm Toy.runtime] in *. unfold Toy.parse_form in *.
    destruct (String.eqb (Toy.upper (req_Method r)) "POST"
              && String.eqb (Toy.lower (Header_Get (req_Header r) "Content-Type"))
                   "application/x-www-form-urlencoded").
    + destruct (req_Body r) as [[m|v|e']|]; injection H as _ <-; reflexivity.
    + injection H as _ <-. reflexivity.
  - intros n r r' e H. cbn in H. injection H as _ <-. reflexivity.
Qed.

(** A source supplies the value it holds under the name of a field of the
    record, and keeps every part it holds nothing for. *)
Lemma Toy_form_supplies (name : string) (fields : list string) (src : Values)
    (k v : string) :
  Toy.known fields (Toy.first_values src) !! k = Some v ->
  @form_supplies Toy.Obj Toy.Stream Toy.runtime _ (fun o => o !! k)
    (reflect.TPtr (reflect.TStruct name fields)) src (Some v).
Proof.
  intros H a a' Hd. simpl in Hd. unfold Toy.decode_form in Hd. simpl in Hd.
  injection Hd as <-. apply lookup_union_Some_l. exact H.
Qed.

Lemma Toy_form_keeps (name : string) (fields : list string) (src : Values) (k : string) :
  Toy.known fields (Toy.first_values src) !! k = None ->
  @form_keeps Toy.Obj Toy.Stream Toy.runtime _ (fun o => o !! k)
    (reflect.TPtr (reflect.TStruct name fields)) src.
Proof.
  intros H a a' Hd. simpl in Hd. unfold Toy.decode_form in Hd. simpl in Hd.
  injection Hd as <-. apply lookup_union_r. exact H.
Qed.

Lemma Toy_json_supplies (name : string) (fields : list string)
    (members : gmap string string) (k v : string) :
  Toy.known fields members !! k = Some v ->
  @json_supplies Toy.Obj Toy.Stream Toy.runtime _ (fun o => o !! k)
    (reflect.TPtr (reflect.TStruct name fields)) (Some (Toy.DocObject members)) (Some v).
Proof.
  intros H a a' rest Hd. simpl in Hd. injection Hd as <- _.
  apply lookup_union_Some_l. exact H.
Qed.

Lemma Toy_json_keeps (name : string) (fields : list string)
    (members : gmap string string) (k : string) :
  Toy.known fields members !! k = None ->
  @json_keeps Toy.Obj Toy.Stream Toy.runtime _ (fun o => o !! k)
    (reflect.TPtr (reflect.TStruct name fields)) (Some (Toy.DocObject members)).
Proof.
  intros H a a' rest Hd. simpl in Hd. injection Hd as <- _.
  apply lookup_union_r. exact H.
Qed.

(** The handlers of the samples register, as the tests expect. *)
Lemma Sample_registers (bypass : bool) :
  NewServiceHandler (Some Sample.takesArgs3) (Some Sample.loggerKey) bypass
  = Ok (Sample.handler Sample.takesArgs3 bypass)
  /\ NewServiceHandler (Some Sample.returnsNilNil) (Some Sample.loggerKey) bypass
     = Ok (Sample.handler Sample.returnsNilNil bypass)
  /\ NewServiceHandler (Some Sample.returnsNil) (Some Sample.loggerKey) bypass
     = Ok (Sample.handler Sample.returnsNil bypass)
  /\ NewServiceHandler (Some Sample.takesSlice) (Some Sample.loggerKey) bypass
     = Ok (Sample.handler Sample.takesSlice bypass).
Proof. repeat split. Qed.

(** ** The theorems at work on the requests of the tests *)

(** The test with arguments in path, body and query: C comes from the path,
    B from the body, A from the query. *)
Lemma binding_priority_witness :
  parseArgument (Sample.handler Sample.takesArgs3 false)
    (Sample.jsonPost Sample.body22 Sample.query111) Sample.pathC3
    Sample.args3 ∅
  = (Ok Sample.bound123, Sample.drained (Sample.jsonPost Sample.body22 Sample.query111))
  /\ Sample.bound123 !! "C" = Some "3"
  /\ Sample.bound123 !! "B" = Some "2"
  /\ Sample.bound123 !! "A" = Some "1".
Proof.
  assert (Hp : parseArgument (Sample.handler Sample.takesArgs3 false)
                 (Sample.jsonPost Sample.body22 Sample.query111) Sample.pathC3
                 Sample.args3 ∅
               = (Ok Sample.bound123,
                  Sample.drained (Sample.jsonPost Sample.body22 Sample.query111)))
    by (vm_compute; reflexivity).
  assert (Hm : ToUpper (req_Method (Sample.jsonPost Sample.body22 Sample.query111))
               = "POST") by reflexivity.
  assert (Hc : HasPrefix
                 (ToLower (Header_Get
                             (req_Header (Sample.jsonPost Sample.body22 Sample.query111))
                             "Content-Type")) "application/json" = true)
    by (vm_compute; reflexivity).
  split; [exact Hp|].
  split; [|split].
  - destruct (binding_priority (fun o : Toy.Obj => o !! "C") Sample.args3
                (Sample.handler Sample.takesArgs3 false)
                (Sample.jsonPost Sample.body22 Sample.query111)
                (Sample.drained (Sample.jsonPost Sample.body22 Sample.query111))
                Sample.pathC3 ∅ Sample.bound123
                Hm Hc eq_refl Hp) as (Hpath & _ & _).
    apply (Hpath _ _ eq_refl).
    apply Toy_form_supplies. vm_compute. reflexivity.
  - destruct (binding_priority (fun o : Toy.Obj => o !! "B") Sample.args3
                (Sample.handler Sample.takesArgs3 false)
                (Sample.jsonPost Sample.body22 Sample.query111)
                (Sample.drained (Sample.jsonPost Sample.body22 Sample.query111))
                Sample.pathC3 ∅ Sample.bound123
                Hm Hc eq_refl Hp) as (_ & Hjson & _).
    apply Hjson.
    + apply Toy_form_keeps. vm_compute. reflexivity.
    + apply Toy_json_supplies. vm_compute. reflexivity.
  - destruct (binding_priority (fun o : Toy.Obj => o !! "A") Sample.args3
                (Sample.handler Sample.takesArgs3 false)
                (Sample.jsonPost Sample.body22 Sample.query111)
                (Sample.drained (Sample.jsonPost Sample.body22 Sample.query111))
                Sample.pathC3 ∅ Sample.bound123
                Hm Hc eq_refl Hp) as (_ & _ & Hform).
    apply Hform.
    + apply Toy_form_keeps. vm_compute. reflexivity.
    + apply Toy_json_keeps. vm_compute. reflexivity.
    + apply Toy_form_supplies. vm_compute. reflexivity.
Defined.

(** A handler with the empty record as its argument, on the POST of an
    empty JSON object: the request binds and the body of the handler runs. *)
Lemma Sample_handled (f : @Func Toy.Obj Toy.Stream) :
  reflect.In (func_type f) 1 = Some Sample.noArgs ->
  call_accepts (func_type f) (inTypes Sample.noArgs) = true ->
  handled (Sample.handler f false) newResponseWriter
    (Sample.jsonPost Sample.emptyObject ∅) None (reflect.TStruct "" nil)
    (Sample.drained (Sample.jsonPost Sample.emptyObject ∅)) ∅ true
    (stopped newResponseWriter
       (func_call f (newContext (Sample.drained (Sample.jsonPost Sample.emptyObject ∅))
                       newResponseWriter) ∅)).
Proof.
  intros Hin Hacc. unfold handled, Sample.handler. simpl. rewrite Hin. simpl.
  split; [reflexivity|]. split; [vm_compute; reflexivity|].
  unfold Call. simpl. unfold Sample.noArgs in Hacc. rewrite Hacc. reflexivity.
Qed.

Lemma malformed_json_witness :
  StatusCode (rw (Sample.served Sample.returnsNilNil false
                    (Sample.jsonPost Sample.badBody ∅) None)) = 400
  /\ invoked (Sample.served Sample.returnsNilNil false
                (Sample.jsonPost Sample.badBody ∅) None) = false.
Proof.
  assert (Hbad : forall elemType,
             reflect.Elem (argType (method (Sample.handler Sample.returnsNilNil false)))
             = Some elemType ->
             body_rejected (Sample.jsonPost Sample.badBody ∅) (reflect.TPtr elemType))
    by (intros elemType _ arg; reflexivity).
  assert (Hm : ToUpper (req_Method (Sample.jsonPost Sample.badBody ∅)) = "POST")
    by reflexivity.
  assert (Hc : HasPrefix
                 (ToLower (Header_Get (req_Header (Sample.jsonPost Sample.badBody ∅))
                             "Content-Type")) "application/json" = true)
    by (vm_compute; reflexivity).
  destruct (malformed_json_is_rejected (Some Sample.returnsNilNil)
              (Some Sample.loggerKey) (Sample.handler Sample.returnsNilNil false)
              Sample.env0 newResponseWriter (Sample.jsonPost Sample.badBody ∅) nil None
              eq_refl Hm Hc Hbad eq_refl)
    as (_ & Hstatus & Hinvoked & _).
  split; [exact Hstatus|exact Hinvoked].
Defined.

Lemma panic_is_answered_witness :
  StatusCode (rw (Sample.served Sample.panics false
                    (Sample.jsonPost Sample.emptyObject ∅) None)) = 500
  /\ escaped (Sample.served Sample.panics false
                (Sample.jsonPost Sample.emptyObject ∅) None) = None.
Proof.
  destruct (panic_is_answered (Sample.handler Sample.panics false) Sample.env0
              newResponseWriter (Sample.jsonPost Sample.emptyObject ∅)
              (Sample.drained (Sample.jsonPost Sample.emptyObject ∅)) nil None
              (reflect.TStruct "" nil) ∅ true _ (PanicString "expected panic")
              (Sample_handled Sample.panics eq_refl eq_refl) eq_refl)
    as (_ & _ & _ & Hstatus & Hescaped); [discriminate|].
  split.
  - apply Hstatus. reflexivity.
  - apply Hescaped. right. split; reflexivity.
Defined.

Lemma explicit_status_witness :
  rw_body (rw (Sample.served (Sample.failsWithStatus 404) false
                 (Sample.jsonPost Sample.emptyObject ∅) None))
  = Toy.json_text (IFormattedResponse 404 "service method error"
                     (IString "expected error")) ++ newline.
Proof.
  destruct (explicit_status_reaches_envelope
              (Sample.handler (Sample.failsWithStatus 404) false) Sample.env0
              newResponseWriter (Sample.jsonPost Sample.emptyObject ∅)
              (Sample.drained (Sample.jsonPost Sample.emptyObject ∅)) nil None
              (reflect.TStruct "" nil) ∅ true _
              (Sample.nilResult :: Sample.expectedError :: nil) "expected error" 404
              (Sample_handled (Sample.failsWithStatus 404) eq_refl eq_refl)
              eq_refl eq_refl eq_refl)
    as (_ & Hbody & _); [lia|discriminate|].
  exact Hbody.
Defined.

Lemma core_headers_witness :
  core_headers (SentHeader (rw (Sample.served Sample.returnsNilNil false
                                  (Sample.jsonPost Sample.badBody ∅) None)))
  /\ core_headers (SentHeader (rw (Sample.served Sample.panics false
                                     (Sample.jsonPost Sample.emptyObject ∅) None))).
Proof.
  split.
  - destruct (core_responses_carry_headers
                (Sample.handler Sample.returnsNilNil false) Sample.env0
                newResponseWriter (Sample.jsonPost Sample.badBody ∅) nil None
                (reflect.TStruct "" nil) eq_refl) as (Hbind & _).
    destruct (Hbind _ _ eq_refl) as (_ & Hsent). apply Hsent. reflexivity.
  - destruct (core_responses_carry_headers
                (Sample.handler Sample.panics false) Sample.env0
                newResponseWriter (Sample.jsonPost Sample.emptyObject ∅) nil None
                (reflect.TStruct "" nil) eq_refl) as (_ & Hcall).
    destruct (Hcall _ _ _ _ (Sample_handled Sample.panics eq_refl eq_refl) eq_refl)
      as (_ & Hsent).
    apply Hsent. reflexivity.
Defined.


Lemma slice_handler_witness :
  invoked (Sample.served Sample.takesSlice false
             (Sample.jsonPost Sample.emptyObject ∅) None) = false
  /\ StatusCode (rw (Sample.served Sample.takesSlice false
                       (Sample.jsonPost Sample.emptyObject ∅) None)) = 500.
Proof.
  destruct (slice_and_map_handlers_never_succeed (Some Sample.takesSlice)
              (Some Sample.loggerKey) false (Sample.handler Sample.takesSlice false)
              Sample.env0 newResponseWriter (Sample.jsonPost Sample.emptyObject ∅)
              nil None eq_refl eq_refl Toy_needs_record Toy_respects_kind eq_refl)
    as (Hinvoked & [[[e He] Hstatus]|[_ Hstatus]]).
  - exfalso. vm_compute in Hstatus. discriminate Hstatus.
  - split; [exact Hinvoked|exact Hstatus].
Defined.

(** The POST of a URL-encoded form: the first binding reads the body into
    the form of the request, and the second binding, of the request as the
    first left it, gives the argument of the first. *)
Lemma binding_again_witness :
  req_Body Sample.formPost <> None
  /\ req_Body (snd (ParseForm Sample.formPost)) = None
  /\ parseArgument (Sample.handler Sample.takesArgs3 false)
       Sample.formPost Sample.pathC3 Sample.args3 ∅
     = (Ok Sample.bound123, snd (ParseForm Sample.formPost))
  /\ @parseArgument _ _ (at_another_time Toy.decode_form)
       (Sample.handler Sample.takesArgs3 false)
       (snd (ParseForm Sample.formPost)) Sample.pathC3 Sample.args3 ∅
     = (Ok Sample.bound123, snd (ParseForm Sample.formPost)).
Proof.
  assert (Hp : parseArgument (Sample.handler Sample.takesArgs3 false)
                 Sample.formPost Sample.pathC3 Sample.args3 ∅
               = (Ok Sample.bound123, snd (ParseForm Sample.formPost)))
    by (vm_compute; reflexivity).
  assert (Hj : json_applies (Sample.handler Sample.takesArgs3 false) Sample.formPost
               = false) by (vm_compute; reflexivity).
  split; [discriminate|]. split; [reflexivity|]. split; [exact Hp|].
  apply (binding_again_without_json (Sample.handler Sample.takesArgs3 false)
           Sample.formPost (snd (ParseForm Sample.formPost))
           Sample.pathC3 Sample.args3 ∅ Sample.bound123 Toy.decode_form
           Toy_parsing_settles Hj Hp).
  split; intros; reflexivity.
Defined.

(** ** Where the code parts from the specification *)

(** Against C3 as stated: a handler that sets the status 201 and then
    panics is answered under the status 201, not 500, although the envelope
    says 500. *)
Lemma panic_after_status_keeps_status :
  invoked (Sample.served Sample.panicsAfterStatus false
             (Sample.jsonPost Sample.emptyObject ∅) None) = true
  /\ StatusCode (rw (Sample.served Sample.panicsAfterStatus false
                       (Sample.jsonPost Sample.emptyObject ∅) None)) = 201
  /\ StatusCode (rw (Sample.served Sample.panicsAfterStatus false
                       (Sample.jsonPost Sample.emptyObject ∅) None)) <> 500
  /\ rw_body (rw (Sample.served Sample.panicsAfterStatus false
                    (Sample.jsonPost Sample.emptyObject ∅) None))
     = Toy.json_text
         (IFormattedResponse 500 "service method panicked"
            (IPanicStack {| Panic := "expected panic";
                            Stack := env_stack Sample.env0 |})) ++ newline.
Proof. vm_compute. repeat split; discriminate. Qed.

(** A handler that panics with nil is not recovered into a fault: no
    response is written and a panic leaves [ServeHTTPWithParams]. *)
Lemma nil_panic_escapes :
  escaped (Sample.served Sample.panicsNil false
             (Sample.jsonPost Sample.emptyObject ∅) None)
  = Some "return values error: []"
  /\ rw_body (rw (Sample.served Sample.panicsNil false
                    (Sample.jsonPost Sample.emptyObject ∅) None)) = EmptyString.
Proof. vm_compute. split; reflexivity. Qed.

(** C4, on the code: the handler of the test that returns nil and nil, and
    sets no status, is answered with status 200 and the body null followed
    by a newline, under the two headers: the body is not empty. *)
Theorem nil_nil_writes_null :
  StatusCode (rw (Sample.served Sample.returnsNilNil false
                    (Sample.jsonPost Sample.emptyObject ∅) None)) = 200
  /\ rw_body (rw (Sample.served Sample.returnsNilNil false
                    (Sample.jsonPost Sample.emptyObject ∅) None))
     = "null" ++ newline
  /\ rw_body (rw (Sample.served Sample.returnsNilNil false
                    (Sample.jsonPost Sample.emptyObject ∅) None)) <> EmptyString.
Proof. vm_compute. repeat split; discriminate. Qed.

(** Against C5 as stated: a handler that sets the status 200 and returns an
    error gets an envelope with the code 500, not 200. *)
Lemma status_200_is_reported_as_500 :
  last_status (effects (func_call (Sample.failsWithStatus 200)
                          (newContext (Sample.drained (Sample.jsonPost Sample.emptyObject ∅))
                             newResponseWriter) ∅)) = Some 200
  /\ rw_body (rw (Sample.served (Sample.failsWithStatus 200) false
                    (Sample.jsonPost Sample.emptyObject ∅) None))
     = Toy.json_text (IFormattedResponse 500 "service method error"
                        (IString "expected error")) ++ newline
  /\ rw_body (rw (Sample.served (Sample.failsWithStatus 200) false
                    (Sample.jsonPost Sample.emptyObject ∅) None))
     <> Toy.json_text (IFormattedResponse 200 "service method error"
                         (IString "expected error")) ++ newline.
Proof. vm_compute. repeat split; discriminate. Qed.

(** C6, on the code: a function whose second parameter is a map from string
    to an interface with a method is registered, although the parameter is
    none of the three shapes the specification and the validator's own
    message name. *)
Theorem method_map_handler_is_registered :
  NewServiceHandler (Some Sample.takesMethodMap) (Some Sample.loggerKey) false
  = Ok (Sample.handler Sample.takesMethodMap false)
  /\ reflect.In (func_type Sample.takesMethodMap) 1
     = Some (reflect.TMap Sample.stringType (reflect.TInterface "" ("M" :: nil)))
  /\ declaredSignature (func_type Sample.takesMethodMap) = false.
Proof. repeat split. Qed.

(** Against C7 as stated: the response to a handler that returns a nil
    error, and writes nothing itself, carries neither header. *)
Lemma nil_error_gets_no_headers :
  invoked (Sample.served Sample.returnsNil false
             (Sample.jsonPost Sample.emptyObject ∅) None) = true
  /\ SentHeader (rw (Sample.served Sample.returnsNil false
                       (Sample.jsonPost Sample.emptyObject ∅) None))
     !! "Content-Type" = None
  /\ SentHeader (rw (Sample.served Sample.returnsNil false
                       (Sample.jsonPost Sample.emptyObject ∅) None))
     !! "X-Content-Type-Options" = None
  /\ ~ core_headers (SentHeader (rw (Sample.served Sample.returnsNil false
                                       (Sample.jsonPost Sample.emptyObject ∅) None))).
Proof.
  repeat split; try (vm_compute; reflexivity).
  intros [_ H]. vm_compute in H. discriminate H.
Qed.

(** Against C8 as stated: the first binding of a JSON request reads the
    body; the second binding of the same request finds the stream drained
    and fails, where the first had given an argument. *)
Lemma second_binding_finds_body_drained :
  parseArgument (Sample.handler Sample.returnsNilNil false)
    (Sample.jsonPost Sample.emptyObject ∅) None Sample.noArgs ∅
  = (Ok ∅, Sample.drained (Sample.jsonPost Sample.emptyObject ∅))
  /\ parseArgument (Sample.handler Sample.returnsNilNil false)
       (Sample.drained (Sample.jsonPost Sample.emptyObject ∅)) None Sample.noArgs ∅
     = (Err "EOF", Sample.drained (Sample.jsonPost Sample.emptyObject ∅)).
Proof. split; vm_compute; reflexivity. Qed.


(** * Further properties of the code *)

(** ** The validator *)

(** X1.  The validator returns the nil error exactly for the type of a
    function of two parameters, the first a pointer to a record named
    ServiceMethodContext, the second a slice, a record pointer or a map
    with keys of kind string and values of an unnamed interface type, whose
    results are an interface named error, alone or after a record pointer;
    a nil type is refused as no function. *)
Theorem validator_accepts_the_checked_shape (t : reflect.Type_) :
  (checkServiceMethodPrototype (Some t) = None <-> checkedSignature t = true)
  /\ checkServiceMethodPrototype None = Some errNotFunction.
Proof.
  split; [apply checkServiceMethodPrototype_accepts|reflexivity].
Qed.

(** X2.  A refused type is told the first rule it breaks, in the order: a
    function, two parameters, the first parameter, the second parameter,
    the results. *)
Theorem refusal_names_first_broken_rule (t : reflect.Type_) (err : string) :
  checkServiceMethodPrototype (Some t) = Some err ->
  (err = errNotFunction /\ reflect.Kind_of t <> reflect.Func)
  \/ (err = errArity /\ reflect.Kind_of t = reflect.Func
      /\ reflect.NumIn t <> 2%nat)
  \/ (err = errFirstArgument /\ reflect.NumIn t = 2%nat
      /\ on_part (reflect.In t 0) isContextPointer = false)
  \/ (err = errSecondArgument
      /\ on_part (reflect.In t 0) isContextPointer = true
      /\ on_part (reflect.In t 1) checkedSecond = false)
  \/ (err = errReturn
      /\ on_part (reflect.In t 0) isContextPointer = true
      /\ on_part (reflect.In t 1) checkedSecond = true
      /\ match t with
         | reflect.TFunc _ outs _ => declaredReturn outs
         | _ => true
         end = false).
Proof.
  unfold checkServiceMethodPrototype.
  destruct (reflect.Kind_eqb (reflect.Kind_of t) reflect.Func) eqn:Hk; simpl.
  2:{ intros [= <-]. left. split; [reflexivity|].
      intros E. rewrite E in Hk. discriminate Hk. }
  assert (Hfunc : reflect.Kind_of t = reflect.Func)
    by (destruct (reflect.Kind_of t); try discriminate Hk; reflexivity).
  destruct (Nat.eqb (reflect.NumIn t) 2) eqn:Hn; simpl.
  2:{ intros [= <-]. right; left. split; [reflexivity|]. split; [exact Hfunc|].
      apply Nat.eqb_neq. exact Hn. }
  apply Nat.eqb_eq in Hn.
  destruct t as [p n|n fs|e|e|k e|n ms|ins outs v]; try discriminate Hn.
  destruct ins as [|c [|a [|b ins]]]; try discriminate Hn.
  change (reflect.In (reflect.TFunc (c :: a :: nil) outs v) 0) with (Some c).
  change (reflect.In (reflect.TFunc (c :: a :: nil) outs v) 1) with (Some a).
  cbv beta iota delta [on_part].
  rewrite isTypeServiceMethodContext_shape.
  destruct (isContextPointer c) eqn:Hc; simpl.
  2:{ intros [= <-]. right; right; left. repeat split. }
  rewrite <- !negb_orb, second_argument_shape.
  destruct (checkedSecond a) eqn:Ha; simpl.
  2:{ intros [= <-]. right; right; right; left. repeat split. }
  pose proof (return_shape (c :: a :: nil) outs v) as Hr. simpl in Hr.
  rewrite Hr.
  destruct (declaredReturn outs) eqn:Ho; simpl; [discriminate|].
  intros [= <-]. right; right; right; right. repeat split.
Qed.

Lemma refusal_witness :
  checkServiceMethodPrototype (Some Cases.wrongFirst) = Some errFirstArgument
  /\ on_part (reflect.In Cases.wrongFirst 0) isContextPointer = false.
Proof.
  split; [reflexivity|].
  destruct (refusal_names_first_broken_rule Cases.wrongFirst errFirstArgument eq_refl)
    as [[E _]|[[E _]|[(_ & _ & H)|[(E & _)|(E & _)]]]];
    try (vm_compute in E; discriminate E).
  exact H.
Defined.

(** ** The path parameters *)

Lemma paramValues_from (params : list (string * string)) (acc : Values) (k : string) :
  fold_left (fun vs param => Values_Set vs (fst param) (snd param)) params acc !! k
  = match last_value k params with
    | Some v => Some (v :: nil)
    | None => acc !! k
    end.
Proof.
  revert acc. induction params as [|[k' v'] params IH]; intros acc; [reflexivity|].
  simpl. rewrite IH. destruct (last_value k params); [reflexivity|].
  unfold Values_Set. simpl.
  destruct (String.eqb_spec k' k) as [->|Hne].
  - apply lookup_insert_eq.
  - apply lookup_insert_ne. exact Hne.
Qed.

(** X3.  The values built from the path parameters hold, under each key,
    the value of the last parameter with that key and nothing else, and
    nothing under a key no parameter has. *)
Theorem paramValues_last_wins (params : list (string * string)) (k : string) :
  paramValues params !! k = (fun v => v :: nil) <$> last_value k params.
Proof.
  unfold paramValues. rewrite paramValues_from, lookup_empty.
  destruct (last_value k params); reflexivity.
Qed.

Section Further.

Context {Obj Stream : Type} {R : @Runtime Obj Stream}.

(** ** The binder and the body *)

Lemma parseArgument_request_without_json (h : @ServiceHandler Obj Stream)
    (r : @Request Stream) (params : option (list (string * string)))
    (argPtr : reflect.Type_) (arg0 : Obj) :
  json_applies h r = false ->
  snd (parseArgument h r params argPtr arg0) = snd (parseForms r).
Proof.
  intros Hj. unfold json_applies in Hj. unfold parseArgument, parseForms.
  rewrite Hj.
  destruct (if String.eqb (ToUpper (req_Method r)) "POST"
               && String.eqb (ToLower (Header_Get (req_Header r) "Content-Type"))
                    "multipart/form-data"
            then ParseMultipartForm 1024 r else ParseForm r) as [[e|] r0];
    [reflexivity|].
  destruct (schema_Decode argPtr arg0 (req_Form r0)); [|reflexivity].
  destruct params; reflexivity.
Qed.

(** X4.  When the JSON pass does not apply to a request (the route bypasses
    the body, or the method is not POST, or the content type is not JSON),
    the JSON decoder is not run on the body: binding leaves the request as
    form parsing left it, and the handler is called with the body stream of
    that request. *)
Theorem binder_leaves_body_without_json (h : @ServiceHandler Obj Stream)
    (w : ResponseWriter) (r r1 : @Request Stream)
    (params : option (list (string * string))) (elemType : reflect.Type_)
    (arg : Obj) (ran : bool) (run : @Run Obj Stream) :
  handled h w r params elemType r1 arg ran run ->
  json_applies h r = false ->
  r1 = snd (parseForms r)
  /\ smc_RequestBodyReader (newContext r1 w) = req_Body (snd (parseForms r))
  /\ (ran = true ->
      run = stopped w
              (func_call (value (method h)) (newContext (snd (parseForms r)) w) arg)).
Proof.
  intros (_ & Hp & Hcall) Hj.
  pose proof (parseArgument_request_without_json h r params (reflect.TPtr elemType)
                (reflect_Zero elemType) Hj) as Hr.
  rewrite Hp in Hr. simpl in Hr. subst r1.
  split; [reflexivity|]. split; [reflexivity|].
  intros ->. unfold Call in Hcall.
  destruct (call_accepts (func_type (value (method h)))
              (inTypes (reflect.TPtr elemType))); [|discriminate Hcall].
  injection Hcall as <-. reflexivity.
Qed.

(** ** The outcomes of a request *)

(** X5.  Whatever pass made the binding fail, the request is answered on a
    writer that had sent nothing with the status 400, the two headers and
    the envelope of the error text; the handler is not called, nothing is
    logged and nothing escapes. *)
Theorem bind_failure_is_answered_400 (h : @ServiceHandler Obj Stream) (env : Env)
    (w : ResponseWriter) (r r1 : @Request Stream) (log : list (string * string))
    (params : option (list (string * string))) (elemType : reflect.Type_) (e : string) :
  reflect.Elem (argType (method h)) = Some elemType ->
  parseArgument h r params (reflect.TPtr elemType) (reflect_Zero elemType) = (Err e, r1) ->
  rw_sent w = None ->
  let served := ServeHTTPWithParams h env w r log params in
  StatusCode (rw served) = 400
  /\ core_headers (SentHeader (rw served))
  /\ rw_body (rw served)
     = rw_body w ++ encoded (IFormattedResponse 400 "parse argument failed" (IString e))
  /\ invoked served = false
  /\ accessLog served = log
  /\ escaped served = None.
Proof.
  intros He Hp Hw served. subst served.
  rewrite (serve_bind_failure h env w r r1 log params elemType e He Hp). simpl.
  destruct (writeErrorResponse_fresh w
              (mkFormattedResponse 400 "parse argument failed" (IString e)) Hw)
    as [Hs Hh]; [cbn; lia|].
  repeat split; try assumption; try apply Hh.
  apply writeErrorResponse_body. apply fault400_quiet.
Qed.

Lemma quiet_effects_keep_200 (es : list Effect) :
  forallb header_only es = true -> default 200 (last_status es) = 200.
Proof.
  induction es as [|e es IH]; [reflexivity|].
  simpl. intros H. apply andb_prop in H as [He H]. specialize (IH H).
  destruct (last_status es); [exact IH|].
  destruct e; try discriminate He. reflexivity.
Qed.

(** X6.  A handler that returns a non-nil error after touching nothing but
    the header map is answered, on a writer that had sent nothing, with the
    status 500, the two headers and the envelope
    [{code: 500, msg: service method error, data: the error text}]. *)
Theorem error_without_status_is_500 (h : @ServiceHandler Obj Stream) (env : Env)
    (w : ResponseWriter) (r r1 : @Request Stream) (log : list (string * string))
    (params : option (list (string * string))) (elemType : reflect.Type_)
    (arg : Obj) (ran : bool) (run : @Run Obj Stream)
    (out : list (@Value Obj)) (msg : string) :
  handled h w r params elemType r1 arg ran run ->
  completion run = Returns out ->
  returned_error out = Some msg ->
  forallb header_only (effects run) = true ->
  rw_sent w = None ->
  let served := ServeHTTPWithParams h env w r log params in
  StatusCode (rw served) = 500
  /\ core_headers (SentHeader (rw served))
  /\ rw_body (rw served)
     = rw_body w ++ encoded (IFormattedResponse 500 "service method error" (IString msg)).
Proof.
  intros Hh Hc Hr Hq Hw served. subst served.
  rewrite (status_200_becomes_500 h env w r r1 log params elemType arg ran run out msg
             Hh Hc Hr (quiet_effects_keep_200 _ Hq)).
  destruct (apply_effects_unsent (effects run) 200 w Hq Hw) as (_ & Hs & Hb).
  destruct (writeErrorResponse_fresh _
              (mkFormattedResponse 500 "service method error" (IString msg)) Hs)
    as [Hst Hhd]; [cbn; lia|].
  split; [exact Hst|]. split; [exact Hhd|].
  rewrite writeErrorResponse_body by apply fault_answer_quiet.
  rewrite Hb. reflexivity.
Qed.

Lemma writeResponse_late (w : ResponseWriter) (data : @Iface Obj) (s : Z * Header) :
  rw_sent w = Some s -> rw_sent (writeResponse w data) = Some s.
Proof.
  intros Hw. unfold writeResponse. apply Encode_sent.
  rewrite setResponseHeader_sent. exact Hw.
Qed.

(** X7.  A result returned with the nil error is written as it is, the JSON
    of the value and a newline, without an envelope, after what the handler
    wrote; when the handler had sent nothing the status is 200 and the two
    headers go out, and when it had, its status and headers stay. *)
Theorem result_is_written_raw (h : @ServiceHandler Obj Stream) (env : Env)
    (w : ResponseWriter) (r r1 : @Request Stream) (log : list (string * string))
    (params : option (list (string * string))) (elemType : reflect.Type_)
    (arg : Obj) (ran : bool) (run : @Run Obj Stream)
    (t e : reflect.Type_) (o : Obj) :
  handled h w r params elemType r1 arg ran run ->
  completion run = Returns (VPointer t (Some o) :: VInterface e INil :: nil) ->
  let served := ServeHTTPWithParams h env w r log params in
  let w' := snd (apply_effects (effects run) (200, w)) in
  rw_body (rw served) = rw_body w' ++ encoded (IPointer t (Some o))
  /\ (rw_sent w' = None ->
      StatusCode (rw served) = 200 /\ core_headers (SentHeader (rw served)))
  /\ (forall s, rw_sent w' = Some s -> rw_sent (rw served) = Some s).
Proof.
  intros Hh Hc served w'.
  pose proof Hh as (_ & _ & Hcall).
  pose proof (doServiceMethodCall_returns (method h) _ _ arg (env_stack env)
                ran run _ Hcall Hc) as Hd.
  subst served. rewrite (serve_handled h env w r r1 log params elemType arg ran run
                           _ None Hh Hd).
  rewrite respond_value. fold w'. simpl.
  split; [apply writeResponse_body|]. split.
  - intros Hs. apply (writeResponse_fresh _ _ Hs).
  - intros s Hs. apply writeResponse_late. exact Hs.
Qed.

(** X8.  For a handler with the error as its only result that returns nil,
    the core writes nothing: the response is the writer as the handler left
    it, status, headers and body. *)
Theorem error_only_success_writes_nothing (h : @ServiceHandler Obj Stream) (env : Env)
    (w : ResponseWriter) (r r1 : @Request Stream) (log : list (string * string))
    (params : option (list (string * string))) (elemType : reflect.Type_)
    (arg : Obj) (ran : bool) (run : @Run Obj Stream) (e : reflect.Type_) :
  handled h w r params elemType r1 arg ran run ->
  completion run = Returns (VInterface e INil :: nil) ->
  rw (ServeHTTPWithParams h env w r log params)
  = snd (apply_effects (effects run) (200, w)).
Proof.
  intros Hh Hc.
  pose proof Hh as (_ & _ & Hcall).
  pose proof (doServiceMethodCall_returns (method h) _ _ arg (env_stack env)
                ran run _ Hcall Hc) as Hd.
  rewrite (serve_handled h env w r r1 log params elemType arg ran run
             _ None Hh Hd).
  rewrite respond_nothing. reflexivity.
Qed.

Ltac respond_cases :=
  unfold respond;
  repeat first
    [ progress cbv beta iota zeta
    | progress cbn [panicked writer rw accessLog invoked escaped]
    | match goal with
      | |- context [match ?x with _ => _ end] =>
        lazymatch x with
        | context [match _ with _ => _ end] => fail
        | (_, _) => fail
        | _ => destruct x eqn:?
        end
      end ].

Lemma respond_sent_kept (h : @ServiceHandler Obj Stream) (env : Env)
    (r : @Request Stream) (log : list (string * string)) (ran : bool)
    (argI : @Iface Obj) (respStatus : Z) (w : ResponseWriter)
    (out : list (@Value Obj)) (methodPanic : option panicStack) (s : Z * Header) :
  rw_sent w = Some s ->
  rw_sent (rw (respond h env r log ran argI respStatus w out methodPanic)) = Some s.
Proof.
  intros Hw. respond_cases;
    first [exact Hw
          |apply writeErrorResponse_late; exact Hw
          |apply writeResponse_late; exact Hw].
Qed.

Lemma serve_after_call (h : @ServiceHandler Obj Stream) (env : Env)
    (w : ResponseWriter) (r r1 : @Request Stream) (log : list (string * string))
    (params : option (list (string * string))) (elemType : reflect.Type_)
    (arg : Obj) (ran : bool) (run : @Run Obj Stream) :
  handled h w r params elemType r1 arg ran run ->
  exists out methodPanic,
    doServiceMethodCall (method h) (inTypes (reflect.TPtr elemType)) (newContext r1 w)
      arg (env_stack env) = (ran, run, out, methodPanic)
    /\ ServeHTTPWithParams h env w r log params
       = respond h env (with_Body r1 (body_after run)) log ran
           (IPointer (reflect.TPtr elemType) (Some (arg_after run)))
           (fst (apply_effects (effects run) (200, w)))
           (snd (apply_effects (effects run) (200, w))) out methodPanic.
Proof.
  intros Hh. pose proof Hh as (_ & _ & Hcall).
  destruct (doServiceMethodCall (method h) (inTypes (reflect.TPtr elemType))
              (newContext r1 w) arg (env_stack env)) as [[[ran' run'] out] mp] eqn:Hd.
  assert (ran' = ran /\ run' = run) as [-> ->].
  { unfold doServiceMethodCall in Hd. rewrite Hcall in Hd.
    destruct (completion run) as [o|[| |]]; injection Hd as <- <- _ _; auto. }
  exists out, mp. split; [reflexivity|].
  apply (serve_handled h env w r r1 log params elemType arg ran run out mp Hh Hd).
Qed.

(** X9.  Once the handler has sent the response header, by the status setter
    or by a write, nothing the core does afterwards changes the status or
    the headers that went out, whatever the outcome of the call. *)
Theorem sent_status_is_final (h : @ServiceHandler Obj Stream) (env : Env)
    (w : ResponseWriter) (r r1 : @Request Stream) (log : list (string * string))
    (params : option (list (string * string))) (elemType : reflect.Type_)
    (arg : Obj) (ran : bool) (run : @Run Obj Stream) (s : Z) (sent : Header) :
  handled h w r params elemType r1 arg ran run ->
  rw_sent (snd (apply_effects (effects run) (200, w))) = Some (s, sent) ->
  let served := ServeHTTPWithParams h env w r log params in
  StatusCode (rw served) = s /\ SentHeader (rw served) = sent.
Proof.
  intros Hh Hs served.
  destruct (serve_after_call h env w r r1 log params elemType arg ran run Hh)
    as (out & mp & _ & Hserved).
  subst served. rewrite Hserved. unfold StatusCode, SentHeader.
  rewrite (respond_sent_kept _ _ _ _ _ _ _ _ _ _ (s, sent) Hs). split; reflexivity.
Qed.

(** X10.  A handler that panics with nil is not answered by the core: the
    writer stays as the handler left it, nothing is logged, and the panic
    of the missing results, whose text ends with the empty list of results,
    leaves [ServeHTTPWithParams]. *)
Theorem nil_panic_is_not_answered (h : @ServiceHandler Obj Stream) (env : Env)
    (w : ResponseWriter) (r r1 : @Request Stream) (log : list (string * string))
    (params : option (list (string * string))) (elemType : reflect.Type_)
    (arg : Obj) (ran : bool) (run : @Run Obj Stream) :
  handled h w r params elemType r1 arg ran run ->
  completion run = Panics PanicNil ->
  let served := ServeHTTPWithParams h env w r log params in
  rw served = snd (apply_effects (effects run) (200, w))
  /\ accessLog served = log
  /\ escaped served = Some "return values error: []".
Proof.
  intros Hh Hc served.
  pose proof Hh as (_ & _ & Hcall).
  assert (Hd : doServiceMethodCall (method h) (inTypes (reflect.TPtr elemType))
                 (newContext r1 w) arg (env_stack env) = (ran, run, nil, None))
    by (unfold doServiceMethodCall; rewrite Hcall, Hc; reflexivity).
  subst served.
  rewrite (serve_handled h env w r r1 log params elemType arg ran run nil None Hh Hd).
  unfold respond. cbn. repeat split.
Qed.

Lemma respond_rw_independent (h h' : @ServiceHandler Obj Stream) (env env' : Env)
    (r r' : @Request Stream) (log log' : list (string * string)) (ran : bool)
    (argI argI' : @Iface Obj) (respStatus : Z) (w : ResponseWriter)
    (out : list (@Value Obj)) (methodPanic : option panicStack) :
  rw (respond h env r log ran argI respStatus w out methodPanic)
  = rw (respond h' env' r' log' ran argI' respStatus w out methodPanic)
  /\ invoked (respond h env r log ran argI respStatus w out methodPanic)
     = invoked (respond h' env' r' log' ran argI' respStatus w out methodPanic).
Proof.
  respond_cases; split; reflexivity.
Qed.

Lemma serve_without_logger (h : @ServiceHandler Obj Stream) (env : Env)
    (w : ResponseWriter) (r : @Request Stream) (log log' : list (string * string))
    (params : option (list (string * string))) :
  rw (ServeHTTPWithParams h env w r log params)
  = rw (ServeHTTPWithParams (withoutLogger h) env w r log' params)
  /\ invoked (ServeHTTPWithParams h env w r log params)
     = invoked (ServeHTTPWithParams (withoutLogger h) env w r log' params).
Proof.
  unfold ServeHTTPWithParams. cbn [withoutLogger method].
  destruct (reflect.Elem (argType (method h))) as [elemType|]; [|split; reflexivity].
  cbv zeta.
  assert (Hp : parseArgument (withoutLogger h) r params (reflect.TPtr elemType)
                 (reflect_Zero elemType)
               = parseArgument h r params (reflect.TPtr elemType)
                   (reflect_Zero elemType)) by reflexivity.
  rewrite Hp.
  destruct (parseArgument h r params (reflect.TPtr elemType) (reflect_Zero elemType))
    as [[arg|e] r1]; [|split; reflexivity].
  destruct (doServiceMethodCall (method h) (inTypes (reflect.TPtr elemType))
              (newContext r1 w) arg (env_stack env)) as [[[ran run] out] mp].
  destruct (apply_effects (effects run) (200, w)) as [respStatus w'].
  apply respond_rw_independent.
Qed.

(** X11.  The response does not depend on logging: the same handler on a
    route without a logger key, served with any log so far, writes the same
    response to the same request and enters the handler body just as the
    route with the key does. *)
Theorem response_ignores_logging (h : @ServiceHandler Obj Stream) (env : Env)
    (w : ResponseWriter) (r : @Request Stream) (log log' : list (string * string))
    (params : option (list (string * string))) :
  rw (ServeHTTPWithParams h env w r log params)
  = rw (ServeHTTPWithParams (withoutLogger h) env w r log' params)
  /\ invoked (ServeHTTPWithParams h env w r log params)
     = invoked (ServeHTTPWithParams (withoutLogger h) env w r log' params).
Proof. apply serve_without_logger. Qed.

Lemma respond_no_hook (h : @ServiceHandler Obj Stream) (env : Env)
    (r : @Request Stream) (log : list (string * string)) (ran : bool)
    (argI : @Iface Obj) (respStatus : Z) (w : ResponseWriter)
    (out : list (@Value Obj)) (methodPanic : option panicStack) :
  hook_active h r = false ->
  accessLog (respond h env r log ran argI respStatus w out methodPanic) = log.
Proof.
  intros Hh. respond_cases; try reflexivity;
    match goal with
    | H : recordAccess _ _ _ _ _ _ = _ |- _ =>
      rewrite recordAccess_inactive in H by exact Hh; injection H as <- _; reflexivity
    end.
Qed.

Lemma parseArgument_context (h : @ServiceHandler Obj Stream)
    (r r1 : @Request Stream) (params : option (list (string * string)))
    (argPtr : reflect.Type_) (arg : Obj) (res : result Obj) :
  form_parsing_keeps_context ->
  parseArgument h r params argPtr arg = (res, r1) ->
  req_Context r1 = req_Context r.
Proof.
  intros [Hform Hmulti] Hp. unfold parseArgument in Hp.
  assert (H0 : exists e r0,
             (if String.eqb (ToUpper (req_Method r)) "POST"
                 && String.eqb (ToLower (Header_Get (req_Header r) "Content-Type"))
                      "multipart/form-data"
              then ParseMultipartForm 1024 r else ParseForm r) = (e, r0)
             /\ req_Context r0 = req_Context r).
  { destruct (String.eqb (ToUpper (req_Method r)) "POST"
              && String.eqb (ToLower (Header_Get (req_Header r) "Content-Type"))
                   "multipart/form-data").
    - destruct (ParseMultipartForm 1024 r) as [e r0] eqn:E.
      exists e, r0. split; [reflexivity|]. apply (Hmulti _ _ _ _ E).
    - destruct (ParseForm r) as [e r0] eqn:E.
      exists e, r0. split; [reflexivity|]. apply (Hform _ _ _ E). }
  destruct H0 as (e & r0 & E & Hctx). rewrite E in Hp.
  destruct e as [e|]; [injection Hp as _ <-; exact Hctx|].
  destruct (schema_Decode argPtr arg (req_Form r0)) as [a1|e1];
    [|injection Hp as _ <-; exact Hctx].
  destruct (String.eqb (ToUpper (req_Method r)) "POST" && negb (bypassRequestBody h)
            && HasPrefix (ToLower (Header_Get (req_Header r) "Content-Type"))
                 "application/json").
  - destruct (json_Decode (req_Body r0) argPtr a1) as [[a2|e2] body];
      [destruct params|]; injection Hp as _ <-; exact Hctx.
  - destruct params; injection Hp as _ <-; exact Hctx.
Qed.

(** X12.  A request whose context holds no logger under the key of the
    route, and any request on a route without a key, records nothing: the
    log is left as it was, whatever the outcome, given that parsing the
    form leaves the context of the request alone. *)
Theorem no_hook_no_record (h : @ServiceHandler Obj Stream) (env : Env)
    (w : ResponseWriter) (r : @Request Stream) (log : list (string * string))
    (params : option (list (string * string))) :
  form_parsing_keeps_context ->
  hook_active h r = false ->
  accessLog (ServeHTTPWithParams h env w r log params) = log.
Proof.
  intros Hkeep Hh. unfold ServeHTTPWithParams.
  destruct (reflect.Elem (argType (method h))) as [elemType|]; [|reflexivity].
  cbv zeta.
  destruct (parseArgument h r params (reflect.TPtr elemType) (reflect_Zero elemType))
    as [[arg|e] r1] eqn:Hp; [|reflexivity].
  destruct (doServiceMethodCall (method h) (inTypes (reflect.TPtr elemType))
              (newContext r1 w) arg (env_stack env)) as [[[ran run] out] mp].
  destruct (apply_effects (effects run) (200, w)) as [respStatus w'].
  apply respond_no_hook. rewrite hook_active_with_Body.
  unfold hook_active in *.
  rewrite (parseArgument_context h r r1 params _ _ _ Hkeep Hp). exact Hh.
Qed.


(** ** The two writers *)

(** X14.  [writeErrorResponse] always sets the two headers in the header
    map.  On a writer that has sent nothing it then sends the code of the
    envelope, when that is between 100 and 999, with the two headers, and
    appends the JSON of the envelope and a newline; for any other code
    [WriteHeader] panics, and nothing is sent or written.  On a writer that
    has sent its header it changes nothing of what was sent, whatever the
    code, and appends the envelope.  [writeResponse] sets the headers and
    appends the JSON of the value and a newline; it leaves the status at 200
    on a writer that has sent nothing, and what was sent as it is. *)
Theorem writers_contract (w : ResponseWriter) (resp : @FormattedResponse Obj)
    (data : @Iface Obj) :
  core_headers (rw_header (writeErrorResponse w resp))
  /\ (rw_sent w = None -> 100 <= Code resp <= 999 ->
      panicked (writeErrorResponse w resp) = None
      /\ StatusCode (writeErrorResponse w resp) = Code resp
      /\ core_headers (SentHeader (writeErrorResponse w resp))
      /\ rw_body (writeErrorResponse w resp) = rw_body w ++ encoded (box resp))
  /\ (rw_sent w = None -> ~ 100 <= Code resp <= 999 ->
      panicked (writeErrorResponse w resp)
      = Some ("invalid WriteHeader code " ++ Sprintf_v (Code resp))
      /\ rw_sent (writeErrorResponse w resp) = None
      /\ rw_body (writeErrorResponse w resp) = rw_body w)
  /\ (forall s, rw_sent w = Some s ->
      panicked (writeErrorResponse w resp) = None
      /\ rw_sent (writeErrorResponse w resp) = Some s
      /\ rw_body (writeErrorResponse w resp) = rw_body w ++ encoded (box resp))
  /\ core_headers (rw_header (writeResponse w data))
  /\ rw_body (writeResponse w data) = rw_body w ++ encoded data
  /\ (rw_sent w = None ->
      StatusCode (writeResponse w data) = 200
      /\ core_headers (SentHeader (writeResponse w data)))
  /\ (forall s, rw_sent w = Some s -> rw_sent (writeResponse w data) = Some s).
Proof.
  split; [apply writeErrorResponse_header|].
  split.
  { intros Hw Hc.
    assert (Hq : panicked (writeErrorResponse w resp) = None)
      by (apply writeErrorResponse_quiet; right; exact Hc).
    destruct (writeErrorResponse_fresh w resp Hw Hc) as [Hs Hh].
    split; [exact Hq|]. split; [exact Hs|]. split; [exact Hh|].
    apply writeErrorResponse_body. exact Hq. }
  split.
  { intros Hw Hc. rewrite (writeErrorResponse_refused w resp Hw Hc).
    cbn [panicked writer]. split; [reflexivity|].
    split; [rewrite setResponseHeader_sent; exact Hw|apply setResponseHeader_body]. }
  split.
  { intros s Hw.
    assert (Hq : panicked (writeErrorResponse w resp) = None)
      by (apply writeErrorResponse_quiet; left; rewrite Hw; discriminate).
    split; [exact Hq|]. split; [apply writeErrorResponse_late; exact Hw|].
    apply writeErrorResponse_body. exact Hq. }
  split; [apply writeResponse_header|].
  split; [apply writeResponse_body|].
  split; [apply writeResponse_fresh|].
  intros s. apply writeResponse_late.
Qed.

End Further.

(** X15.  [setResponseHeader] replaces whatever the two headers held, leaves
    every other key of the header map, the body and what was sent as they
    are, and setting the headers twice is setting them once. *)
Theorem setResponseHeader_touches_two_keys (w : ResponseWriter) (k : string) :
  k <> "Content-Type" -> k <> "X-Content-Type-Options" ->
  rw_header (setResponseHeader w) !! k = rw_header w !! k
  /\ core_headers (rw_header (setResponseHeader w))
  /\ rw_body (setResponseHeader w) = rw_body w
  /\ rw_sent (setResponseHeader w) = rw_sent w
  /\ setResponseHeader (setResponseHeader w) = setResponseHeader w.
Proof.
  intros Hc Hx.
  split; [|split; [apply setResponseHeader_core|split; [reflexivity|split; [reflexivity|]]]].
  - unfold setResponseHeader, SetHeader, Header_Set. simpl.
    rewrite canonical_nosniff, canonical_content_type.
    rewrite !lookup_insert_ne by congruence. reflexivity.
  - unfold setResponseHeader, SetHeader, Header_Set. simpl.
    rewrite canonical_nosniff, canonical_content_type. f_equal.
    apply map_eq. intros i.
    destruct (decide (i = "Content-Type")) as [->|Hi].
    + rewrite !lookup_insert_eq. reflexivity.
    + rewrite !(lookup_insert_ne _ "Content-Type") by congruence.
      destruct (decide (i = "X-Content-Type-Options")) as [->|Hj].
      * rewrite !lookup_insert_eq. reflexivity.
      * rewrite !(lookup_insert_ne _ "X-Content-Type-Options") by congruence.
        rewrite !(lookup_insert_ne _ "Content-Type") by congruence.
        rewrite !(lookup_insert_ne _ "X-Content-Type-Options") by congruence.
        reflexivity.
Qed.

(** ** The registration of routes *)

Section RouteProperties.

Context {Obj Stream : Type} {L : @RouterLib Obj Stream}.

Lemma RegisterRoutes_app (r : Router) (key : option string)
    (routes more : list (@Route Obj Stream)) :
  RegisterRoutes r key (app routes more)
  = match RegisterRoutes r key routes with
    | (r1, Registered) => RegisterRoutes r1 key more
    | stopped => stopped
    end.
Proof.
  revert r. induction routes as [|rt routes IH]; intros r; [reflexivity|].
  simpl.
  destruct (NewServiceHandler (Function rt) key (BypassRequestBody rt)); [|reflexivity].
  destruct (Handle r (Method rt) (Path rt) a); [apply IH|reflexivity].
Qed.

Lemma route_accepted_handler (key : option string) (rt : @Route Obj Stream) :
  route_accepted rt = true <->
  exists handler, NewServiceHandler (Function rt) key (BypassRequestBody rt) = Ok handler.
Proof.
  unfold route_accepted. split.
  - intros H.
    destruct (NewServiceHandler (Function rt) key (BypassRequestBody rt)) as [hd|e] eqn:E;
      [eauto|].
    exfalso.
    assert (Hok : is_ok (NewServiceHandler (Function rt) key (BypassRequestBody rt)) = true).
    { apply NewServiceHandler_succeeds_iff.
      destruct (Function rt) as [f|]; cbn [option_map] in H; [|discriminate H].
      exists f. split; [reflexivity|].
      apply checkServiceMethodPrototype_accepts.
      destruct (checkServiceMethodPrototype (Some (func_type f)));
        [discriminate H|reflexivity]. }
    rewrite E in Hok. discriminate Hok.
  - intros [hd E]. apply NewServiceHandler_ok in E as (f & Hf & Hs & _).
    rewrite Hf. cbn [option_map]. apply checkServiceMethodPrototype_accepts in Hs.
    rewrite Hs. reflexivity.
Qed.

(** X16.  Registration goes through the routes in order and stops at the
    first one whose function the validator refuses: it returns that
    route's error, the routes before it stay in the router, and the routes
    after it are not looked at. *)
Theorem RegisterRoutes_stops_at_first_refusal (r r1 : Router) (key : option string)
    (before after : list (@Route Obj Stream)) (bad : @Route Obj Stream) (err : string) :
  RegisterRoutes r key before = (r1, Registered) ->
  checkServiceMethodPrototype (option_map func_type (Function bad)) = Some err ->
  RegisterRoutes r key (app before (bad :: after)) = (r1, Refused err).
Proof.
  intros Hb Hbad. rewrite RegisterRoutes_app, Hb. simpl.
  unfold NewServiceHandler. rewrite Hbad. reflexivity.
Qed.

Lemma RegisterRoutes_outcome (r : Router) (key : option string)
    (routes : list (@Route Obj Stream)) :
  match snd (RegisterRoutes r key routes) with
  | Registered => forallb route_accepted routes = true
  | Refused err =>
    exists before bad after,
      routes = app before (bad :: after)
      /\ forallb route_accepted before = true
      /\ checkServiceMethodPrototype (option_map func_type (Function bad)) = Some err
  | RouterPanic msg =>
    exists before bad after,
      routes = app before (bad :: after)
      /\ forallb route_accepted before = true
      /\ route_accepted bad = true
  end.
Proof.
  revert r. induction routes as [|rt routes IH]; intros r; [reflexivity|].
  cbn [RegisterRoutes].
  destruct (NewServiceHandler (Function rt) key (BypassRequestBody rt))
    as [hd|e] eqn:Hd.
  - assert (Ha : route_accepted rt = true)
      by (apply (route_accepted_handler key); eauto).
    destruct (Handle r (Method rt) (Path rt) hd) as [r2|msg].
    + specialize (IH r2).
      destruct (snd (RegisterRoutes r2 key routes)) as [|err|msg].
      * cbn [forallb]. rewrite Ha, IH. reflexivity.
      * destruct IH as (before & bad & after & -> & Hb & Hbad).
        exists (rt :: before), bad, after.
        split; [reflexivity|]. split; [cbn [forallb]; rewrite Ha, Hb; reflexivity|].
        exact Hbad.
      * destruct IH as (before & bad & after & -> & Hb & Hbad).
        exists (rt :: before), bad, after.
        split; [reflexivity|]. split; [cbn [forallb]; rewrite Ha, Hb; reflexivity|].
        exact Hbad.
    + cbn [snd]. exists nil, rt, routes. auto.
  - cbn [snd]. exists nil, rt, routes.
    split; [reflexivity|]. split; [reflexivity|].
    unfold NewServiceHandler in Hd.
    destruct (checkServiceMethodPrototype (option_map func_type (Function rt)))
      as [err|] eqn:Hc; [congruence|].
    exfalso.
    assert (Ha : route_accepted rt = true)
      by (unfold route_accepted; rewrite Hc; reflexivity).
    apply (route_accepted_handler key) in Ha as [hd Hh].
    unfold NewServiceHandler in Hh. rewrite Hc in Hh. congruence.
Qed.

(** X17.  Whatever the router does, [RegisterRoutes] returns the nil error
    only when the validator accepts the function of every route, and an
    error only for a list with a route whose function the validator
    refuses, the first of them, with the error of the validator; a list
    whose functions are all accepted is never refused.  [NewHTTPRouter]
    returns a router exactly when it returns the nil error. *)
Theorem registration_follows_the_validator (r : Router) (key : option string)
    (routes : list (@Route Obj Stream)) :
  (snd (RegisterRoutes r key routes) = Registered ->
   forallb route_accepted routes = true)
  /\ (forall err, snd (RegisterRoutes r key routes) = Refused err ->
      exists before bad after,
        routes = app before (bad :: after)
        /\ forallb route_accepted before = true
        /\ route_accepted bad = false
        /\ checkServiceMethodPrototype (option_map func_type (Function bad)) = Some err)
  /\ (forallb route_accepted routes = true ->
      forall err, snd (RegisterRoutes r key routes) <> Refused err)
  /\ (fst (NewHTTPRouter routes) <> None <-> snd (NewHTTPRouter routes) = Registered).
Proof.
  pose proof (RegisterRoutes_outcome r key routes) as H.
  assert (Hrefused : forall err, snd (RegisterRoutes r key routes) = Refused err ->
            exists before bad after,
              routes = app before (bad :: after)
              /\ forallb route_accepted before = true
              /\ route_accepted bad = false
              /\ checkServiceMethodPrototype (option_map func_type (Function bad))
                 = Some err).
  { intros err E. rewrite E in H. destruct H as (before & bad & after & Hr & Hb & Hbad).
    exists before, bad, after. repeat split; try assumption.
    unfold route_accepted. rewrite Hbad. reflexivity. }
  split; [intros E; rewrite E in H; exact H|].
  split; [exact Hrefused|].
  split.
  - intros Hall err E.
    destruct (Hrefused err E) as (before & bad & after & -> & _ & Hbad & _).
    rewrite forallb_app in Hall. apply andb_prop in Hall as [_ Hall].
    cbn [forallb] in Hall. rewrite Hbad in Hall. discriminate Hall.
  - unfold NewHTTPRouter.
    destruct (RegisterRoutes httprouter_New
                (Some ServiceHandlerAccessLogRowFillerContextKey) routes)
      as [r1 [|err|msg]]; cbn [fst snd]; split;
      try discriminate; try reflexivity; intros E; elim E; reflexivity.
Qed.

(** X18.  A panic of the router on the method or the path of a route is not
    turned into an error: it leaves [RegisterRoutes] at that route, with the
    routes before it in the router and the routes after it not looked at. *)
Theorem router_panic_leaves_registration (r r1 : Router) (key : option string)
    (before after : list (@Route Obj Stream)) (bad : @Route Obj Stream)
    (handler : @ServiceHandler Obj Stream) (msg : string) :
  RegisterRoutes r key before = (r1, Registered) ->
  NewServiceHandler (Function bad) key (BypassRequestBody bad) = Ok handler ->
  Handle r1 (Method bad) (Path bad) handler = Err msg ->
  RegisterRoutes r key (app before (bad :: after)) = (r1, RouterPanic msg).
Proof.
  intros Hb Hh Hp. rewrite RegisterRoutes_app, Hb. simpl. rewrite Hh, Hp. reflexivity.
Qed.

End RouteProperties.

(** ** Registration and the call *)

Section FurtherCalls.

Context {Obj Stream : Type} {R : @Runtime Obj Stream}.

(** X19.  [NewServiceHandler] fails with the error of the validator and with
    no other: taking the second parameter type of an accepted function does
    not panic.  The handler it returns holds the function, the type of its
    second parameter, the logger key and the bypass flag it was given. *)
Theorem NewServiceHandler_result (m : option (@Func Obj Stream)) (key : option string)
    (bypass : bool) :
  match NewServiceHandler m key bypass with
  | Err e => checkServiceMethodPrototype (option_map func_type m) = Some e
  | Ok h =>
    exists f, m = Some f
      /\ checkServiceMethodPrototype (Some (func_type f)) = None
      /\ value (method h) = f
      /\ reflect.In (func_type f) 1 = Some (argType (method h))
      /\ loggerContextKey h = key
      /\ bypassRequestBody h = bypass
  end.
Proof.
  destruct (NewServiceHandler m key bypass) as [h|e] eqn:E.
  - apply NewServiceHandler_ok in E as (f & Hm & Hs & Hv & Ha & Hk & Hb).
    exists f. apply checkServiceMethodPrototype_accepts in Hs. auto 10.
  - unfold NewServiceHandler in E.
    destruct (checkServiceMethodPrototype (option_map func_type m)) as [e'|] eqn:Hc;
      [congruence|].
    exfalso.
    destruct m as [f|]; cbn [option_map] in Hc; [|discriminate Hc].
    assert (Hok : is_ok (NewServiceHandler (Some f) key bypass) = true).
    { apply NewServiceHandler_succeeds_iff. exists f. split; [reflexivity|].
      apply checkServiceMethodPrototype_accepts. exact Hc. }
    unfold NewServiceHandler in Hok. cbn [option_map] in Hok. rewrite Hc in Hok.
    destruct (reflect.In (func_type f) 1); [discriminate E|discriminate Hok].
Qed.

End FurtherCalls.

(** ** The further properties at work *)

(** A handler with the empty record as its argument, on a route that
    bypasses the body, on the POST of an empty JSON object: the request
    binds as it is and the body of the handler runs. *)
Lemma Sample_handled_bypass (f : @Func Toy.Obj Toy.Stream) :
  reflect.In (func_type f) 1 = Some Sample.noArgs ->
  call_accepts (func_type f) (inTypes Sample.noArgs) = true ->
  handled (Sample.handler f true) newResponseWriter
    (Sample.jsonPost Sample.emptyObject ∅) None (reflect.TStruct "" nil)
    (Sample.jsonPost Sample.emptyObject ∅) ∅ true
    (stopped newResponseWriter
       (func_call f (newContext (Sample.jsonPost Sample.emptyObject ∅)
                       newResponseWriter) ∅)).
Proof.
  intros Hin Hacc. unfold handled, Sample.handler. simpl. rewrite Hin. simpl.
  split; [reflexivity|]. split; [vm_compute; reflexivity|].
  unfold Call. simpl. unfold Sample.noArgs in Hacc. rewrite Hacc. reflexivity.
Qed.

Lemma binder_leaves_body_witness :
  json_applies (Sample.handler Cases.writesItself true)
    (Sample.jsonPost Sample.emptyObject ∅) = false
  /\ smc_RequestBodyReader
       (newContext (Sample.jsonPost Sample.emptyObject ∅) newResponseWriter)
     = Sample.emptyObject.
Proof.
  assert (Hj : json_applies (Sample.handler Cases.writesItself true)
                 (Sample.jsonPost Sample.emptyObject ∅) = false)
    by (vm_compute; reflexivity).
  split; [exact Hj|].
  destruct (binder_leaves_body_without_json
              (Sample.handler Cases.writesItself true) newResponseWriter
              (Sample.jsonPost Sample.emptyObject ∅)
              (Sample.jsonPost Sample.emptyObject ∅) None
              (reflect.TStruct "" nil) ∅ true _
              (Sample_handled_bypass Cases.writesItself eq_refl eq_refl) Hj)
    as (_ & H & _).
  exact H.
Defined.

Lemma bind_failure_witness :
  StatusCode (rw (Sample.served Sample.takesMethodMap false
                    (Sample.request "GET" "" None ∅) None)) = 400
  /\ rw_body (rw (Sample.served Sample.takesMethodMap false
                    (Sample.request "GET" "" None ∅) None))
     = Toy.json_text (IFormattedResponse 400 "parse argument failed"
                        (IString "schema: interface must be a pointer to struct"))
       ++ newline
  /\ invoked (Sample.served Sample.takesMethodMap false
                (Sample.request "GET" "" None ∅) None) = false.
Proof.
  assert (Hp : parseArgument (Sample.handler Sample.takesMethodMap false)
                 (Sample.request "GET" "" None ∅) None
                 (reflect.TPtr (reflect.TInterface "" ("M" :: nil)))
                 (reflect_Zero (reflect.TInterface "" ("M" :: nil)))
               = (Err "schema: interface must be a pointer to struct",
                  Sample.request "GET" "" None ∅))
    by (vm_compute; reflexivity).
  destruct (bind_failure_is_answered_400
              (Sample.handler Sample.takesMethodMap false) Sample.env0
              newResponseWriter (Sample.request "GET" "" None ∅)
              (Sample.request "GET" "" None ∅) nil None
              (reflect.TInterface "" ("M" :: nil))
              "schema: interface must be a pointer to struct"
              eq_refl Hp eq_refl)
    as (Hs & _ & Hb & Hi & _).
  split; [exact Hs|]. split; [exact Hb|exact Hi].
Defined.

Lemma error_without_status_witness :
  StatusCode (rw (Sample.served Cases.failsQuietly false
                    (Sample.jsonPost Sample.emptyObject ∅) None)) = 500
  /\ rw_body (rw (Sample.served Cases.failsQuietly false
                    (Sample.jsonPost Sample.emptyObject ∅) None))
     = Toy.json_text (IFormattedResponse 500 "service method error"
                        (IString "expected error")) ++ newline.
Proof.
  destruct (error_without_status_is_500
              (Sample.handler Cases.failsQuietly false) Sample.env0
              newResponseWriter (Sample.jsonPost Sample.emptyObject ∅)
              (Sample.drained (Sample.jsonPost Sample.emptyObject ∅)) nil None
              (reflect.TStruct "" nil) ∅ true _
              (Sample.nilResult :: Sample.expectedError :: nil) "expected error"
              (Sample_handled Cases.failsQuietly eq_refl eq_refl)
              eq_refl eq_refl eq_refl eq_refl)
    as (Hs & _ & Hb).
  split; [exact Hs|exact Hb].
Defined.

Lemma result_is_written_witness :
  rw_body (rw (Sample.served Cases.returnsValue false
                 (Sample.jsonPost Sample.emptyObject ∅) None))
  = Toy.json_text (IPointer Sample.resultA (Some Cases.resultA1)) ++ newline
  /\ StatusCode (rw (Sample.served Cases.returnsValue false
                       (Sample.jsonPost Sample.emptyObject ∅) None)) = 200.
Proof.
  destruct (result_is_written_raw
              (Sample.handler Cases.returnsValue false) Sample.env0
              newResponseWriter (Sample.jsonPost Sample.emptyObject ∅)
              (Sample.drained (Sample.jsonPost Sample.emptyObject ∅)) nil None
              (reflect.TStruct "" nil) ∅ true _
              Sample.resultA Sample.errorType Cases.resultA1
              (Sample_handled Cases.returnsValue eq_refl eq_refl) eq_refl)
    as (Hb & Hfresh & _).
  split; [exact Hb|]. destruct (Hfresh eq_refl) as [Hs _]. exact Hs.
Defined.

Lemma error_only_success_witness :
  rw_body (rw (Sample.served Cases.writesItself false
                 (Sample.jsonPost Sample.emptyObject ∅) None)) = "hello"
  /\ SentHeader (rw (Sample.served Cases.writesItself false
                       (Sample.jsonPost Sample.emptyObject ∅) None))
     = Header_Set ∅ "Content-Type" "text/plain".
Proof.
  pose proof (error_only_success_writes_nothing
                (Sample.handler Cases.writesItself false) Sample.env0
                newResponseWriter (Sample.jsonPost Sample.emptyObject ∅)
                (Sample.drained (Sample.jsonPost Sample.emptyObject ∅)) nil None
                (reflect.TStruct "" nil) ∅ true _ Sample.errorType
                (Sample_handled Cases.writesItself eq_refl eq_refl) eq_refl) as H.
  unfold Sample.served. rewrite H. split; reflexivity.
Defined.

Lemma sent_status_witness :
  StatusCode (rw (Sample.served (Sample.failsWithStatus 404) false
                    (Sample.jsonPost Sample.emptyObject ∅) None)) = 404.
Proof.
  apply (sent_status_is_final
           (Sample.handler (Sample.failsWithStatus 404) false) Sample.env0
           newResponseWriter (Sample.jsonPost Sample.emptyObject ∅)
           (Sample.drained (Sample.jsonPost Sample.emptyObject ∅)) nil None
           (reflect.TStruct "" nil) ∅ true _ 404 ∅
           (Sample_handled (Sample.failsWithStatus 404) eq_refl eq_refl) eq_refl).
Defined.

(** The same handler with the status 99: the writer refuses the code, the
    setter panics inside the handler, and the request is answered as a
    fault. *)
Lemma refused_status_is_a_fault :
  invoked (Sample.served (Sample.failsWithStatus 99) false
             (Sample.jsonPost Sample.emptyObject ∅) None) = true
  /\ StatusCode (rw (Sample.served (Sample.failsWithStatus 99) false
                       (Sample.jsonPost Sample.emptyObject ∅) None)) = 500
  /\ rw_body (rw (Sample.served (Sample.failsWithStatus 99) false
                    (Sample.jsonPost Sample.emptyObject ∅) None))
     = Toy.json_text
         (IFormattedResponse 500 "service method panicked"
            (IPanicStack {| Panic := "invalid WriteHeader code 99";
                            Stack := env_stack Sample.env0 |})) ++ newline
  /\ escaped (Sample.served (Sample.failsWithStatus 99) false
                (Sample.jsonPost Sample.emptyObject ∅) None) = None.
Proof. vm_compute. repeat split. Qed.

Lemma nil_panic_witness :
  rw (Sample.served Sample.panicsNil false
        (Sample.jsonPost Sample.emptyObject ∅) None) = newResponseWriter
  /\ escaped (Sample.served Sample.panicsNil false
                (Sample.jsonPost Sample.emptyObject ∅) None)
     = Some "return values error: []".
Proof.
  destruct (nil_panic_is_not_answered
              (Sample.handler Sample.panicsNil false) Sample.env0
              newResponseWriter (Sample.jsonPost Sample.emptyObject ∅)
              (Sample.drained (Sample.jsonPost Sample.emptyObject ∅)) nil None
              (reflect.TStruct "" nil) ∅ true _
              (Sample_handled Sample.panicsNil eq_refl eq_refl) eq_refl)
    as (Hw & _ & He).
  split; [exact Hw|exact He].
Defined.

(** A route with a logger key, and a request whose context holds no logger
    under that key. *)
Lemma no_hook_witness :
  loggerContextKey (Cases.otherKey Cases.returnsValue) = Some "access_log"
  /\ accessLog (ServeHTTPWithParams (Cases.otherKey Cases.returnsValue)
                  Sample.env0 newResponseWriter (Sample.jsonPost Sample.emptyObject ∅)
                  nil None) = nil.
Proof.
  split; [reflexivity|].
  apply (no_hook_no_record (Cases.otherKey Cases.returnsValue)
           Sample.env0 newResponseWriter (Sample.jsonPost Sample.emptyObject ∅) nil None
           Toy_keeps_context).
  reflexivity.
Defined.


(** The envelope of a bind failure on a fresh writer, and an envelope with
    a code that cannot be sent. *)
Lemma writers_witness :
  StatusCode (writeErrorResponse newResponseWriter
                (mkFormattedResponse 400 "parse argument failed" (IString "EOF")))
  = 400
  /\ panicked (writeErrorResponse newResponseWriter
                 (mkFormattedResponse 99 "service method error" (IString "EOF")))
     = Some "invalid WriteHeader code 99".
Proof.
  destruct (writers_contract newResponseWriter
              (mkFormattedResponse 400 "parse argument failed" (IString "EOF"))
              (@INil Toy.Obj)) as (_ & Hfresh & _).
  destruct (writers_contract newResponseWriter
              (mkFormattedResponse 99 "service method error" (IString "EOF"))
              (@INil Toy.Obj)) as (_ & _ & Hrefused & _).
  split.
  - destruct Hfresh as (_ & Hs & _); [reflexivity|cbn; lia|exact Hs].
  - destruct Hrefused as (Hp & _); [reflexivity|cbn; lia|exact Hp].
Defined.

Lemma setResponseHeader_witness :
  rw_header (setResponseHeader (SetHeader newResponseWriter "X-Request-Id" "7"))
    !! "X-Request-Id" = Some ("7" :: nil)
  /\ core_headers (rw_header (setResponseHeader
                                (SetHeader newResponseWriter "X-Request-Id" "7"))).
Proof.
  destruct (setResponseHeader_touches_two_keys
              (SetHeader newResponseWriter "X-Request-Id" "7") "X-Request-Id")
    as (Hk & Hc & _); [discriminate|discriminate|].
  split; [exact Hk|exact Hc].
Defined.

Lemma refusal_stops_witness :
  RegisterRoutes httprouter_New (Some ServiceHandlerAccessLogRowFillerContextKey)
    (Cases.addUser :: Cases.broken :: Cases.getUser :: nil)
  = (("POST", "/user/:Name",
      {| loggerContextKey := Some ServiceHandlerAccessLogRowFillerContextKey;
         method := {| value := Sample.returnsNil; argType := Sample.noArgs |};
         bypassRequestBody := false |}) :: nil,
     Refused errFirstArgument).
Proof.
  exact (@RegisterRoutes_stops_at_first_refusal _ _ Cases.router httprouter_New _
           (Some ServiceHandlerAccessLogRowFillerContextKey)
           (Cases.addUser :: nil) (Cases.getUser :: nil) Cases.broken errFirstArgument
           eq_refl eq_refl).
Defined.

(** The routes of the README register, and the router is returned. *)
Lemma registration_witness :
  forallb route_accepted (Cases.addUser :: Cases.getUser :: nil) = true
  /\ fst (@NewHTTPRouter _ _ Cases.router (Cases.addUser :: Cases.getUser :: nil))
     <> None.
Proof.
  destruct (@registration_follows_the_validator _ _ Cases.router httprouter_New
              (Some ServiceHandlerAccessLogRowFillerContextKey)
              (Cases.addUser :: Cases.getUser :: nil)) as (Hall & _ & _ & Hrouter).
  split; [apply Hall; reflexivity|].
  apply Hrouter. reflexivity.
Defined.

Lemma router_panic_witness :
  RegisterRoutes httprouter_New (Some ServiceHandlerAccessLogRowFillerContextKey)
    (Cases.addUser :: mkRoute "GET" "user" (Some Sample.returnsNilNil) true
     :: Cases.getUser :: nil)
  = (("POST", "/user/:Name",
      {| loggerContextKey := Some ServiceHandlerAccessLogRowFillerContextKey;
         method := {| value := Sample.returnsNil; argType := Sample.noArgs |};
         bypassRequestBody := false |}) :: nil,
     RouterPanic "path must begin with '/'").
Proof.
  exact (@router_panic_leaves_registration _ _ Cases.router httprouter_New _
           (Some ServiceHandlerAccessLogRowFillerContextKey)
           (Cases.addUser :: nil) (Cases.getUser :: nil)
           (mkRoute "GET" "user" (Some Sample.returnsNilNil) true) _
           "path must begin with '/'" eq_refl eq_refl eq_refl).
Defined.
